(** * GAD demo backend: gates, scoring, survivor selection and provenance

    A shallow embedding of [gad-demo/backend/app/models.py] and
    [gad-demo/backend/app/mock_data.py], and the properties of the
    evaluation pipeline established on it.

    Modelling conventions.
    - Python [float] values are exact rationals ([Q]); equalities between
      scores are therefore stated with [==] ([Qeq]).  Rounding is outside
      this model: a bound on a float that the code computes is stated with
      a rounding slack where the exact bound is reached, and where a
      statement turns on rounding itself, [Double] embeds the candidate
      generator once more with floats as IEEE 754 binary64.
    - Python [int] is [Z]; [str] is [string]; [Optional[T]] is [option T];
      a [dict] literal is an association list in insertion order.
    - The module-level generator [random] and the wall clock read by
      [datetime.now()] are ambient state: every function that touches them
      is a computation in a state monad over [World].  The generator itself
      (CPython's Mersenne Twister) is a parameter, [RandomGen]; the clock is
      an oracle giving the reading returned by the n-th call.
    - Objects shared between lists (the candidates of a generation and the
      sorted list of passing candidates) are modelled by a store, the
      candidate list, and references into it (positions). *)

From Stdlib Require Import ZArith QArith Qround Lqa List String Ascii Bool Lia.
From Stdlib Require Import Permutation Sorted DecimalString.
From Stdlib Require Import PrimFloat.
Import ListNotations.

Open Scope string_scope.
Open Scope list_scope.

(** * The embedding *)

(** ** Python primitives *)

(** [str(n)] for an [int]. *)
Definition str_of_int (n : Z) : string :=
  NilZero.string_of_int (Z.to_int n).

Fixpoint zeros (n : nat) : string :=
  match n with
  | O => EmptyString
  | S k => String "0" (zeros k)
  end.

(** [format(n, "03d")]: sign-aware zero padding to width 3. *)
Definition format_03d (n : Z) : string :=
  let digits := str_of_int (Z.abs n) in
  let sign := if (n <? 0)%Z then "-" else EmptyString in
  String.append sign
    (String.append (zeros (3 - String.length sign - String.length digits)) digits).

(** Comparisons on floats, as boolean tests. *)
Definition Qgeb (a b : Q) : bool := Qle_bool b a.
Definition Qltb (a b : Q) : bool := negb (Qle_bool b a).
Definition Qgtb (a b : Q) : bool := negb (Qle_bool a b).

(** [d[k]] on a dict literal.  Every use below looks up a key the literal
    defines (see [weights_defined]), so the [KeyError] branch is dead. *)
Fixpoint dict_get (d : list (string * Q)) (k : string) : Q :=
  match d with
  | [] => 0
  | (k', v) :: rest => if String.eqb k k' then v else dict_get rest k
  end.

(** [l[i] = f(l[i])] through a reference: the object at position [i] of the
    store is replaced, every other object is left alone. *)
Fixpoint update_at {A : Type} (i : nat) (f : A -> A) (l : list A) {struct l}
    : list A :=
  match l, i with
  | [], _ => []
  | x :: rest, O => f x :: rest
  | x :: rest, S j => x :: update_at j f rest
  end.

(** [list.sort(key=..., reverse=True)]: a stable sort, descending by key;
    elements with equal keys keep their original relative order. *)
Section StableSort.
Context {A : Type} (key : A -> Q).

Fixpoint insert_desc (x : A) (l : list A) : list A :=
  match l with
  | [] => [x]
  | y :: rest =>
      if Qltb (key x) (key y) then y :: insert_desc x rest
      else x :: y :: rest
  end.

Fixpoint sort_desc (l : list A) : list A :=
  match l with
  | [] => []
  | x :: rest => insert_desc x (sort_desc rest)
  end.
End StableSort.

(** ** State monad for the ambient generator and clock *)

Definition State (S A : Type) : Type := S -> A * S.

Definition ret {S A : Type} (a : A) : State S A := fun s => (a, s).

Definition bind {S A B : Type} (m : State S A) (k : A -> State S B) : State S B :=
  fun s => let (a, s') := m s in k a s'.

Notation "x <- m ;; k" := (bind m (fun x => k))
  (at level 61, m at next level, right associativity).

Fixpoint mapM {S A B : Type} (f : A -> State S B) (l : list A) : State S (list B) :=
  match l with
  | [] => ret []
  | x :: rest => y <- f x ;; ys <- mapM f rest ;; ret (y :: ys)
  end.

(** ** models.py *)

Module PromptDNA.
Record t := mk {
  id : string;
  system_prompt : string;
  task_description : string;
  constraints : list string;
  examples : list string;
  temperature : Q;
  top_p : Q;
  feedback_history : list string;
  generation : Z;
  parent_ids : list string;
  mutations : list (list (string * string));
  trust_region_similarity : option Q
}.
End PromptDNA.

Module Metrics.
Record t := mk {
  test_pass_rate : Q;
  coverage : Q;
  performance_score : Q;
  security_score : Q;
  ux_score : Q;
  style_score : Q;
  license_compliance : bool;
  vulnerability_count : Z
}.
End Metrics.

Module GateResult.
Record t := mk {
  gate_name : string;
  passed : bool;
  message : string;
  threshold : option Q;
  actual : option Q
}.
End GateResult.

Module ReviewerComment.
Record t := mk {
  reviewer_id : string;
  reviewer_type : string;
  timestamp : string;
  severity : string;
  category : string;
  message : string;
  line_numbers : option (list Z)
}.
End ReviewerComment.

Module Candidate.
Record t := mk {
  id : string;
  generation : Z;
  parent_ids : list string;
  prompt_dna_id : string;
  prompt_dna_summary : string;
  metrics : Metrics.t;
  effective_score : Q;
  weighted_scores : list (string * Q);
  gates_passed : bool;
  gate_results : list GateResult.t;
  is_pareto_front : bool;
  selected_for_breeding : bool;
  survival_reason : option string;
  branch : string;
  commit_id : string;
  generator_agent_id : string;
  reviewer_comments : list ReviewerComment.t
}.

(** Attribute assignments [c.selected_for_breeding = v] and the like. *)
Definition set_selected_for_breeding (v : bool) (c : t) : t :=
  mk (id c) (generation c) (parent_ids c) (prompt_dna_id c)
     (prompt_dna_summary c) (metrics c) (effective_score c)
     (weighted_scores c) (gates_passed c) (gate_results c)
     (is_pareto_front c) v (survival_reason c)
     (branch c) (commit_id c) (generator_agent_id c) (reviewer_comments c).

Definition set_is_pareto_front (v : bool) (c : t) : t :=
  mk (id c) (generation c) (parent_ids c) (prompt_dna_id c)
     (prompt_dna_summary c) (metrics c) (effective_score c)
     (weighted_scores c) (gates_passed c) (gate_results c)
     v (selected_for_breeding c) (survival_reason c)
     (branch c) (commit_id c) (generator_agent_id c) (reviewer_comments c).

Definition set_survival_reason (v : option string) (c : t) : t :=
  mk (id c) (generation c) (parent_ids c) (prompt_dna_id c)
     (prompt_dna_summary c) (metrics c) (effective_score c)
     (weighted_scores c) (gates_passed c) (gate_results c)
     (is_pareto_front c) (selected_for_breeding c) v
     (branch c) (commit_id c) (generator_agent_id c) (reviewer_comments c).
End Candidate.

Module AgentProfile.
Record t := mk {
  id : string;
  name : string;
  type : string;
  specialization : string;
  reliability_score : option Q;
  generations_participated : Z;
  successful_candidates : option Z
}.
End AgentProfile.

Module UCBStats.
Record t := mk {
  agent_id : string;
  mean_reward : Q;
  confidence_interval : Q;
  exploration_bonus : Q;
  total_score : Q;
  times_selected : Z
}.
End UCBStats.

Module ParetoPoint.
Record t := mk {
  candidate_id : string;
  objective1 : Q;
  objective2 : Q;
  label : string
}.
End ParetoPoint.

Module Generation.
Record t := mk {
  number : Z;
  candidates : list Candidate.t;
  pareto_front : list ParetoPoint.t;
  ucb_allocations : list UCBStats.t;
  survivors : list string;
  breeding_pairs : list (string * string);
  summary : string
}.
End Generation.

Module CodeLayer.
Record t := mk {
  branch : string;
  commit_id : string;
  diff_summary : string;
  files_changed : Z;
  lines_added : Z;
  lines_removed : Z;
  diff_url : option string
}.
End CodeLayer.

Module EvaluatorLayer.
Record t := mk {
  reviewer_reliabilities : list (string * Q);
  anti_cheat_seed : string;
  ucb_stats : list UCBStats.t;
  policy_version : string;
  merkle_root : string
}.
End EvaluatorLayer.

Module DNABundle.
Record t := mk {
  id : string;
  candidate_id : string;
  code_layer : CodeLayer.t;
  prompt_layer : PromptDNA.t;
  evaluator_layer : EvaluatorLayer.t;
  provenance_hash : string;
  parent_hashes : list string;
  timestamp : string
}.
End DNABundle.

Module RPGNode.
Record t := mk {
  id : string;
  type : string;
  name : string;
  description : string;
  status : string
}.
End RPGNode.

Module RPGEdge.
Record t := mk {
  source : string;
  target : string;
  type : string
}.
End RPGEdge.

Module RepositoryPlanningGraph.
Record t := mk {
  nodes : list RPGNode.t;
  edges : list RPGEdge.t
}.
End RepositoryPlanningGraph.

Module GADRun.
Record t := mk {
  id : string;
  name : string;
  requirement : string;
  total_generations : Z;
  generations : list Generation.t;
  final_candidate_id : option string;
  rpg : RepositoryPlanningGraph.t;
  agents : list AgentProfile.t
}.
End GADRun.

(** ** The [random] module

    The operations of Python's [random] that the generator uses, over an
    abstract generator state. *)

Record RandomGen := {
  rng_state : Type;
  rng_seed : Z -> rng_state;
  rng_random : rng_state -> Q * rng_state;
  rng_randint : Z -> Z -> rng_state -> Z * rng_state;
  rng_sample : list string -> nat -> rng_state -> list string * rng_state
}.

(** The part of the contract of [random] that the pipeline relies on:
    [random()] is in [0, 1) and [randint(a, b)] is in [a, b]. *)
Record RandomLaws (R : RandomGen) : Prop := {
  rng_random_range :
    forall s, (0 <= fst (rng_random R s) /\ fst (rng_random R s) < 1)%Q;
  rng_randint_range :
    forall a b s, (a <= b)%Z ->
      (a <= fst (rng_randint R a b s) <= b)%Z
}.

(** ** mock_data.py *)

Section MockData.

Variable R : RandomGen.
(** [clock n] is the ISO string that the n-th call of
    [datetime.now().isoformat()] in the process returns. *)
Variable clock : nat -> string.

Record World := mkWorld {
  w_rng : rng_state R;
  w_reads : nat
}.

Definition M (A : Type) : Type := State World A.

(** [random.seed(n)] *)
Definition seed (n : Z) : M unit :=
  fun w => (tt, mkWorld (rng_seed R n) (w_reads w)).

(** [random.random()] *)
Definition random : M Q :=
  fun w => let (x, s) := rng_random R (w_rng w) in (x, mkWorld s (w_reads w)).

(** [random.randint(a, b)] *)
Definition randint (a b : Z) : M Z :=
  fun w => let (x, s) := rng_randint R a b (w_rng w) in (x, mkWorld s (w_reads w)).

(** [random.sample(population, k)] *)
Definition sample (population : list string) (k : nat) : M (list string) :=
  fun w =>
    let (x, s) := rng_sample R population k (w_rng w) in (x, mkWorld s (w_reads w)).

(** [datetime.now().isoformat()] *)
Definition now_isoformat : M string :=
  fun w => (clock (w_reads w), mkWorld (w_rng w) (S (w_reads w))).

Definition generate_prompt_dna (generation : Z) (candidate_id : string)
    (parent_ids : list string) : M PromptDNA.t :=
  let base_task :=
    "Implement a secure REST API endpoint for user authentication with JWT tokens" in
  mutations <-
    (if (0 <? generation)%Z then
       r1 <- random ;;
       let mutations1 :=
         if Qgtb r1 0.5 then
           [ [("type", "feedback_integration");
              ("change",
               "Added explicit error handling requirements from reviewer feedback")] ]
         else [] in
       r2 <- random ;;
       ret (if Qgtb r2 0.7 then
              mutations1 ++
              [ [("type", "constraint_refinement");
                 ("change",
                  "Tightened security constraints based on vulnerability scan")] ]
            else mutations1)
     else ret []) ;;
  let feedback_history :=
    if (0 <? generation)%Z then
      [ String.append "Gen "
          (String.append (str_of_int (generation - 1)) ": Improve input validation");
        String.append "Gen "
          (String.append (str_of_int (generation - 1)) ": Add rate limiting") ]
    else [] in
  similarity <-
    (if (0 <? generation)%Z then
       r <- random ;; ret (Some (0.85 + r * 0.1)%Q)
     else ret None) ;;
  ret (PromptDNA.mk
         (String.append "prompt-dna-" candidate_id)
         "You are an expert backend engineer specializing in secure API development."
         (String.append base_task
            (if (0 <? generation)%Z then
               String.append " [Gen "
                 (String.append (str_of_int generation) " refinement]")
             else EmptyString))
         [ "Must use bcrypt for password hashing";
           "JWT tokens must expire in 15 minutes";
           "Rate limit: 10 requests per minute per IP";
           "All inputs must be validated and sanitized" ]
         [ "Example: POST /auth/login with email and password";
           "Example: Return JWT token on success, 401 on failure" ]
         0.7%Q
         0.9%Q
         feedback_history
         generation
         parent_ids
         mutations
         similarity).

Definition generate_metrics (generation : Z) (is_good : bool) : M Metrics.t :=
  if is_good then
    r1 <- random ;; r2 <- random ;; r3 <- random ;;
    r4 <- random ;; r5 <- random ;; r6 <- random ;;
    v <- randint 0 1 ;;
    ret (Metrics.mk
           (0.95 + r1 * 0.05)%Q
           (0.85 + r2 * 0.1)%Q
           (85 + r3 * 10)%Q
           (90 + r4 * 10)%Q
           (80 + r5 * 15)%Q
           (90 + r6 * 10)%Q
           true
           v)
  else
    r1 <- random ;; r2 <- random ;; r3 <- random ;;
    r4 <- random ;; r5 <- random ;; r6 <- random ;;
    r7 <- random ;;
    v <- randint 2 8 ;;
    ret (Metrics.mk
           (0.6 + r1 * 0.2)%Q
           (0.5 + r2 * 0.2)%Q
           (50 + r3 * 30)%Q
           (40 + r4 * 40)%Q
           (50 + r5 * 30)%Q
           (60 + r6 * 30)%Q
           (Qgtb r7 0.3)
           v).

Definition gates_of (metrics : Metrics.t) : list GateResult.t :=
  [ GateResult.mk
      "Minimum Test Pass Rate"
      (Qgeb (Metrics.test_pass_rate metrics) 0.8)
      "All critical tests must pass"
      (Some 0.8%Q)
      (Some (Metrics.test_pass_rate metrics));
    GateResult.mk
      "Security Threshold"
      (Qgeb (Metrics.security_score metrics) 70)
      "Security score must meet minimum threshold"
      (Some 70.0%Q)
      (Some (Metrics.security_score metrics));
    GateResult.mk
      "Zero Critical Vulnerabilities"
      (Metrics.vulnerability_count metrics =? 0)%Z
      "No critical vulnerabilities allowed"
      (Some 0.0%Q)
      (Some (inject_Z (Metrics.vulnerability_count metrics)));
    GateResult.mk
      "License Compliance"
      (Metrics.license_compliance metrics)
      "All dependencies must have compatible licenses"
      None
      None ].

Definition generate_gate_results (metrics : Metrics.t) : bool * list GateResult.t :=
  let gates := gates_of metrics in
  let all_passed := forallb GateResult.passed gates in
  (all_passed, gates).

Definition generate_reviewer_comments (metrics : Metrics.t) (gates_passed : bool)
    : M (list ReviewerComment.t) :=
  comments1 <-
    (if negb gates_passed then
       ts <- now_isoformat ;;
       ret [ ReviewerComment.mk
               "reviewer-security-001" "security" ts "critical" "security"
               "SQL injection vulnerability detected in login endpoint"
               (Some [45; 46; 47]%Z) ]
     else ret []) ;;
  comments2 <-
    (if Qltb (Metrics.performance_score metrics) 80 then
       ts <- now_isoformat ;;
       ret (comments1 ++
            [ ReviewerComment.mk
                "reviewer-performance-001" "performance" ts "warning" "performance"
                "Database query not optimized, consider adding index"
                (Some [78; 79]%Z) ])
     else ret comments1) ;;
  (if Qgtb (Metrics.ux_score metrics) 85 then
     ts <- now_isoformat ;;
     ret (comments2 ++
          [ ReviewerComment.mk
              "reviewer-ux-001" "ux" ts "info" "ux"
              "Error messages are clear and actionable - excellent UX"
              None ])
   else ret comments2).

(** The [weights] dict of [generate_candidate]. *)
Definition weights : list (string * Q) :=
  [ ("test_pass_rate", 0.25%Q);
    ("security", 0.25%Q);
    ("performance", 0.15%Q);
    ("ux", 0.15%Q);
    ("coverage", 0.10%Q);
    ("style", 0.10%Q) ].

(** The scoring block of [generate_candidate]: the aggregate, the gate
    penalty and the per-dimension breakdown, as a function of the two
    locals it reads. *)
Definition effective_score_of (metrics : Metrics.t) (gates_passed : bool) : Q :=
  let effective_score :=
    (Metrics.test_pass_rate metrics * dict_get weights "test_pass_rate" * 100 +
     Metrics.security_score metrics * dict_get weights "security" +
     Metrics.performance_score metrics * dict_get weights "performance" +
     Metrics.ux_score metrics * dict_get weights "ux" +
     Metrics.coverage metrics * dict_get weights "coverage" * 100 +
     Metrics.style_score metrics * dict_get weights "style")%Q in
  if negb gates_passed then (effective_score * 0.5)%Q else effective_score.

Definition weighted_scores_of (metrics : Metrics.t) : list (string * Q) :=
  [ ("test_pass_rate",
     (Metrics.test_pass_rate metrics * dict_get weights "test_pass_rate" * 100)%Q);
    ("security", (Metrics.security_score metrics * dict_get weights "security")%Q);
    ("performance",
     (Metrics.performance_score metrics * dict_get weights "performance")%Q);
    ("ux", (Metrics.ux_score metrics * dict_get weights "ux")%Q);
    ("coverage", (Metrics.coverage metrics * dict_get weights "coverage" * 100)%Q);
    ("style", (Metrics.style_score metrics * dict_get weights "style")%Q) ].

Definition generate_candidate (gen_num candidate_num : Z) (parent_ids : list string)
    (is_good is_pareto selected : bool) : M Candidate.t :=
  let cand_id :=
    String.append "gen"
      (String.append (str_of_int gen_num)
         (String.append "-cand" (str_of_int candidate_num))) in
  metrics <- generate_metrics gen_num is_good ;;
  let (gates_passed, gate_results) := generate_gate_results metrics in
  comments <- generate_reviewer_comments metrics gates_passed ;;
  let effective_score := effective_score_of metrics gates_passed in
  let weighted_scores := weighted_scores_of metrics in
  let survival_reason :=
    if selected then
      if is_pareto then Some "Pareto optimal (quality vs. performance trade-off)"
      else Some "High effective score with all gates passed"
    else None in
  prompt_dna <- generate_prompt_dna gen_num cand_id parent_ids ;;
  agent <- randint 1 3 ;;
  ret (Candidate.mk
         cand_id
         gen_num
         parent_ids
         (PromptDNA.id prompt_dna)
         (String.append (substring 0 100 (PromptDNA.task_description prompt_dna)) "...")
         metrics
         effective_score
         weighted_scores
         gates_passed
         gate_results
         is_pareto
         selected
         survival_reason
         (String.append "gad/gen"
            (String.append (str_of_int gen_num) (String.append "/" cand_id)))
         (String.append "abc"
            (String.append (str_of_int gen_num)
               (String.append (format_03d candidate_num) "def")))
         (String.append "generator-" (format_03d agent))
         comments).

(** *** [generate_generation]

    The candidate list is the store; [passing_candidates] and [survivors]
    are lists of references (positions) into it, so an assignment through a
    survivor is seen through [candidates] as well. *)

Definition attr {A : Type} (f : Candidate.t -> A) (d : A)
    (store : list Candidate.t) (r : nat) : A :=
  match nth_error store r with
  | Some c => f c
  | None => d
  end.

(** [[c for c in candidates if c.gates_passed]] *)
Definition passing_refs (store : list Candidate.t) : list nat :=
  filter (attr Candidate.gates_passed false store) (seq 0 (List.length store)).

(** The three assignments made to one survivor. *)
Definition mark_survivor (pareto : bool) (c : Candidate.t) : Candidate.t :=
  let c1 := Candidate.set_selected_for_breeding true c in
  let c2 := Candidate.set_is_pareto_front pareto c1 in
  Candidate.set_survival_reason
    (Some (if Candidate.is_pareto_front c2 then "Pareto optimal"
           else "High effective score"))
    c2.

(** [for survivor in survivors: ...] *)
Fixpoint mark_survivors (survivors : list nat) (store : list Candidate.t)
    : M (list Candidate.t) :=
  match survivors with
  | [] => ret store
  | r :: rest =>
      x <- random ;;
      mark_survivors rest (update_at r (mark_survivor (Qgtb x 0.5)) store)
  end.

(** Lines 267-280: the survivor-selection pass.  Returns the store after
    the pass and the survivor references in rank order. *)
Definition select_survivors (candidates : list Candidate.t)
    : M (list Candidate.t * list nat) :=
  let passing_candidates :=
    sort_desc (attr Candidate.effective_score 0%Q candidates)
      (passing_refs candidates) in
  if (2 <=? List.length passing_candidates)%nat then
    let survivors := firstn 3 passing_candidates in
    store <- mark_survivors survivors candidates ;;
    ret (store, survivors)
  else ret (candidates, []).

(** Lines 283-290: one point per candidate. *)
Definition pareto_points (candidates : list Candidate.t) : list ParetoPoint.t :=
  map (fun cand =>
         ParetoPoint.mk
           (Candidate.id cand)
           (Metrics.security_score (Candidate.metrics cand))
           (Metrics.performance_score (Candidate.metrics cand))
           (Candidate.id cand))
      candidates.

(** Lines 293-318: the allocation snapshot. *)
Definition generate_ucb_allocations (gen_num : Z) : M (list UCBStats.t) :=
  r1 <- random ;;
  r2 <- random ;;
  r3 <- random ;;
  ret [ UCBStats.mk "generator-001" (0.75 + r1 * 0.2)%Q 0.05%Q 0.08%Q 0.88%Q
          (gen_num * 3 + 5)%Z;
        UCBStats.mk "generator-002" (0.70 + r2 * 0.15)%Q 0.08%Q 0.12%Q 0.85%Q
          (gen_num * 2 + 4)%Z;
        UCBStats.mk "generator-003" (0.65 + r3 * 0.15)%Q 0.10%Q 0.15%Q 0.82%Q
          (gen_num * 2 + 2)%Z ].

(** Lines 321-325. *)
Definition make_breeding_pairs (survivor_ids : list string) : list (string * string) :=
  match survivor_ids with
  | s0 :: s1 :: rest =>
      (s0, s1) :: match rest with
                  | s2 :: _ => [(s0, s2)]
                  | [] => []
                  end
  | _ => []
  end.

(** The body of the candidate loop, for index [i]. *)
Definition generate_nth_candidate (gen_num : Z) (parent_candidates : list string)
    (i : nat) : M Candidate.t :=
  r <- random ;;
  let is_good := Qltb r (0.3 + inject_Z gen_num * 0.15)%Q in
  parents <-
    (if (gen_num =? 0)%Z then ret []
     else sample parent_candidates (Nat.min 2 (List.length parent_candidates))) ;;
  generate_candidate gen_num (Z.of_nat i) parents is_good false false.

Definition generate_generation (gen_num : Z) (parent_candidates : list string)
    : M Generation.t :=
  num_candidates <- (if (gen_num =? 0)%Z then ret 8%Z else randint 6 8) ;;
  candidates <-
    mapM (generate_nth_candidate gen_num parent_candidates)
      (seq 0 (Z.to_nat num_candidates)) ;;
  selection <- select_survivors candidates ;;
  let (candidates, survivors) := selection in
  let pareto_points := pareto_points candidates in
  ucb_allocations <- generate_ucb_allocations gen_num ;;
  let survivor_ids := map (attr Candidate.id EmptyString candidates) survivors in
  let breeding_pairs := make_breeding_pairs survivor_ids in
  let summary :=
    String.append "Generation "
      (String.append (str_of_int gen_num)
         (String.append ": "
            (String.append (str_of_int (Z.of_nat (List.length candidates)))
               (String.append " candidates, "
                  (String.append (str_of_int (Z.of_nat (List.length survivors)))
                     " survivors"))))) in
  ret (Generation.mk gen_num candidates pareto_points ucb_allocations
         survivor_ids breeding_pairs summary).

Definition generate_agents : list AgentProfile.t :=
  [ AgentProfile.mk "generator-001" "CodeCraft Pro" "generator"
      "Security-focused backend development" None 5 (Some 8%Z);
    AgentProfile.mk "generator-002" "SwiftCode AI" "generator"
      "High-performance API design" None 5 (Some 6%Z);
    AgentProfile.mk "generator-003" "CleanCode Engine" "generator"
      "Test-driven development" None 4 (Some 4%Z);
    AgentProfile.mk "reviewer-security-001" "SecureGuard" "reviewer"
      "Security & vulnerability analysis" (Some 0.95%Q) 5 None;
    AgentProfile.mk "reviewer-performance-001" "SpeedChecker" "reviewer"
      "Performance & optimization" (Some 0.88%Q) 5 None;
    AgentProfile.mk "reviewer-ux-001" "UXValidator" "reviewer"
      "User experience & API design" (Some 0.92%Q) 5 None;
    AgentProfile.mk "reviewer-quality-001" "QualityGate" "reviewer"
      "Code quality & maintainability" (Some 0.90%Q) 5 None ].

Definition generate_rpg : RepositoryPlanningGraph.t :=
  RepositoryPlanningGraph.mk
    [ RPGNode.mk "cap-auth" "capability" "User Authentication"
        "Complete authentication system" "implemented";
      RPGNode.mk "mod-api" "module" "API Module"
        "REST API handlers" "implemented";
      RPGNode.mk "mod-db" "module" "Database Module"
        "Database access layer" "implemented";
      RPGNode.mk "file-auth-py" "file" "auth.py"
        "Authentication handlers" "implemented";
      RPGNode.mk "file-models-py" "file" "models.py"
        "Data models" "implemented";
      RPGNode.mk "func-login" "function" "login()"
        "Handle user login" "tested";
      RPGNode.mk "func-verify-token" "function" "verify_token()"
        "Verify JWT token" "tested";
      RPGNode.mk "test-auth" "test" "test_auth.py"
        "Authentication tests" "implemented";
      RPGNode.mk "test-security" "test" "test_security.py"
        "Security tests" "implemented" ]
    [ RPGEdge.mk "cap-auth" "mod-api" "implements";
      RPGEdge.mk "cap-auth" "mod-db" "depends";
      RPGEdge.mk "mod-api" "file-auth-py" "implements";
      RPGEdge.mk "mod-api" "file-models-py" "depends";
      RPGEdge.mk "file-auth-py" "func-login" "implements";
      RPGEdge.mk "file-auth-py" "func-verify-token" "implements";
      RPGEdge.mk "func-login" "func-verify-token" "calls";
      RPGEdge.mk "test-auth" "func-login" "tested_by";
      RPGEdge.mk "test-security" "func-verify-token" "tested_by" ].

Definition generate_dna_bundle (candidate : Candidate.t) : M DNABundle.t :=
  prompt_dna <-
    generate_prompt_dna (Candidate.generation candidate) (Candidate.id candidate)
      (Candidate.parent_ids candidate) ;;
  let code_layer :=
    CodeLayer.mk
      (Candidate.branch candidate)
      (Candidate.commit_id candidate)
      "Added JWT authentication with bcrypt password hashing"
      5 234 12
      (Some (String.append "https://github.com/example/gad-run/commit/"
               (Candidate.commit_id candidate))) in
  let evaluator_layer :=
    EvaluatorLayer.mk
      [ ("reviewer-security-001", 0.95%Q);
        ("reviewer-performance-001", 0.88%Q);
        ("reviewer-ux-001", 0.92%Q);
        ("reviewer-quality-001", 0.90%Q) ]
      (String.append "seed-" (Candidate.id candidate))
      [ UCBStats.mk (Candidate.generator_agent_id candidate)
          0.75%Q 0.05%Q 0.08%Q 0.88%Q 15 ]
      "v1.2.0"
      (String.append "merkle-" (Candidate.commit_id candidate)) in
  ts <- now_isoformat ;;
  ret (DNABundle.mk
         (String.append "bundle-" (Candidate.id candidate))
         (Candidate.id candidate)
         code_layer
         prompt_dna
         evaluator_layer
         (String.append "hash-" (Candidate.id candidate))
         (map (fun pid => String.append "hash-" pid) (Candidate.parent_ids candidate))
         ts).

(** The loop of [create_sample_run]: the survivors of one generation are
    the parent pool of the next. *)
Fixpoint run_generations (gen_nums : list Z) (parent_ids : list string)
    : M (list Generation.t) :=
  match gen_nums with
  | [] => ret []
  | i :: rest =>
      gen <- generate_generation i parent_ids ;;
      gens <- run_generations rest (Generation.survivors gen) ;;
      ret (gen :: gens)
  end.

Definition create_sample_run : M GADRun.t :=
  _ <- seed 42 ;;
  let requirement :=
    String.append
      "Implement a secure REST API endpoint for user authentication with JWT tokens. "
      (String.append
         "The system must handle login, token validation, and refresh. "
         (String.append
            "All inputs must be validated, passwords must be hashed with bcrypt, "
            "and the system must be rate-limited to prevent abuse.")) in
  generations <- run_generations (map Z.of_nat (seq 0 5)) [] ;;
  let final_candidate :=
    match rev generations with
    | final_gen :: _ => hd_error (Generation.survivors final_gen)
    | [] => None
    end in
  ret (GADRun.mk
         "sample-run-001"
         "JWT Authentication API Implementation"
         requirement
         5
         generations
         final_candidate
         generate_rpg
         generate_agents).

(** Python exceptions raised by the accessors. *)
Inductive result (A : Type) : Type :=
| Ok (a : A)
| ValueError (msg : string).

Arguments Ok {A} a.
Arguments ValueError {A} msg.

(** [get_dna_bundle], with the module global [SAMPLE_RUN] as a parameter. *)
Definition get_dna_bundle (SAMPLE_RUN : GADRun.t) (candidate_id : string)
    : M (result DNABundle.t) :=
  match
    find (fun cand => String.eqb (Candidate.id cand) candidate_id)
      (flat_map Generation.candidates (GADRun.generations SAMPLE_RUN))
  with
  | Some cand => b <- generate_dna_bundle cand ;; ret (Ok b)
  | None =>
      ret (ValueError
             (String.append "Candidate " (String.append candidate_id " not found")))
  end.

(** [get_sample_run], with the module global [SAMPLE_RUN] as a parameter. *)
Definition get_sample_run (SAMPLE_RUN : GADRun.t) : GADRun.t := SAMPLE_RUN.

(** [get_generation].  The guard keeps the index within the list, so the
    lookup below it always finds an element; the branch for a failed lookup
    is dead and is given the same [ValueError]. *)
Definition get_generation (SAMPLE_RUN : GADRun.t) (gen_num : Z)
    : result Generation.t :=
  let not_found :=
    ValueError
      (String.append "Generation "
         (String.append (str_of_int gen_num) " not found")) in
  if (0 <=? gen_num)%Z &&
     (gen_num <? Z.of_nat (List.length (GADRun.generations SAMPLE_RUN)))%Z
  then
    match nth_error (GADRun.generations SAMPLE_RUN) (Z.to_nat gen_num) with
    | Some gen => Ok gen
    | None => not_found
    end
  else not_found.

(** [get_prompt_dna] *)
Definition get_prompt_dna (SAMPLE_RUN : GADRun.t) (candidate_id : string)
    : M (result PromptDNA.t) :=
  match
    find (fun cand => String.eqb (Candidate.id cand) candidate_id)
      (flat_map Generation.candidates (GADRun.generations SAMPLE_RUN))
  with
  | Some cand =>
      p <- generate_prompt_dna (Candidate.generation cand) (Candidate.id cand)
             (Candidate.parent_ids cand) ;;
      ret (Ok p)
  | None =>
      ret (ValueError
             (String.append "Candidate " (String.append candidate_id " not found")))
  end.

End MockData.

Arguments Ok {A} a.
Arguments ValueError {A} msg.
Arguments mkWorld {R} _ _.
Arguments w_rng {R} _.
Arguments w_reads {R} _.

(** ** main.py

    The endpoints that do more than return a stored value.  A handler
    either returns a body (status 200) or raises [HTTPException]. *)

Inductive response (A : Type) : Type :=
| Response (body : A)
| HTTPException (status_code : Z) (detail : string).

Arguments Response {A} body.
Arguments HTTPException {A} status_code detail.

(** [try: return f() except ValueError as e: raise HTTPException(404, str(e))] *)
Definition or_404 {A : Type} (r : result A) : response A :=
  match r with
  | Ok a => Response a
  | ValueError msg => HTTPException 404 msg
  end.

Module FinalSurvivor.
Record t := mk {
  id : string;
  effective_score : Q;
  gates_passed : bool
}.
End FinalSurvivor.

Module RunSummary.
Record t := mk {
  run_id : string;
  name : string;
  total_generations : Z;
  total_candidates : Z;
  total_survivors : Z;
  final_survivor : option FinalSurvivor.t;
  requirement : string
}.
End RunSummary.

Section Main.

Variable R : RandomGen.
Variable clock : nat -> string.

(** [GET /api/run/sample/generation/{gen_num}] *)
Definition get_generation_data (SAMPLE_RUN : GADRun.t) (gen_num : Z)
    : response Generation.t :=
  or_404 (get_generation SAMPLE_RUN gen_num).

(** [GET /api/run/sample/dna/{candidate_id}] *)
Definition get_dna_bundle_data (SAMPLE_RUN : GADRun.t) (candidate_id : string)
    : M R (response DNABundle.t) :=
  r <- get_dna_bundle R clock SAMPLE_RUN candidate_id ;;
  ret (or_404 r).

(** [GET /api/run/sample/prompt/{candidate_id}] *)
Definition get_prompt_dna_data (SAMPLE_RUN : GADRun.t) (candidate_id : string)
    : M R (response PromptDNA.t) :=
  r <- get_prompt_dna R SAMPLE_RUN candidate_id ;;
  ret (or_404 r).

(** [sum(len(f(gen)) for gen in generations)] *)
Definition sum_len {A : Type} (f : Generation.t -> list A)
    (generations : list Generation.t) : Z :=
  fold_left (fun acc gen => (acc + Z.of_nat (List.length (f gen)))%Z) generations 0%Z.

(** [GET /api/run/sample/summary].  [run.generations[-1]] raises
    [IndexError] on a run without generations: the result is [None]
    then. *)
Definition get_run_summary (SAMPLE_RUN : GADRun.t) : option RunSummary.t :=
  let run := get_sample_run SAMPLE_RUN in
  let total_candidates := sum_len Generation.candidates (GADRun.generations run) in
  let total_survivors := sum_len Generation.survivors (GADRun.generations run) in
  match rev (GADRun.generations run) with
  | [] => None
  | final_gen :: _ =>
      let final_survivor :=
        match Generation.survivors final_gen with
        | [] => None
        | final_survivor_id :: _ =>
            match
              find (fun cand => String.eqb (Candidate.id cand) final_survivor_id)
                (Generation.candidates final_gen)
            with
            | Some cand =>
                Some (FinalSurvivor.mk (Candidate.id cand)
                        (Candidate.effective_score cand)
                        (Candidate.gates_passed cand))
            | None => None
            end
        end in
      Some (RunSummary.mk
              (GADRun.id run)
              (GADRun.name run)
              (GADRun.total_generations run)
              total_candidates
              total_survivors
              final_survivor
              (GADRun.requirement run))
  end.

End Main.

(** ** mock_data.py in double precision

    Python's [float] is IEEE 754 binary64.  The embedding above reads floats
    as exact rationals.  This module embeds [generate_candidate] and the
    functions it calls a second time with [float] as binary64 (the kernel's
    primitive floats, every operation rounded to nearest even), for the
    statements that turn on rounding.  The operations are written in the
    order in which Python evaluates them. *)

Set Warnings "-inexact-float".

Module Double.

(** [float(n)] for an [int]: exact for [|n| < 2^53], which covers every
    count the generator draws. *)
Fixpoint float_of_pos (p : positive) : float :=
  match p with
  | xH => 1%float
  | xO q => (2 * float_of_pos q)%float
  | xI q => (2 * float_of_pos q + 1)%float
  end.

Definition float_of_int (n : Z) : float :=
  match n with
  | Z0 => 0%float
  | Zpos p => float_of_pos p
  | Zneg p => (- float_of_pos p)%float
  end.

(** [d[k]] on a dict literal of floats. *)
Fixpoint dict_get (d : list (string * float)) (k : string) : float :=
  match d with
  | [] => 0%float
  | (k', v) :: rest => if String.eqb k k' then v else dict_get rest k
  end.

Module PromptDNA.
Record t := mk {
  id : string;
  system_prompt : string;
  task_description : string;
  constraints : list string;
  examples : list string;
  temperature : float;
  top_p : float;
  feedback_history : list string;
  generation : Z;
  parent_ids : list string;
  mutations : list (list (string * string));
  trust_region_similarity : option float
}.
End PromptDNA.

Module Metrics.
Record t := mk {
  test_pass_rate : float;
  coverage : float;
  performance_score : float;
  security_score : float;
  ux_score : float;
  style_score : float;
  license_compliance : bool;
  vulnerability_count : Z
}.
End Metrics.

Module GateResult.
Record t := mk {
  gate_name : string;
  passed : bool;
  message : string;
  threshold : option float;
  actual : option float
}.
End GateResult.

Module Candidate.
Record t := mk {
  id : string;
  generation : Z;
  parent_ids : list string;
  prompt_dna_id : string;
  prompt_dna_summary : string;
  metrics : Metrics.t;
  effective_score : float;
  weighted_scores : list (string * float);
  gates_passed : bool;
  gate_results : list GateResult.t;
  is_pareto_front : bool;
  selected_for_breeding : bool;
  survival_reason : option string;
  branch : string;
  commit_id : string;
  generator_agent_id : string;
  reviewer_comments : list ReviewerComment.t
}.
End Candidate.

(** The [random] module, with [random()] a double. *)
Record RandomGen := {
  rng_state : Type;
  rng_random : rng_state -> float * rng_state;
  rng_randint : Z -> Z -> rng_state -> Z * rng_state
}.

Section MockData.

Variable R : RandomGen.
Variable clock : nat -> string.

Record World := mkWorld {
  w_rng : rng_state R;
  w_reads : nat
}.

Definition M (A : Type) : Type := State World A.

(** [random.random()] *)
Definition random : M float :=
  fun w => let (x, s) := rng_random R (w_rng w) in (x, mkWorld s (w_reads w)).

(** [random.randint(a, b)] *)
Definition randint (a b : Z) : M Z :=
  fun w => let (x, s) := rng_randint R a b (w_rng w) in (x, mkWorld s (w_reads w)).

(** [datetime.now().isoformat()] *)
Definition now_isoformat : M string :=
  fun w => (clock (w_reads w), mkWorld (w_rng w) (S (w_reads w))).

Definition generate_prompt_dna (generation : Z) (candidate_id : string)
    (parent_ids : list string) : M PromptDNA.t :=
  let base_task :=
    "Implement a secure REST API endpoint for user authentication with JWT tokens" in
  mutations <-
    (if (0 <? generation)%Z then
       r1 <- random ;;
       let mutations1 :=
         if (0.5 <? r1)%float then
           [ [("type", "feedback_integration");
              ("change",
               "Added explicit error handling requirements from reviewer feedback")] ]
         else [] in
       r2 <- random ;;
       ret (if (0.7 <? r2)%float then
              mutations1 ++
              [ [("type", "constraint_refinement");
                 ("change",
                  "Tightened security constraints based on vulnerability scan")] ]
            else mutations1)
     else ret []) ;;
  let feedback_history :=
    if (0 <? generation)%Z then
      [ String.append "Gen "
          (String.append (str_of_int (generation - 1)) ": Improve input validation");
        String.append "Gen "
          (String.append (str_of_int (generation - 1)) ": Add rate limiting") ]
    else [] in
  similarity <-
    (if (0 <? generation)%Z then
       r <- random ;; ret (Some (0.85 + r * 0.1)%float)
     else ret None) ;;
  ret (PromptDNA.mk
         (String.append "prompt-dna-" candidate_id)
         "You are an expert backend engineer specializing in secure API development."
         (String.append base_task
            (if (0 <? generation)%Z then
               String.append " [Gen "
                 (String.append (str_of_int generation) " refinement]")
             else EmptyString))
         [ "Must use bcrypt for password hashing";
           "JWT tokens must expire in 15 minutes";
           "Rate limit: 10 requests per minute per IP";
           "All inputs must be validated and sanitized" ]
         [ "Example: POST /auth/login with email and password";
           "Example: Return JWT token on success, 401 on failure" ]
         0.7%float
         0.9%float
         feedback_history
         generation
         parent_ids
         mutations
         similarity).

Definition generate_metrics (generation : Z) (is_good : bool) : M Metrics.t :=
  if is_good then
    r1 <- random ;; r2 <- random ;; r3 <- random ;;
    r4 <- random ;; r5 <- random ;; r6 <- random ;;
    v <- randint 0 1 ;;
    ret (Metrics.mk
           (0.95 + r1 * 0.05)%float
           (0.85 + r2 * 0.1)%float
           (85 + r3 * 10)%float
           (90 + r4 * 10)%float
           (80 + r5 * 15)%float
           (90 + r6 * 10)%float
           true
           v)
  else
    r1 <- random ;; r2 <- random ;; r3 <- random ;;
    r4 <- random ;; r5 <- random ;; r6 <- random ;;
    r7 <- random ;;
    v <- randint 2 8 ;;
    ret (Metrics.mk
           (0.6 + r1 * 0.2)%float
           (0.5 + r2 * 0.2)%float
           (50 + r3 * 30)%float
           (40 + r4 * 40)%float
           (50 + r5 * 30)%float
           (60 + r6 * 30)%float
           (0.3 <? r7)%float
           v).

Definition generate_gate_results (metrics : Metrics.t) : bool * list GateResult.t :=
  let gates :=
    [ GateResult.mk
        "Minimum Test Pass Rate"
        (0.8 <=? Metrics.test_pass_rate metrics)%float
        "All critical tests must pass"
        (Some 0.8%float)
        (Some (Metrics.test_pass_rate metrics));
      GateResult.mk
        "Security Threshold"
        (70 <=? Metrics.security_score metrics)%float
        "Security score must meet minimum threshold"
        (Some 70.0%float)
        (Some (Metrics.security_score metrics));
      GateResult.mk
        "Zero Critical Vulnerabilities"
        (Metrics.vulnerability_count metrics =? 0)%Z
        "No critical vulnerabilities allowed"
        (Some 0.0%float)
        (Some (float_of_int (Metrics.vulnerability_count metrics)));
      GateResult.mk
        "License Compliance"
        (Metrics.license_compliance metrics)
        "All dependencies must have compatible licenses"
        None
        None ] in
  let all_passed := forallb GateResult.passed gates in
  (all_passed, gates).

Definition generate_reviewer_comments (metrics : Metrics.t) (gates_passed : bool)
    : M (list ReviewerComment.t) :=
  comments1 <-
    (if negb gates_passed then
       ts <- now_isoformat ;;
       ret [ ReviewerComment.mk
               "reviewer-security-001" "security" ts "critical" "security"
               "SQL injection vulnerability detected in login endpoint"
               (Some [45; 46; 47]%Z) ]
     else ret []) ;;
  comments2 <-
    (if (Metrics.performance_score metrics <? 80)%float then
       ts <- now_isoformat ;;
       ret (comments1 ++
            [ ReviewerComment.mk
                "reviewer-performance-001" "performance" ts "warning" "performance"
                "Database query not optimized, consider adding index"
                (Some [78; 79]%Z) ])
     else ret comments1) ;;
  (if (85 <? Metrics.ux_score metrics)%float then
     ts <- now_isoformat ;;
     ret (comments2 ++
          [ ReviewerComment.mk
              "reviewer-ux-001" "ux" ts "info" "ux"
              "Error messages are clear and actionable - excellent UX"
              None ])
   else ret comments2).

Definition generate_candidate (gen_num candidate_num : Z) (parent_ids : list string)
    (is_good is_pareto selected : bool) : M Candidate.t :=
  let cand_id :=
    String.append "gen"
      (String.append (str_of_int gen_num)
         (String.append "-cand" (str_of_int candidate_num))) in
  metrics <- generate_metrics gen_num is_good ;;
  let (gates_passed, gate_results) := generate_gate_results metrics in
  comments <- generate_reviewer_comments metrics gates_passed ;;
  let weights :=
    [ ("test_pass_rate", 0.25%float);
      ("security", 0.25%float);
      ("performance", 0.15%float);
      ("ux", 0.15%float);
      ("coverage", 0.10%float);
      ("style", 0.10%float) ] in
  let effective_score :=
    (Metrics.test_pass_rate metrics * dict_get weights "test_pass_rate" * 100 +
     Metrics.security_score metrics * dict_get weights "security" +
     Metrics.performance_score metrics * dict_get weights "performance" +
     Metrics.ux_score metrics * dict_get weights "ux" +
     Metrics.coverage metrics * dict_get weights "coverage" * 100 +
     Metrics.style_score metrics * dict_get weights "style")%float in
  let effective_score :=
    if negb gates_passed then (effective_score * 0.5)%float else effective_score in
  let weighted_scores :=
    [ ("test_pass_rate",
       (Metrics.test_pass_rate metrics * dict_get weights "test_pass_rate" * 100)%float);
      ("security",
       (Metrics.security_score metrics * dict_get weights "security")%float);
      ("performance",
       (Metrics.performance_score metrics * dict_get weights "performance")%float);
      ("ux", (Metrics.ux_score metrics * dict_get weights "ux")%float);
      ("coverage",
       (Metrics.coverage metrics * dict_get weights "coverage" * 100)%float);
      ("style", (Metrics.style_score metrics * dict_get weights "style")%float) ] in
  let survival_reason :=
    if selected then
      if is_pareto then Some "Pareto optimal (quality vs. performance trade-off)"
      else Some "High effective score with all gates passed"
    else None in
  prompt_dna <- generate_prompt_dna gen_num cand_id parent_ids ;;
  agent <- randint 1 3 ;;
  ret (Candidate.mk
         cand_id
         gen_num
         parent_ids
         (PromptDNA.id prompt_dna)
         (String.append (substring 0 100 (PromptDNA.task_description prompt_dna)) "...")
         metrics
         effective_score
         weighted_scores
         gates_passed
         gate_results
         is_pareto
         selected
         survival_reason
         (String.append "gad/gen"
            (String.append (str_of_int gen_num) (String.append "/" cand_id)))
         (String.append "abc"
            (String.append (str_of_int gen_num)
               (String.append (format_03d candidate_num) "def")))
         (String.append "generator-" (format_03d agent))
         comments).

End MockData.

Arguments mkWorld {R} _ _.
Arguments w_rng {R} _.
Arguments w_reads {R} _.

End Double.

(** * Concrete inputs

    A generator that replays a fixed tape of draws cyclically.  [random]
    returns the next tape entry (clamped into [0, 1)), [randint a b] scales
    the next entry to the range, and [sample] takes a prefix of the
    population.  It meets [RandomLaws], and is used to run the pipeline on
    concrete inputs. *)

Definition clamp01 (q : Q) : Q :=
  if Qle_bool 0 q && Qltb q 1 then q else 0%Q.

Definition tape_draw (tape : list Q) (pos : nat) : Q :=
  clamp01 (nth (pos mod List.length tape) tape 0%Q).

Definition tape_gen (tape : list Q) : RandomGen :=
  {| rng_state := nat;
     rng_seed := fun _ => O;
     rng_random := fun pos => (tape_draw tape pos, S pos);
     rng_randint := fun a b pos =>
       ((a + Qfloor (tape_draw tape pos * inject_Z (b - a + 1)))%Z, S pos);
     rng_sample := fun population k pos => (firstn k population, S pos) |}.

(** A clock that advances by one tick per reading. *)
Definition tick_clock (n : nat) : string :=
  String.append "T+" (str_of_int (Z.of_nat n)).

(** A clock that returns the same reading at every call. *)
Definition frozen_clock (n : nat) : string := "2025-01-01T00:00:00".

Definition demo_tape : list Q := [0.2; 0.7; 0.1; 0.9; 0.4]%Q.

Definition demo_gen : RandomGen := tape_gen demo_tape.

(** The state of the process before the first call: generator at its
    initial position, no clock reading made yet. *)
Definition demo_world : World demo_gen := mkWorld (R := demo_gen) O O.

(** The world of the demo run after generation 0. *)
Definition demo_world_1 : World demo_gen :=
  snd (generate_generation demo_gen tick_clock 0 [] demo_world).

(** A generator whose first draw is the one CPython makes after
    [random.seed(42)]. *)
Definition seed42_gen : RandomGen := tape_gen [0.6394267984578837; 0.2; 0.7]%Q.

(** Candidate A of the end-to-end scenario: all gates pass, score 89. *)
Definition metrics_A : Metrics.t :=
  Metrics.mk 0.95 0.9 85 90 80 90 true 0.

(** Candidate B of the end-to-end scenario: all gates fail, aggregate 48.5,
    score 24.25. *)
Definition metrics_B : Metrics.t :=
  Metrics.mk 0.5 0.5 50 40 50 60 false 3.




(** * Notions used in the statements *)

(** ** Scoring *)

(** The weighted sum of the specification: the two fractions scaled to
    0-100, then the six weights. *)
Definition weighted_sum (m : Metrics.t) : Q :=
  (0.25 * (Metrics.test_pass_rate m * 100) +
   0.25 * Metrics.security_score m +
   0.15 * Metrics.performance_score m +
   0.15 * Metrics.ux_score m +
   0.10 * (Metrics.coverage m * 100) +
   0.10 * Metrics.style_score m)%Q.

(** The six weighted terms in the order of the [weighted_scores] dict. *)
Definition weighted_terms (m : Metrics.t) : list (string * Q) :=
  [ ("test_pass_rate", 0.25 * (Metrics.test_pass_rate m * 100));
    ("security", 0.25 * Metrics.security_score m);
    ("performance", 0.15 * Metrics.performance_score m);
    ("ux", 0.15 * Metrics.ux_score m);
    ("coverage", 0.10 * (Metrics.coverage m * 100));
    ("style", 0.10 * Metrics.style_score m) ]%Q.

(** Two breakdowns agree: same keys in the same order, equal values. *)
Definition same_breakdown (d1 d2 : list (string * Q)) : Prop :=
  Forall2 (fun e1 e2 => fst e1 = fst e2 /\ (snd e1 == snd e2)%Q) d1 d2.

(** ** Scoring in double precision *)





(** ** Generations *)

(** The candidates of a generation as the loop creates them, before the
    survivor-selection pass. *)
Definition created_candidates (R : RandomGen) (clock : nat -> string)
    (gen_num : Z) (parent_candidates : list string) (w : World R)
    : list Candidate.t * World R :=
  let (num_candidates, w1) :=
    (if (gen_num =? 0)%Z then ret 8%Z else randint R 6 8) w in
  mapM (generate_nth_candidate R clock gen_num parent_candidates)
    (seq 0 (Z.to_nat num_candidates)) w1.

(** A record that some call of [generate_generation] returns. *)
Definition is_generation (R : RandomGen) (clock : nat -> string)
    (g : Generation.t) : Prop :=
  exists (gen_num : Z) (parent_candidates : list string) (w : World R),
    g = fst (generate_generation R clock gen_num parent_candidates w).

(** The id that [generate_candidate] gives candidate [i] of a generation. *)
Definition cand_id (gen_num : Z) (i : nat) : string :=
  String.append "gen"
    (String.append (str_of_int gen_num)
       (String.append "-cand" (str_of_int (Z.of_nat i)))).

(** ** Pareto dominance *)

(** [a] dominates [b] on the default axes: at least as good on security and
    on performance, strictly better on one of them. *)
Definition dominates (a b : Candidate.t) : Prop :=
  (Metrics.security_score (Candidate.metrics b) <=
   Metrics.security_score (Candidate.metrics a))%Q /\
  (Metrics.performance_score (Candidate.metrics b) <=
   Metrics.performance_score (Candidate.metrics a))%Q /\
  ((Metrics.security_score (Candidate.metrics b) <
    Metrics.security_score (Candidate.metrics a))%Q \/
   (Metrics.performance_score (Candidate.metrics b) <
    Metrics.performance_score (Candidate.metrics a))%Q).

(** Dominance as a test. *)
Definition dominatesb (a b : Candidate.t) : bool :=
  let sa := Metrics.security_score (Candidate.metrics a) in
  let sb := Metrics.security_score (Candidate.metrics b) in
  let pa := Metrics.performance_score (Candidate.metrics a) in
  let pb := Metrics.performance_score (Candidate.metrics b) in
  Qle_bool sb sa && Qle_bool pb pa && (Qltb sb sa || Qltb pb pa).

(** The point that the front holds for a candidate. *)
Definition point_of (cand : Candidate.t) : ParetoPoint.t :=
  ParetoPoint.mk
    (Candidate.id cand)
    (Metrics.security_score (Candidate.metrics cand))
    (Metrics.performance_score (Candidate.metrics cand))
    (Candidate.id cand).

(** ** The survivor-selection pass *)

(** The references in rank order that the pass computes. *)
Definition ranked_refs (candidates : list Candidate.t) : list nat :=
  sort_desc (attr Candidate.effective_score 0%Q candidates)
    (passing_refs candidates).

(** Reading a field through a reference that may dangle. *)
Definition opt_score (o : option Candidate.t) : Q :=
  match o with Some c => Candidate.effective_score c | None => 0%Q end.

Definition opt_passed (o : option Candidate.t) : bool :=
  match o with Some c => Candidate.gates_passed c | None => false end.

Definition opt_id (o : option Candidate.t) : string :=
  match o with Some c => Candidate.id c | None => EmptyString end.

(** The fields of a candidate that no assignment of the pass names: all but
    [is_pareto_front], [selected_for_breeding] and [survival_reason]. *)
Definition frame_eq (c c' : Candidate.t) : Prop :=
  Candidate.id c' = Candidate.id c /\
  Candidate.generation c' = Candidate.generation c /\
  Candidate.parent_ids c' = Candidate.parent_ids c /\
  Candidate.prompt_dna_id c' = Candidate.prompt_dna_id c /\
  Candidate.prompt_dna_summary c' = Candidate.prompt_dna_summary c /\
  Candidate.metrics c' = Candidate.metrics c /\
  Candidate.effective_score c' = Candidate.effective_score c /\
  Candidate.weighted_scores c' = Candidate.weighted_scores c /\
  Candidate.gates_passed c' = Candidate.gates_passed c /\
  Candidate.gate_results c' = Candidate.gate_results c /\
  Candidate.branch c' = Candidate.branch c /\
  Candidate.commit_id c' = Candidate.commit_id c /\
  Candidate.generator_agent_id c' = Candidate.generator_agent_id c /\
  Candidate.reviewer_comments c' = Candidate.reviewer_comments c.

(** [c'] is [c], untouched or marked as a survivor. *)
Definition marked (c c' : Candidate.t) : Prop :=
  c' = c \/ exists pareto : bool, c' = mark_survivor pareto c.

(** The reading of the frame property that keeps [survival_reason] among the
    unchanged fields and lets [effective_score], [is_pareto_front] and
    [selected_for_breeding] vary. *)
Definition unchanged_except_derived (c c' : Candidate.t) : Prop :=
  Candidate.id c' = Candidate.id c /\
  Candidate.generation c' = Candidate.generation c /\
  Candidate.parent_ids c' = Candidate.parent_ids c /\
  Candidate.prompt_dna_id c' = Candidate.prompt_dna_id c /\
  Candidate.prompt_dna_summary c' = Candidate.prompt_dna_summary c /\
  Candidate.metrics c' = Candidate.metrics c /\
  Candidate.weighted_scores c' = Candidate.weighted_scores c /\
  Candidate.gates_passed c' = Candidate.gates_passed c /\
  Candidate.gate_results c' = Candidate.gate_results c /\
  Candidate.survival_reason c' = Candidate.survival_reason c /\
  Candidate.branch c' = Candidate.branch c /\
  Candidate.commit_id c' = Candidate.commit_id c /\
  Candidate.generator_agent_id c' = Candidate.generator_agent_id c /\
  Candidate.reviewer_comments c' = Candidate.reviewer_comments c.

Definition id_before (a b : Candidate.t) : Prop :=
  String.ltb (Candidate.id a) (Candidate.id b) = true.

(** [a] ranks before [b]: higher effective score, or the same score and the
    smaller id. *)
Definition ranks_before (a b : Candidate.t) : Prop :=
  (Candidate.effective_score b < Candidate.effective_score a)%Q \/
  ((Candidate.effective_score a == Candidate.effective_score b)%Q /\
   id_before a b).

(** The ids of the first three passing candidates in sort order. *)
Definition top3_ids (l : list Candidate.t) : list string :=
  map Candidate.id
    (firstn 3 (sort_desc Candidate.effective_score
                 (filter Candidate.gates_passed l))).

(** What ranking reads of a candidate. *)
Definition core (c : Candidate.t) : string * Q * bool :=
  (Candidate.id c, Candidate.effective_score c, Candidate.gates_passed c).

(** ** DNA bundles *)

(** The fields of a prompt DNA that are computed from the arguments alone:
    all but [mutations] and [trust_region_similarity]. *)
Definition prompt_frame (p : PromptDNA.t) :=
  (PromptDNA.id p, PromptDNA.system_prompt p, PromptDNA.task_description p,
   PromptDNA.constraints p, PromptDNA.examples p, PromptDNA.temperature p,
   PromptDNA.top_p p, PromptDNA.feedback_history p, PromptDNA.generation p,
   PromptDNA.parent_ids p).

(** ** Timestamps

    Two calls of [create_sample_run] return runs that differ at most in the
    timestamps of reviewer comments: everything else is drawn from the
    generator, which each call re-seeds.  Erasure blanks the timestamps. *)

(** The timestamp of the first reviewer comment of the first candidate of
    the first generation of a run. *)
Definition first_comment_timestamp (run : GADRun.t) : option string :=
  match GADRun.generations run with
  | g :: _ =>
      match Generation.candidates g with
      | c :: _ =>
          match Candidate.reviewer_comments c with
          | rc :: _ => Some (ReviewerComment.timestamp rc)
          | [] => None
          end
      | [] => None
      end
  | [] => None
  end.

Definition erase_comment (rc : ReviewerComment.t) : ReviewerComment.t :=
  ReviewerComment.mk
    (ReviewerComment.reviewer_id rc) (ReviewerComment.reviewer_type rc)
    EmptyString
    (ReviewerComment.severity rc) (ReviewerComment.category rc)
    (ReviewerComment.message rc) (ReviewerComment.line_numbers rc).

Definition erase_candidate (c : Candidate.t) : Candidate.t :=
  Candidate.mk
    (Candidate.id c) (Candidate.generation c) (Candidate.parent_ids c)
    (Candidate.prompt_dna_id c) (Candidate.prompt_dna_summary c)
    (Candidate.metrics c) (Candidate.effective_score c)
    (Candidate.weighted_scores c) (Candidate.gates_passed c)
    (Candidate.gate_results c) (Candidate.is_pareto_front c)
    (Candidate.selected_for_breeding c) (Candidate.survival_reason c)
    (Candidate.branch c) (Candidate.commit_id c)
    (Candidate.generator_agent_id c)
    (map erase_comment (Candidate.reviewer_comments c)).

Definition erase_generation (g : Generation.t) : Generation.t :=
  Generation.mk
    (Generation.number g) (map erase_candidate (Generation.candidates g))
    (Generation.pareto_front g) (Generation.ucb_allocations g)
    (Generation.survivors g) (Generation.breeding_pairs g)
    (Generation.summary g).

Definition erase_run (run : GADRun.t) : GADRun.t :=
  GADRun.mk
    (GADRun.id run) (GADRun.name run) (GADRun.requirement run)
    (GADRun.total_generations run)
    (map erase_generation (GADRun.generations run))
    (GADRun.final_candidate_id run) (GADRun.rpg run) (GADRun.agents run).

(** The result of the pass with the comments of the store erased. *)
Definition erase_selection (sel : list Candidate.t * list nat)
    : list Candidate.t * list nat :=
  (map erase_candidate (fst sel), snd sel).

(** [m1] and [m2] started on the same generator state return results equal
    under [e] and leave the generator in the same state. *)
Definition sim {R : RandomGen} {A B : Type} (e : A -> B) (m1 m2 : M R A) : Prop :=
  forall w w' : World R,
    w_rng w = w_rng w' ->
    e (fst (m1 w)) = e (fst (m2 w')) /\ w_rng (snd (m1 w)) = w_rng (snd (m2 w')).

(** ** Runs, lookups and lineage *)

(** The candidates of all the generations of a run, in the order in which
    the lookups of [get_dna_bundle] and [get_prompt_dna] scan them. *)
Definition all_candidates (run : GADRun.t) : list Candidate.t :=
  flat_map Generation.candidates (GADRun.generations run).

(** The generations that the loop of [create_sample_run] builds for the
    generation numbers [nums] from the parent pool [pool]: each one is
    returned by [generate_generation] on the survivors of the one before. *)
Inductive generations_from (R : RandomGen) (clock : nat -> string)
    : list Z -> list string -> list Generation.t -> Prop :=
| generations_from_nil (pool : list string) :
    generations_from R clock [] pool []
| generations_from_cons (i : Z) (rest : list Z) (pool : list string)
    (w : World R) (gens : list Generation.t) :
    generations_from R clock rest
      (Generation.survivors (fst (generate_generation R clock i pool w))) gens ->
    generations_from R clock (i :: rest) pool
      (fst (generate_generation R clock i pool w) :: gens).

(** The part of the contract of [random.sample] that lineage relies on:
    [sample(population, k)] with [k <= len(population)] returns [k]
    elements of the population. *)
Definition SampleLaws (R : RandomGen) : Prop :=
  forall (population : list string) (k : nat) (s : rng_state R),
    (k <= List.length population)%nat ->
    List.length (fst (rng_sample R population k s)) = k /\
    incl (fst (rng_sample R population k s)) population.

(** A generation whose ids are the first [n <= 8] ids of its number. *)
Definition small_generation (g : Generation.t) : Prop :=
  (List.length (Generation.candidates g) <= 8)%nat /\
  map Candidate.id (Generation.candidates g) =
  map (cand_id (Generation.number g))
    (seq 0 (List.length (Generation.candidates g))).

(** The prompt DNA [p] is the one that the candidate [c] records: same id,
    generation and parents, and the summary of [c] is the first hundred
    characters of the task description of [p], followed by an ellipsis. *)
Definition prompt_of (c : Candidate.t) (p : PromptDNA.t) : Prop :=
  PromptDNA.id p = Candidate.prompt_dna_id c /\
  PromptDNA.generation p = Candidate.generation c /\
  PromptDNA.parent_ids p = Candidate.parent_ids c /\
  String.append (substring 0 100 (PromptDNA.task_description p)) "..." =
    Candidate.prompt_dna_summary c.

(** Every rebuild of the prompt DNA of [c] gives the prompt that [c]
    records. *)
Definition prompt_recorded (R : RandomGen) (c : Candidate.t) : Prop :=
  forall w : World R,
    prompt_of c
      (fst (generate_prompt_dna R (Candidate.generation c) (Candidate.id c)
              (Candidate.parent_ids c) w)).

(** ** Quality of generated candidates *)

(** The slack granted to rounding where a statement bounds a float that
    the code computes: the bound holds in exact arithmetic without it and
    in double precision within it. *)
Definition rounding_slack : Q := (1 # 1000000000)%Q.

(** The scores of passing and failing candidates are apart: a candidate
    that passes the gates scores at least 88.5, one that fails scores
    below 49. *)
Definition score_separated (c : Candidate.t) : Prop :=
  (Candidate.gates_passed c = true ->
   (88.5 <= Candidate.effective_score c)%Q /\
   Metrics.vulnerability_count (Candidate.metrics c) = 0%Z /\
   (0.95 <= Metrics.test_pass_rate (Candidate.metrics c))%Q) /\
  (Candidate.gates_passed c = false ->
   (Candidate.effective_score c < 49)%Q /\
   (1 <= Metrics.vulnerability_count (Candidate.metrics c))%Z).

(** The scores of passing and failing candidates are apart, whatever the
    rounding: a candidate that passes the gates has no vulnerability and
    scores 88.5 or more, one that fails has a vulnerability and scores 49
    or less, both up to the rounding slack. *)
Definition score_apart (c : Candidate.t) : Prop :=
  (Candidate.gates_passed c = true ->
   (88.5 - rounding_slack <= Candidate.effective_score c)%Q /\
   Metrics.vulnerability_count (Candidate.metrics c) = 0%Z /\
   (0.95 - rounding_slack <= Metrics.test_pass_rate (Candidate.metrics c))%Q) /\
  (Candidate.gates_passed c = false ->
   (Candidate.effective_score c <= 49 + rounding_slack)%Q /\
   (1 <= Metrics.vulnerability_count (Candidate.metrics c))%Z).

(** ** Agents *)

(** The ids of the agents of one type in the table of [generate_agents]. *)
Definition agent_ids (type : string) : list string :=
  map AgentProfile.id
    (filter (fun a => String.eqb (AgentProfile.type a) type) generate_agents).

(** The reliability scores that the table of [generate_agents] records, by
    agent id. *)
Definition agent_reliabilities : list (string * Q) :=
  flat_map
    (fun a =>
       match AgentProfile.reliability_score a with
       | Some r => [(AgentProfile.id a, r)]
       | None => []
       end)
    generate_agents.

(** The generator and the reviewers that a candidate names are agents of
    the table, of the matching type. *)
Definition agents_registered (c : Candidate.t) : Prop :=
  In (Candidate.generator_agent_id c) (agent_ids "generator") /\
  Forall (fun rc => In (ReviewerComment.reviewer_id rc) (agent_ids "reviewer"))
    (Candidate.reviewer_comments c).

(** ** Reviewer comments *)

(** The severities of the comments of a candidate, in order. *)
Definition severities (c : Candidate.t) : list string :=
  map ReviewerComment.severity (Candidate.reviewer_comments c).

(** What the comments of a candidate say about it: a critical comment
    exactly when the gates fail, a warning exactly when performance is below
    80, an info comment exactly when the UX score is above 85, and nothing
    else. *)
Definition comments_follow_metrics (c : Candidate.t) : Prop :=
  (List.length (Candidate.reviewer_comments c) <= 3)%nat /\
  (In "critical" (severities c) <-> Candidate.gates_passed c = false) /\
  (In "warning" (severities c) <->
   (Metrics.performance_score (Candidate.metrics c) < 80)%Q) /\
  (In "info" (severities c) <->
   (85 < Metrics.ux_score (Candidate.metrics c))%Q) /\
  incl (severities c) ["critical"; "warning"; "info"] /\
  (Candidate.gates_passed c = true ->
   incl (severities c) ["info"] /\
   (List.length (Candidate.reviewer_comments c) <= 1)%nat).

(** The comments of all the candidates of a run, in generation, candidate
    and comment order. *)
Definition all_comments (run : GADRun.t) : list ReviewerComment.t :=
  flat_map Candidate.reviewer_comments (all_candidates run).

(** The comments [cs] carry the clock readings number [n0], [n0 + 1], ...
    and [n1] is the number of the next reading. *)
Definition stamps_from (clock : nat -> string) (n0 : nat)
    (cs : list ReviewerComment.t) (n1 : nat) : Prop :=
  map ReviewerComment.timestamp cs = map clock (seq n0 (List.length cs)) /\
  n1 = (n0 + List.length cs)%nat.

(** ** Selection bookkeeping *)

(** The survival reason of a candidate is the one that goes with its
    flags: none when it is not selected for breeding, and otherwise the
    reason that the survivor pass derives from [is_pareto_front]. *)
Definition survival_recorded (c : Candidate.t) : Prop :=
  Candidate.survival_reason c =
  if Candidate.selected_for_breeding c
  then Some (if Candidate.is_pareto_front c then "Pareto optimal"
             else "High effective score")
  else None.

(** The bookkeeping of one candidate [c] of a generation with the survivor
    ids [survivors]. *)
Definition selection_recorded (survivors : list string) (c : Candidate.t) : Prop :=
  (Candidate.selected_for_breeding c = true <-> In (Candidate.id c) survivors) /\
  (Candidate.selected_for_breeding c = true -> Candidate.gates_passed c = true) /\
  survival_recorded c.

(** ** Lineage *)

(** The parents of [c] are a draw of [min(2, len(pool))] ids from [pool]. *)
Definition parents_drawn_from (pool : list string) (c : Candidate.t) : Prop :=
  List.length (Candidate.parent_ids c) = Nat.min 2 (List.length pool) /\
  incl (Candidate.parent_ids c) pool.

(** The candidate [c] is bred from the generation [prev]: its parents are
    drawn from the survivors of [prev], every parent id names a candidate
    of [prev] that passed the gates and was selected for breeding, and
    every parent hash of the DNA bundle of [c] is the provenance hash of
    the bundle of such a candidate. *)
Definition bred_from (R : RandomGen) (clock : nat -> string)
    (prev : Generation.t) (c : Candidate.t) : Prop :=
  parents_drawn_from (Generation.survivors prev) c /\
  (forall pid : string,
     In pid (Candidate.parent_ids c) ->
     exists p : Candidate.t,
       In p (Generation.candidates prev) /\
       Candidate.id p = pid /\
       Candidate.gates_passed p = true /\
       Candidate.selected_for_breeding p = true) /\
  (forall (h : string) (w : World R),
     In h (DNABundle.parent_hashes (fst (generate_dna_bundle R clock c w))) ->
     exists p : Candidate.t,
       In p (Generation.candidates prev) /\
       Candidate.selected_for_breeding p = true /\
       forall w' : World R,
         DNABundle.provenance_hash (fst (generate_dna_bundle R clock p w')) = h).

(** ** Run summary *)

(** The candidate [p] is the best of the generation [g]: it passes the
    gates and no gate-passing candidate of [g] has a higher effective
    score. *)
Definition best_of (g : Generation.t) (p : Candidate.t) : Prop :=
  In p (Generation.candidates g) /\
  Candidate.gates_passed p = true /\
  forall c : Candidate.t,
    In c (Generation.candidates g) -> Candidate.gates_passed c = true ->
    (Candidate.effective_score c <= Candidate.effective_score p)%Q.

(** The entry of the summary for the candidate [p]. *)
Definition final_survivor_of (p : Candidate.t) : FinalSurvivor.t :=
  FinalSurvivor.mk (Candidate.id p) (Candidate.effective_score p)
    (Candidate.gates_passed p).

(** ** Prompt DNA *)

(** The [type] entries of the mutation records of a prompt. *)
Definition mutation_types (p : PromptDNA.t) : list string :=
  flat_map
    (fun mutation =>
       map snd (filter (fun kv => String.eqb (fst kv) "type") mutation))
    (PromptDNA.mutations p).

(** The prompt of a first-generation candidate: nothing inherited. *)
Definition initial_prompt (p : PromptDNA.t) : Prop :=
  PromptDNA.mutations p = [] /\
  PromptDNA.feedback_history p = [] /\
  PromptDNA.trust_region_similarity p = None.

(** The prompt of a later generation: mutated within the trust region, the
    similarity between 0.85 and 0.95 up to the rounding slack. *)
Definition refined_prompt (p : PromptDNA.t) : Prop :=
  (exists s : Q,
     PromptDNA.trust_region_similarity p = Some s /\
     (0.85 - rounding_slack <= s /\ s <= 0.95 + rounding_slack)%Q) /\
  In (mutation_types p)
     [ []; ["feedback_integration"]; ["constraint_refinement"];
       ["feedback_integration"; "constraint_refinement"] ] /\
  List.length (PromptDNA.feedback_history p) = 2%nat.

(** The summary of the candidate shows the whole task description of its
    prompt. *)
Definition summary_complete (R : RandomGen) (c : Candidate.t) : Prop :=
  forall w : World R,
    Candidate.prompt_dna_summary c =
    String.append
      (PromptDNA.task_description
         (fst (generate_prompt_dna R (Candidate.generation c) (Candidate.id c)
                 (Candidate.parent_ids c) w)))
      "...".

(** ** Score breakdown *)



(** ** Commit ids *)

(** The commit id that [generate_candidate] gives candidate [i] of a
    generation. *)
Definition commit_of (gen_num : Z) (i : nat) : string :=
  String.append "abc"
    (String.append (str_of_int gen_num)
       (String.append (format_03d (Z.of_nat i)) "def")).

(** ** Quality by generation number *)

(** A candidate with the metrics of a good draw (bounds on floats up to
    the rounding slack). *)
Definition drawn_good (c : Candidate.t) : Prop :=
  (0.95 - rounding_slack <= Metrics.test_pass_rate (Candidate.metrics c))%Q /\
  (90 - rounding_slack <= Metrics.security_score (Candidate.metrics c))%Q /\
  Metrics.license_compliance (Candidate.metrics c) = true /\
  (0 <= Metrics.vulnerability_count (Candidate.metrics c) <= 1)%Z /\
  (Candidate.gates_passed c = true <->
   Metrics.vulnerability_count (Candidate.metrics c) = 0%Z).

(** A candidate with the metrics of a bad draw (bounds on floats up to the
    rounding slack). *)
Definition drawn_bad (c : Candidate.t) : Prop :=
  (Metrics.test_pass_rate (Candidate.metrics c) <= 0.8 + rounding_slack)%Q /\
  (2 <= Metrics.vulnerability_count (Candidate.metrics c) <= 8)%Z /\
  Candidate.gates_passed c = false /\
  (Candidate.effective_score c <= 40 + rounding_slack)%Q.

(** The generation numbers that a double holds exactly.  The quality
    threshold [0.3 + gen_num * 0.15] converts the number to a float, which
    raises [OverflowError] for an integer beyond the range of doubles. *)
Definition exact_in_double (n : Z) : Prop :=
  (- 9007199254740992 <= n <= 9007199254740992)%Z.

(** ** Gate records *)

(** The evidence recorded in a gate result supports its verdict: a gate
    records a threshold and an actual value together or not at all, and a
    passed gate with evidence has an actual value that meets the
    threshold. *)
Definition gate_supported (g : GateResult.t) : Prop :=
  match GateResult.threshold g, GateResult.actual g with
  | Some t, Some a => GateResult.passed g = true -> (t <= a)%Q
  | None, None => True
  | _, _ => False
  end.

(** The gate records of a candidate: the four gates in order, the overall
    verdict their conjunction, every record supported by its evidence, and
    the vulnerability gate, which records the vulnerability count, carrying
    the overall verdict. *)
Definition gates_recorded (c : Candidate.t) : Prop :=
  map GateResult.gate_name (Candidate.gate_results c) =
    [ "Minimum Test Pass Rate"; "Security Threshold";
      "Zero Critical Vulnerabilities"; "License Compliance" ] /\
  Candidate.gates_passed c = forallb GateResult.passed (Candidate.gate_results c) /\
  Forall gate_supported (Candidate.gate_results c) /\
  exists g3 : GateResult.t,
    nth_error (Candidate.gate_results c) 2 = Some g3 /\
    GateResult.passed g3 = Candidate.gates_passed c /\
    GateResult.actual g3 =
      Some (inject_Z (Metrics.vulnerability_count (Candidate.metrics c))).

(** * Properties *)

(** ** The tape generator meets the contract *)

Lemma clamp01_range (q : Q) : (0 <= clamp01 q /\ clamp01 q < 1)%Q.
Proof.
  unfold clamp01, Qltb.
  destruct (Qle_bool 0 q) eqn:H0; simpl; [| lra].
  destruct (Qle_bool 1 q) eqn:H1; simpl; [lra |].
  apply Qle_bool_iff in H0. split; [exact H0 |].
  destruct (Qlt_le_dec q 1) as [Hlt | Hle]; [exact Hlt |].
  apply Qle_bool_iff in Hle. congruence.
Qed.

Lemma scaled_floor_range (q : Q) (a b : Z) :
  (0 <= q /\ q < 1)%Q -> (a <= b)%Z ->
  (a <= a + Qfloor (q * inject_Z (b - a + 1)) <= b)%Z.
Proof.
  intros [Hq0 Hq1] Hab.
  assert (Hn : (0 < inject_Z (b - a + 1))%Q).
  { change 0%Q with (inject_Z 0). rewrite <- Zlt_Qlt. lia. }
  assert (Hlo : (0 <= Qfloor (q * inject_Z (b - a + 1)))%Z).
  { change 0%Z with (Qfloor (inject_Z 0)) at 1. apply Qfloor_resp_le.
    change (inject_Z 0) with 0%Q. nra. }
  assert (Hhi : (Qfloor (q * inject_Z (b - a + 1)) < b - a + 1)%Z).
  { rewrite Zlt_Qlt.
    apply Qle_lt_trans with (q * inject_Z (b - a + 1))%Q.
    - apply Qfloor_le.
    - nra. }
  lia.
Qed.

Lemma tape_gen_laws (tape : list Q) : RandomLaws (tape_gen tape).
Proof.
  constructor.
  - intros pos. apply clamp01_range.
  - intros a b pos Hab. apply scaled_floor_range; [apply clamp01_range | exact Hab].
Qed.

(** ** Gate evaluation *)

Lemma Qgeb_true_iff (a b : Q) : Qgeb a b = true <-> (b <= a)%Q.
Proof. unfold Qgeb. apply Qle_bool_iff. Qed.

Lemma Qltb_true_iff (a b : Q) : Qltb a b = true <-> (a < b)%Q.
Proof.
  unfold Qltb. destruct (Qle_bool b a) eqn:E; simpl.
  - apply Qle_bool_iff in E. split; [discriminate | lra].
  - split; [intros _ | reflexivity].
    destruct (Qlt_le_dec a b) as [H | H]; [exact H |].
    apply Qle_bool_iff in H. congruence.
Qed.

Lemma Qltb_false_iff (a b : Q) : Qltb a b = false <-> (b <= a)%Q.
Proof.
  unfold Qltb. destruct (Qle_bool b a) eqn:E; simpl.
  - apply Qle_bool_iff in E. tauto.
  - split; [discriminate |]. intros H. apply Qle_bool_iff in H. congruence.
Qed.

Lemma Qgtb_true_iff (a b : Q) : Qgtb a b = true <-> (b < a)%Q.
Proof. apply (Qltb_true_iff b a). Qed.



(** ** Scoring *)

(** Each key that the scoring block reads from [weights] is defined. *)
Lemma weights_defined :
  Forall (fun k => In k (map fst weights))
    [ "test_pass_rate"; "security"; "performance"; "ux"; "coverage"; "style" ].
Proof. repeat constructor; simpl; tauto. Qed.

(** Replace each lookup [weights[k]] by the value the literal gives. *)
Ltac eval_weights :=
  repeat match goal with
         | |- context [dict_get weights ?k] =>
             let v := eval vm_compute in (dict_get weights k) in
             change (dict_get weights k) with v
         end.

Lemma effective_score_of_passed (m : Metrics.t) :
  (effective_score_of m true == weighted_sum m)%Q.
Proof.
  unfold effective_score_of, weighted_sum; cbn [negb].
  eval_weights. ring.
Qed.

Lemma effective_score_of_failed (m : Metrics.t) :
  (effective_score_of m false == 0.5 * weighted_sum m)%Q.
Proof.
  rewrite <- effective_score_of_passed.
  unfold effective_score_of; cbn [negb]. ring.
Qed.

(** What [generate_candidate] stores in the candidate it returns. *)
Lemma generate_candidate_fields (R : RandomGen) (clock : nat -> string)
    (gen_num candidate_num : Z) (parent_ids : list string)
    (is_good is_pareto selected : bool) (w : World R) :
  let c := fst (generate_candidate R clock gen_num candidate_num parent_ids
                  is_good is_pareto selected w) in
  Candidate.metrics c = fst (generate_metrics R gen_num is_good w) /\
  Candidate.gates_passed c = fst (generate_gate_results (Candidate.metrics c)) /\
  Candidate.gate_results c = snd (generate_gate_results (Candidate.metrics c)) /\
  Candidate.effective_score c =
    effective_score_of (Candidate.metrics c) (Candidate.gates_passed c) /\
  Candidate.weighted_scores c = weighted_scores_of (Candidate.metrics c) /\
  Candidate.id c =
    String.append "gen"
      (String.append (str_of_int gen_num)
         (String.append "-cand" (str_of_int candidate_num))) /\
  Candidate.generation c = gen_num /\
  Candidate.parent_ids c = parent_ids /\
  Candidate.is_pareto_front c = is_pareto /\
  Candidate.selected_for_breeding c = selected /\
  Candidate.reviewer_comments c =
    fst (generate_reviewer_comments R clock (Candidate.metrics c)
           (Candidate.gates_passed c)
           (snd (generate_metrics R gen_num is_good w))).
Proof.
  unfold generate_candidate, bind.
  destruct (generate_metrics R gen_num is_good w) as [m w1].
  cbn [generate_gate_results].
  destruct (generate_reviewer_comments R clock m _ w1) as [cs w2] eqn:Hrc.
  destruct (generate_prompt_dna R _ _ _ w2) as [p w3].
  destruct (randint R 1 3 w3) as [a w4].
  cbn [fst snd Candidate.metrics Candidate.gates_passed Candidate.gate_results
       Candidate.effective_score Candidate.weighted_scores Candidate.id
       Candidate.generation Candidate.parent_ids Candidate.is_pareto_front
       Candidate.selected_for_breeding Candidate.reviewer_comments ret].
  repeat (split; [reflexivity |]).
  symmetry. exact (f_equal fst Hrc).
Qed.

Lemma weighted_scores_of_terms (m : Metrics.t) :
  same_breakdown (weighted_scores_of m) (weighted_terms m).
Proof.
  unfold same_breakdown, weighted_scores_of, weighted_terms.
  eval_weights.
  repeat constructor; cbn [fst snd]; ring.
Qed.

(** In exact arithmetic: for every metrics value whose gates pass, the score
    computed by the scoring block is the weighted sum
    0.25*(test_pass_rate*100) + 0.25*security + 0.15*performance + 0.15*ux +
    0.10*(coverage*100) + 0.10*style, and the breakdown has exactly the six
    weighted terms. *)
Lemma effective_score_weighted_sum (m : Metrics.t) :
  fst (generate_gate_results m) = true ->
  (effective_score_of m (fst (generate_gate_results m)) ==
     0.25 * (Metrics.test_pass_rate m * 100) +
     0.25 * Metrics.security_score m +
     0.15 * Metrics.performance_score m +
     0.15 * Metrics.ux_score m +
     0.10 * (Metrics.coverage m * 100) +
     0.10 * Metrics.style_score m)%Q /\
  same_breakdown (weighted_scores_of m) (weighted_terms m) /\
  List.length (weighted_scores_of m) = 6%nat.
Proof.
  intros Hpass. rewrite Hpass.
  split; [apply effective_score_of_passed |].
  split; [apply weighted_scores_of_terms | reflexivity].
Qed.

Lemma effective_score_weighted_sum_scenario :
  fst (generate_gate_results metrics_A) = true /\
  (effective_score_of metrics_A (fst (generate_gate_results metrics_A)) == 89)%Q.
Proof.
  assert (Hpass : fst (generate_gate_results metrics_A) = true) by reflexivity.
  split; [exact Hpass |].
  destruct (effective_score_weighted_sum metrics_A Hpass) as [Hscore _].
  rewrite Hscore. vm_compute. reflexivity.
Qed.

(** The same, on the candidate that [generate_candidate] returns. *)
Lemma generate_candidate_score (R : RandomGen) (clock : nat -> string)
    (gen_num candidate_num : Z) (parent_ids : list string)
    (is_good is_pareto selected : bool) (w : World R) :
  let c := fst (generate_candidate R clock gen_num candidate_num parent_ids
                  is_good is_pareto selected w) in
  (Candidate.gates_passed c = true ->
     (Candidate.effective_score c == weighted_sum (Candidate.metrics c))%Q) /\
  (Candidate.gates_passed c = false ->
     (Candidate.effective_score c == 0.5 * weighted_sum (Candidate.metrics c))%Q) /\
  same_breakdown (Candidate.weighted_scores c) (weighted_terms (Candidate.metrics c)).
Proof.
  intros c.
  destruct (generate_candidate_fields R clock gen_num candidate_num parent_ids
              is_good is_pareto selected w)
    as (_ & _ & _ & Hscore & Hbreak & _).
  fold c in Hscore, Hbreak. rewrite Hscore, Hbreak.
  split; [intros ->; apply effective_score_of_passed |].
  split; [intros ->; apply effective_score_of_failed |].
  apply weighted_scores_of_terms.
Qed.

(** In exact arithmetic: with the gates failed the scoring block gives the
    gates-passed score of the same metrics multiplied by 0.5. *)
Lemma effective_score_of_halved (m : Metrics.t) :
  (effective_score_of m false == 0.5 * effective_score_of m true)%Q /\
  (effective_score_of m false == effective_score_of m true / 2)%Q /\
  ((0 < effective_score_of m true)%Q -> (0 < effective_score_of m false)%Q).
Proof.
  assert (H : (effective_score_of m false == 0.5 * effective_score_of m true)%Q).
  { unfold effective_score_of; cbn [negb]. ring. }
  split; [exact H |].
  split; [rewrite H; field |].
  intros Hpos. rewrite H. lra.
Qed.

Lemma effective_score_of_halved_scenario :
  (0 < effective_score_of metrics_B true)%Q /\
  (effective_score_of metrics_B true == 48.5)%Q /\
  (effective_score_of metrics_B false == 24.25)%Q /\
  (0 < effective_score_of metrics_B false)%Q.
Proof.
  assert (Hpos : (0 < effective_score_of metrics_B true)%Q) by reflexivity.
  destruct (effective_score_of_halved metrics_B) as (Hhalf & _ & Hnz).
  split; [exact Hpos |].
  split; [vm_compute; reflexivity |].
  split; [rewrite Hhalf; vm_compute; reflexivity |].
  exact (Hnz Hpos).
Qed.

(** ** The shape of a generation *)

(** [generate_generation] is: create the candidates, run the selection pass
    on them, and assemble the record from the resulting store. *)
Lemma generate_generation_shape (R : RandomGen) (clock : nat -> string)
    (gen_num : Z) (parent_candidates : list string) (w : World R) :
  let g := fst (generate_generation R clock gen_num parent_candidates w) in
  let created := created_candidates R clock gen_num parent_candidates w in
  let selection := select_survivors R (fst created) (snd created) in
  let store := fst (fst selection) in
  let survivors := snd (fst selection) in
  Generation.number g = gen_num /\
  Generation.candidates g = store /\
  Generation.pareto_front g = pareto_points store /\
  Generation.ucb_allocations g =
    fst (generate_ucb_allocations R gen_num (snd selection)) /\
  Generation.survivors g = map (attr Candidate.id EmptyString store) survivors /\
  Generation.breeding_pairs g = make_breeding_pairs (Generation.survivors g).
Proof.
  unfold generate_generation, created_candidates, bind.
  destruct ((if (gen_num =? 0)%Z then ret 8%Z else randint R 6 8) w) as [n w1].
  destruct (mapM _ _ w1) as [cands w2]. cbn [fst snd].
  destruct (select_survivors R cands w2) as [[store survivors] w3]. cbn [fst snd].
  destruct (generate_ucb_allocations R gen_num w3) as [ucb w4].
  cbn. repeat split; reflexivity.
Qed.

(** ** Pareto front *)

(** C4, as the code has it.  The [pareto_front] of a generation holds one
    point for every candidate of the generation, in candidate order, with
    the security score and the performance score as coordinates: no
    candidate is left out, so candidates with identical coordinates are
    both included, and no dominance filtering takes place. *)
Theorem pareto_front_lists_every_candidate (R : RandomGen) (clock : nat -> string)
    (gen_num : Z) (parent_candidates : list string) (w : World R) :
  let g := fst (generate_generation R clock gen_num parent_candidates w) in
  Generation.pareto_front g = map point_of (Generation.candidates g) /\
  map ParetoPoint.candidate_id (Generation.pareto_front g) =
    map Candidate.id (Generation.candidates g) /\
  (forall c, In c (Generation.candidates g) ->
     In (point_of c) (Generation.pareto_front g)).
Proof.
  intros g.
  destruct (generate_generation_shape R clock gen_num parent_candidates w)
    as (_ & Hc & Hp & _).
  fold g in Hc, Hp.
  assert (H : Generation.pareto_front g = map point_of (Generation.candidates g)).
  { rewrite Hp, Hc. reflexivity. }
  split; [exact H |].
  split.
  - rewrite H, map_map. reflexivity.
  - intros c Hin. rewrite H. apply in_map. exact Hin.
Qed.

Lemma dominatesb_sound (a b : Candidate.t) :
  dominatesb a b = true -> dominates a b.
Proof.
  unfold dominatesb, dominates. intros H.
  apply andb_prop in H. destruct H as [H H3].
  apply andb_prop in H. destruct H as [H1 H2].
  apply Qle_bool_iff in H1. apply Qle_bool_iff in H2.
  apply orb_prop in H3.
  split; [exact H1 |]. split; [exact H2 |].
  destruct H3 as [H3 | H3]; apply Qltb_true_iff in H3; [left | right]; exact H3.
Qed.

Lemma existsb_eqb_In (x : string) (l : list string) :
  existsb (String.eqb x) l = true -> In x l.
Proof.
  intros H. apply existsb_exists in H. destruct H as (y & Hin & Heq).
  apply String.eqb_eq in Heq. subst y. exact Hin.
Qed.

(** Generation 0 of the run on the demo tape: candidate 0 (security 94,
    performance 94) dominates candidate 1 (security 76, performance 53),
    and the point of candidate 1 is in the front all the same. *)
Lemma pareto_front_contains_dominated :
  let g := fst (generate_generation demo_gen tick_clock 0 [] demo_world) in
  exists a b : Candidate.t,
    nth_error (Generation.candidates g) 0 = Some a /\
    nth_error (Generation.candidates g) 1 = Some b /\
    Candidate.id a = "gen0-cand0" /\
    Candidate.id b = "gen0-cand1" /\
    dominates a b /\
    In (Candidate.id b)
       (map ParetoPoint.candidate_id (Generation.pareto_front g)).
Proof.
  cbv zeta.
  set (g := fst (generate_generation demo_gen tick_clock 0 [] demo_world)).
  assert (H : match Generation.candidates g with
              | a :: b :: _ =>
                  String.eqb (Candidate.id a) "gen0-cand0" &&
                  String.eqb (Candidate.id b) "gen0-cand1" &&
                  dominatesb a b &&
                  existsb (String.eqb (Candidate.id b))
                    (map ParetoPoint.candidate_id (Generation.pareto_front g))
              | _ => false
              end = true).
  { vm_compute. reflexivity. }
  clearbody g.
  destruct (Generation.candidates g) as [| a [| b rest]]; try discriminate H.
  apply andb_prop in H. destruct H as [H H4].
  apply andb_prop in H. destruct H as [H H3].
  apply andb_prop in H. destruct H as [H1 H2].
  exists a, b.
  split; [reflexivity |]. split; [reflexivity |].
  split; [apply String.eqb_eq; exact H1 |].
  split; [apply String.eqb_eq; exact H2 |].
  split; [apply dominatesb_sound; exact H3 | apply existsb_eqb_In; exact H4].
Qed.

(** ** Lists, references and the stable sort *)

Section SortFacts.
Context {A : Type} (key : A -> Q).

Lemma insert_desc_perm (x : A) (l : list A) :
  Permutation (insert_desc key x l) (x :: l).
Proof.
  induction l as [| y rest IH]; cbn [insert_desc].
  - apply Permutation_refl.
  - destruct (Qltb (key x) (key y)).
    + apply Permutation_trans with (y :: x :: rest).
      * apply perm_skip. exact IH.
      * apply perm_swap.
    + apply Permutation_refl.
Qed.

Lemma sort_desc_perm (l : list A) : Permutation (sort_desc key l) l.
Proof.
  induction l as [| x rest IH]; cbn [sort_desc].
  - apply Permutation_refl.
  - apply Permutation_trans with (x :: sort_desc key rest).
    + apply insert_desc_perm.
    + apply perm_skip. exact IH.
Qed.

Lemma sort_desc_length (l : list A) :
  List.length (sort_desc key l) = List.length l.
Proof. apply Permutation_length, sort_desc_perm. Qed.

End SortFacts.

Lemma insert_desc_map {A B : Type} (f : A -> B) (key : B -> Q) (x : A) (l : list A) :
  map f (insert_desc (fun a => key (f a)) x l) = insert_desc key (f x) (map f l).
Proof.
  induction l as [| y rest IH]; cbn [insert_desc map]; [reflexivity |].
  destruct (Qltb (key (f x)) (key (f y))); cbn [map]; [rewrite IH |]; reflexivity.
Qed.

(** Sorting references by the key of the object they point to is sorting
    the objects. *)
Lemma sort_desc_map {A B : Type} (f : A -> B) (key : B -> Q) (l : list A) :
  map f (sort_desc (fun a => key (f a)) l) = sort_desc key (map f l).
Proof.
  induction l as [| x rest IH]; cbn [sort_desc map]; [reflexivity |].
  rewrite insert_desc_map, IH. reflexivity.
Qed.

Lemma filter_map_comm {A B : Type} (f : A -> B) (p : B -> bool) (l : list A) :
  map f (filter (fun a => p (f a)) l) = filter p (map f l).
Proof.
  induction l as [| x rest IH]; cbn [filter map]; [reflexivity |].
  destruct (p (f x)); cbn [map]; rewrite IH; reflexivity.
Qed.

(** Dereferencing the positions [0 .. len-1] of a store gives the store. *)
Lemma map_nth_error_seq {A : Type} (l : list A) :
  map (nth_error l) (seq 0 (List.length l)) = map Some l.
Proof.
  induction l as [| x rest IH]; [reflexivity |].
  cbn [List.length seq map nth_error].
  rewrite <- seq_shift, map_map, <- IH. reflexivity.
Qed.

Lemma StronglySorted_filter {A : Type} (R : A -> A -> Prop) (p : A -> bool)
    (l : list A) :
  StronglySorted R l -> StronglySorted R (filter p l).
Proof.
  induction 1 as [| x rest Hs IH Hall]; cbn [filter]; [constructor |].
  destruct (p x); [| exact IH].
  constructor; [exact IH |].
  apply Forall_forall. intros y Hy. apply filter_In in Hy.
  rewrite Forall_forall in Hall. apply Hall, Hy.
Qed.

Lemma StronglySorted_map {A B : Type} (R : B -> B -> Prop) (f : A -> B)
    (l : list A) :
  StronglySorted R (map f l) -> StronglySorted (fun a b => R (f a) (f b)) l.
Proof.
  induction l as [| x rest IH]; intros H; [constructor |].
  cbn [map] in H. inversion H as [| ? ? Hs Hall]; subst.
  constructor; [apply IH; exact Hs |].
  apply Forall_forall. intros y Hy.
  rewrite Forall_forall in Hall. apply Hall, in_map, Hy.
Qed.

(** *** References into the store *)

(** The passing references, dereferenced, are the passing candidates. *)
Lemma passing_refs_deref (store : list Candidate.t) :
  map (nth_error store) (passing_refs store) =
  map Some (filter Candidate.gates_passed store).
Proof.
  unfold passing_refs.
  change (attr Candidate.gates_passed false store)
    with (fun r => opt_passed (nth_error store r)).
  rewrite filter_map_comm, map_nth_error_seq.
  rewrite <- (filter_map_comm Some opt_passed). reflexivity.
Qed.

(** The references in rank order, dereferenced, are the passing candidates
    sorted by descending score. *)
Lemma sorted_refs_deref (store : list Candidate.t) :
  map (nth_error store)
    (sort_desc (attr Candidate.effective_score 0%Q store) (passing_refs store)) =
  map Some (sort_desc Candidate.effective_score
              (filter Candidate.gates_passed store)).
Proof.
  change (attr Candidate.effective_score 0%Q store)
    with (fun r => opt_score (nth_error store r)).
  rewrite sort_desc_map, passing_refs_deref.
  rewrite <- (sort_desc_map Some opt_score). reflexivity.
Qed.

Lemma passing_refs_length (store : list Candidate.t) :
  List.length (passing_refs store) =
  List.length (filter Candidate.gates_passed store).
Proof.
  rewrite <- (length_map (nth_error store)), passing_refs_deref, length_map.
  reflexivity.
Qed.

(** ** The survivor-selection pass *)

Lemma marked_frame_eq (c c' : Candidate.t) : marked c c' -> frame_eq c c'.
Proof.
  intros [-> | [pareto ->]]; unfold frame_eq; repeat split; reflexivity.
Qed.

Lemma marked_again (pareto : bool) (c c' : Candidate.t) :
  marked c c' -> marked c (mark_survivor pareto c').
Proof.
  intros [-> | [pareto' ->]]; right; exists pareto; reflexivity.
Qed.

Lemma Forall2_marked_refl (l : list Candidate.t) : Forall2 marked l l.
Proof. induction l; constructor; [left; reflexivity | assumption]. Qed.

Lemma update_at_marked (i : nat) (pareto : bool) (l l' : list Candidate.t) :
  Forall2 marked l l' ->
  Forall2 marked l (update_at i (mark_survivor pareto) l').
Proof.
  intros H. revert i.
  induction H as [| c c' l l' Hc Hl IH]; intros i; cbn [update_at].
  - constructor.
  - destruct i as [| j]; constructor; auto using marked_again.
Qed.

Lemma update_at_other {A : Type} (f : A -> A) (l : list A) (i j : nat) :
  i <> j -> nth_error (update_at j f l) i = nth_error l i.
Proof.
  revert i j. induction l as [| x rest IH]; intros i j Hij; [reflexivity |].
  destruct j as [| j]; destruct i as [| i]; cbn [update_at nth_error];
    try reflexivity; try congruence.
  apply IH. congruence.
Qed.

Lemma mark_survivors_marked (R : RandomGen) (survivors : list nat)
    (l store : list Candidate.t) (w : World R) :
  Forall2 marked l store ->
  Forall2 marked l (fst (mark_survivors R survivors store w)).
Proof.
  revert store w.
  induction survivors as [| r rest IH]; intros store w H; cbn [mark_survivors].
  - exact H.
  - unfold bind. destruct (random R w) as [x w1].
    apply IH, update_at_marked, H.
Qed.

Lemma mark_survivors_other (R : RandomGen) (survivors : list nat)
    (store : list Candidate.t) (w : World R) (i : nat) :
  ~ In i survivors ->
  nth_error (fst (mark_survivors R survivors store w)) i = nth_error store i.
Proof.
  revert store w.
  induction survivors as [| r rest IH]; intros store w Hi; cbn [mark_survivors].
  - reflexivity.
  - unfold bind. destruct (random R w) as [x w1].
    rewrite IH by (intros Hin; apply Hi; right; exact Hin).
    apply update_at_other. intros ->. apply Hi. left. reflexivity.
Qed.

Lemma select_survivors_refs (R : RandomGen) (candidates : list Candidate.t)
    (w : World R) :
  snd (fst (select_survivors R candidates w)) =
  if (2 <=? List.length (ranked_refs candidates))%nat
  then firstn 3 (ranked_refs candidates) else [].
Proof.
  unfold select_survivors. fold (ranked_refs candidates).
  destruct (2 <=? List.length (ranked_refs candidates))%nat; [| reflexivity].
  unfold bind. destruct (mark_survivors R _ candidates w). reflexivity.
Qed.

Lemma select_survivors_marked (R : RandomGen) (candidates : list Candidate.t)
    (w : World R) :
  Forall2 marked candidates (fst (fst (select_survivors R candidates w))).
Proof.
  unfold select_survivors. fold (ranked_refs candidates).
  destruct (2 <=? List.length (ranked_refs candidates))%nat.
  - unfold bind.
    pose proof (mark_survivors_marked R (firstn 3 (ranked_refs candidates))
                  candidates candidates w (Forall2_marked_refl _)) as H.
    destruct (mark_survivors R _ candidates w). exact H.
  - apply Forall2_marked_refl.
Qed.

Lemma select_survivors_other (R : RandomGen) (candidates : list Candidate.t)
    (w : World R) (i : nat) :
  ~ In i (snd (fst (select_survivors R candidates w))) ->
  nth_error (fst (fst (select_survivors R candidates w))) i =
  nth_error candidates i.
Proof.
  unfold select_survivors. fold (ranked_refs candidates).
  destruct (2 <=? List.length (ranked_refs candidates))%nat.
  - unfold bind.
    pose proof (mark_survivors_other R (firstn 3 (ranked_refs candidates))
                  candidates w i) as H.
    destruct (mark_survivors R _ candidates w). exact H.
  - reflexivity.
Qed.

Lemma ranked_refs_length (candidates : list Candidate.t) :
  List.length (ranked_refs candidates) =
  List.length (filter Candidate.gates_passed candidates).
Proof.
  unfold ranked_refs. rewrite sort_desc_length. apply passing_refs_length.
Qed.

(** Projections agree along two stores related field by field. *)
Lemma Forall2_map_eq {A B : Type} (P : A -> A -> Prop) (f : A -> B)
    (l l' : list A) :
  (forall a a', P a a' -> f a' = f a) ->
  Forall2 P l l' -> map f l' = map f l.
Proof.
  intros Hf H. induction H as [| a a' l l' Ha Hl IH]; [reflexivity |].
  cbn [map]. rewrite IH, (Hf a a' Ha). reflexivity.
Qed.

Lemma Forall2_attr_eq {A : Type} (P : Candidate.t -> Candidate.t -> Prop)
    (f : Candidate.t -> A) (d : A) (l l' : list Candidate.t) (r : nat) :
  (forall a a', P a a' -> f a' = f a) ->
  Forall2 P l l' -> attr f d l' r = attr f d l r.
Proof.
  intros Hf H. revert r.
  induction H as [| a a' l l' Ha Hl IH]; intros r.
  - reflexivity.
  - destruct r as [| r]; unfold attr in *; cbn [nth_error].
    + apply Hf, Ha.
    + apply IH.
Qed.

(** C9, as the code has it.  The selection pass leaves every field of every
    candidate as it was created, except [selected_for_breeding],
    [is_pareto_front] and [survival_reason], which it assigns on the
    survivors; [effective_score] is among the fields it leaves alone;
    candidates that no survivor reference points to are unchanged; and the
    generation holds the store exactly as the pass left it. *)
Theorem selection_pass_frame (R : RandomGen) (clock : nat -> string)
    (gen_num : Z) (parent_candidates : list string) (w : World R) :
  let created := created_candidates R clock gen_num parent_candidates w in
  let selection := fst (select_survivors R (fst created) (snd created)) in
  let g := fst (generate_generation R clock gen_num parent_candidates w) in
  Generation.candidates g = fst selection /\
  Forall2 frame_eq (fst created) (Generation.candidates g) /\
  Forall2 marked (fst created) (Generation.candidates g) /\
  (forall i : nat, ~ In i (snd selection) ->
     nth_error (Generation.candidates g) i = nth_error (fst created) i).
Proof.
  intros created selection g.
  destruct (generate_generation_shape R clock gen_num parent_candidates w)
    as (_ & Hc & _).
  fold created in Hc. fold g in Hc. fold selection in Hc.
  pose proof (select_survivors_marked R (fst created) (snd created)) as Hm.
  fold selection in Hm.
  rewrite Hc.
  split; [reflexivity |].
  split; [exact (Forall2_impl _ marked_frame_eq Hm) |].
  split; [exact Hm |].
  intros i Hi. apply select_survivors_other. exact Hi.
Qed.

(** Generation 1 of the demo run: candidate 1 is created with
    [survival_reason = None]; it ranks first among the two passing
    candidates, and the pass sets its [survival_reason] to
    ["Pareto optimal"]. *)
Lemma selection_pass_assigns_survival_reason :
  let created := created_candidates demo_gen tick_clock 1 [] demo_world_1 in
  let selection := fst (select_survivors demo_gen (fst created) (snd created)) in
  exists c c' : Candidate.t,
    nth_error (fst created) 1 = Some c /\
    nth_error (fst selection) 1 = Some c' /\
    snd selection = [1; 4]%nat /\
    Candidate.survival_reason c = None /\
    Candidate.survival_reason c' = Some "Pareto optimal" /\
    ~ unchanged_except_derived c c'.
Proof.
  cbv zeta.
  set (created := created_candidates demo_gen tick_clock 1 [] demo_world_1).
  set (selection := fst (select_survivors demo_gen (fst created) (snd created))).
  assert (H : (nth_error (map Candidate.survival_reason (fst created)) 1,
               nth_error (map Candidate.survival_reason (fst selection)) 1,
               snd selection) =
              (Some None, Some (Some "Pareto optimal"), [1; 4]%nat)).
  { vm_compute. reflexivity. }
  clearbody selection. clearbody created.
  injection H as H1 H2 H3.
  destruct (fst created) as [| c0 [| c rest]]; try discriminate H1.
  destruct (fst selection) as [| c0' [| c' rest']]; try discriminate H2.
  cbn in H1, H2. injection H1 as H1. injection H2 as H2.
  exists c, c'. repeat (split; [solve [reflexivity | assumption] |]).
  unfold unchanged_except_derived. rewrite H1, H2.
  intros (_ & _ & _ & _ & _ & _ & _ & _ & _ & Hr & _). discriminate Hr.
Qed.

(** ** Insufficient survivors *)

Lemma Forall2_filter_length {A : Type} (P : A -> A -> Prop) (p : A -> bool)
    (l l' : list A) :
  (forall a a', P a a' -> p a' = p a) ->
  Forall2 P l l' ->
  List.length (filter p l') = List.length (filter p l).
Proof.
  intros Hp H. induction H as [| a a' l l' Ha Hl IH]; [reflexivity |].
  cbn [filter]. rewrite (Hp a a' Ha).
  destruct (p a); cbn [List.length]; rewrite IH; reflexivity.
Qed.

Lemma frame_eq_gates_passed (c c' : Candidate.t) :
  frame_eq c c' -> Candidate.gates_passed c' = Candidate.gates_passed c.
Proof. intros H. apply H. Qed.

Lemma frame_eq_effective_score (c c' : Candidate.t) :
  frame_eq c c' -> Candidate.effective_score c' = Candidate.effective_score c.
Proof. intros H. apply H. Qed.

Lemma frame_eq_id (c c' : Candidate.t) :
  frame_eq c c' -> Candidate.id c' = Candidate.id c.
Proof. intros H. apply H. Qed.

(** The store after the pass is the created store, field by field on the
    frame. *)
Lemma generation_candidates_frame (R : RandomGen) (clock : nat -> string)
    (gen_num : Z) (parent_candidates : list string) (w : World R) :
  Forall2 frame_eq
    (fst (created_candidates R clock gen_num parent_candidates w))
    (Generation.candidates
       (fst (generate_generation R clock gen_num parent_candidates w))).
Proof.
  destruct (generate_generation_shape R clock gen_num parent_candidates w)
    as (_ & Hc & _).
  rewrite Hc.
  exact (Forall2_impl _ marked_frame_eq (select_survivors_marked R _ _)).
Qed.

(** The survivor ids of a generation, from the candidates as created. *)
Lemma generation_survivors_refs (R : RandomGen) (clock : nat -> string)
    (gen_num : Z) (parent_candidates : list string) (w : World R) :
  let created := fst (created_candidates R clock gen_num parent_candidates w) in
  Generation.survivors
    (fst (generate_generation R clock gen_num parent_candidates w)) =
  map (attr Candidate.id EmptyString created)
    (if (2 <=? List.length (ranked_refs created))%nat
     then firstn 3 (ranked_refs created) else []).
Proof.
  intros created.
  destruct (generate_generation_shape R clock gen_num parent_candidates w)
    as (_ & _ & _ & _ & Hs & _).
  rewrite Hs, select_survivors_refs. fold created.
  apply map_ext. intros r.
  apply (Forall2_attr_eq frame_eq); [exact frame_eq_id |].
  exact (Forall2_impl _ marked_frame_eq (select_survivors_marked R _ _)).
Qed.

Lemma insufficient_survivors_empty (R : RandomGen) (clock : nat -> string)
    (gen_num : Z) (parent_candidates : list string) (w : World R) :
  let g := fst (generate_generation R clock gen_num parent_candidates w) in
  (List.length (filter Candidate.gates_passed (Generation.candidates g)) < 2)%nat ->
  Generation.survivors g = [] /\ Generation.breeding_pairs g = [].
Proof.
  intros g Hlt.
  destruct (generate_generation_shape R clock gen_num parent_candidates w)
    as (_ & _ & _ & _ & _ & Hb).
  fold g in Hb.
  assert (Hs : Generation.survivors g = []).
  { unfold g. rewrite generation_survivors_refs.
    rewrite ranked_refs_length.
    rewrite <- (Forall2_filter_length frame_eq Candidate.gates_passed _ _
                  frame_eq_gates_passed
                  (generation_candidates_frame R clock gen_num parent_candidates w)).
    fold g.
    destruct (Nat.leb_spec 2
                (List.length (filter Candidate.gates_passed (Generation.candidates g))));
      [lia | reflexivity]. }
  split; [exact Hs |]. rewrite Hb, Hs. reflexivity.
Qed.

Lemma run_generations_spec (R : RandomGen) (clock : nat -> string)
    (gen_nums : list Z) (parent_ids : list string) (w : World R) :
  map Generation.number (fst (run_generations R clock gen_nums parent_ids w)) =
    gen_nums /\
  Forall (is_generation R clock) (fst (run_generations R clock gen_nums parent_ids w)).
Proof.
  revert parent_ids w.
  induction gen_nums as [| i rest IH]; intros parent_ids w; cbn [run_generations].
  - split; [reflexivity | constructor].
  - unfold bind.
    pose proof (generate_generation_shape R clock i parent_ids w) as (Hn & _).
    assert (Hg : is_generation R clock
                   (fst (generate_generation R clock i parent_ids w))).
    { exists i, parent_ids, w. reflexivity. }
    destruct (generate_generation R clock i parent_ids w) as [g w1].
    cbn [fst] in Hn, Hg.
    specialize (IH (Generation.survivors g) w1).
    destruct (run_generations R clock rest (Generation.survivors g) w1) as [gs w2].
    cbn [fst ret map] in *. destruct IH as [IH1 IH2].
    split; [rewrite Hn, IH1; reflexivity | constructor; assumption].
Qed.

Lemma create_sample_run_generations (R : RandomGen) (clock : nat -> string)
    (w : World R) :
  GADRun.generations (fst (create_sample_run R clock w)) =
  fst (run_generations R clock [0; 1; 2; 3; 4]%Z []
         (mkWorld (rng_seed R 42) (w_reads w))) /\
  GADRun.total_generations (fst (create_sample_run R clock w)) = 5%Z.
Proof.
  unfold create_sample_run, bind, seed.
  change (map Z.of_nat (seq 0 5)) with [0; 1; 2; 3; 4]%Z.
  destruct (run_generations R clock _ [] _) as [gs w1].
  split; reflexivity.
Qed.

(** C6, as the code has it.  A generation in which fewer than two
    candidates pass the gates raises nothing: it is returned with an empty
    survivor list and no breeding pairs, and the run goes on; every run has
    the five generations 0, 1, 2, 3, 4. *)
Theorem run_continues_without_survivors (R : RandomGen) (clock : nat -> string)
    (w : World R) :
  let run := fst (create_sample_run R clock w) in
  map Generation.number (GADRun.generations run) = [0; 1; 2; 3; 4]%Z /\
  GADRun.total_generations run = 5%Z /\
  (forall g : Generation.t,
     In g (GADRun.generations run) ->
     (List.length (filter Candidate.gates_passed (Generation.candidates g)) < 2)%nat ->
     Generation.survivors g = [] /\ Generation.breeding_pairs g = []).
Proof.
  intros run.
  destruct (create_sample_run_generations R clock w) as [Hg Ht].
  fold run in Hg, Ht.
  destruct (run_generations_spec R clock [0; 1; 2; 3; 4]%Z []
              (mkWorld (rng_seed R 42) (w_reads w))) as [Hn Hall].
  rewrite <- Hg in Hn, Hall.
  split; [exact Hn |]. split; [exact Ht |].
  intros g Hin Hlt.
  rewrite Forall_forall in Hall.
  destruct (Hall g Hin) as (gen_num & parents & w' & ->).
  apply insufficient_survivors_empty. exact Hlt.
Qed.

(** The demo run: generation 0 has a single passing candidate and no
    survivors, and four more generations follow it. *)
Lemma run_continues_after_insufficient_survivors :
  let run := fst (create_sample_run demo_gen tick_clock demo_world) in
  exists (g : Generation.t) (rest : list Generation.t),
    GADRun.generations run = g :: rest /\
    Generation.number g = 0%Z /\
    List.length (filter Candidate.gates_passed (Generation.candidates g)) = 1%nat /\
    Generation.survivors g = [] /\
    map Generation.number rest = [1; 2; 3; 4]%Z /\
    map (fun g' => List.length (Generation.candidates g')) rest = [6; 8; 8; 7]%nat.
Proof.
  cbv zeta.
  set (run := fst (create_sample_run demo_gen tick_clock demo_world)).
  assert (H : match GADRun.generations run with
              | g :: rest =>
                  (Generation.number g,
                   List.length (filter Candidate.gates_passed (Generation.candidates g)),
                   Generation.survivors g,
                   map Generation.number rest,
                   map (fun g' => List.length (Generation.candidates g')) rest)
              | [] => (1%Z, O, [], [], [])
              end = (0%Z, 1%nat, [], [1; 2; 3; 4]%Z, [6; 8; 8; 7]%nat)).
  { vm_compute. reflexivity. }
  clearbody run.
  destruct (GADRun.generations run) as [| g rest]; [discriminate H |].
  injection H as H1 H2 H3 H4 H5.
  exists g, rest. repeat (split; [solve [reflexivity | assumption] |]).
  assumption.
Qed.

(** ** Bandit allocation snapshot *)

Lemma generate_ucb_allocations_fields (R : RandomGen) (gen_num : Z) (w : World R) :
  let ucb := fst (generate_ucb_allocations R gen_num w) in
  map UCBStats.agent_id ucb = ["generator-001"; "generator-002"; "generator-003"] /\
  map UCBStats.times_selected ucb =
    [gen_num * 3 + 5; gen_num * 2 + 4; gen_num * 2 + 2]%Z /\
  map UCBStats.exploration_bonus ucb = [0.08; 0.12; 0.15]%Q /\
  map UCBStats.total_score ucb = [0.88; 0.85; 0.82]%Q.
Proof.
  unfold generate_ucb_allocations, bind.
  destruct (random R w) as [r1 w1].
  destruct (random R w1) as [r2 w2].
  destruct (random R w2) as [r3 w3].
  cbn. repeat split; reflexivity.
Qed.

(** X22.  The allocation snapshot of a generation is a
    fixed table: for a generation number [g >= 0] the three agents have
    [times_selected] 3g+5, 2g+4 and 2g+2, so each of them is at least 2 and
    none is 0; their exploration bonuses (0.08, 0.12, 0.15) and total
    scores (0.88, 0.85, 0.82) are constants that do not depend on
    [times_selected]. *)
Theorem ucb_allocations_fixed_table (R : RandomGen) (clock : nat -> string)
    (gen_num : Z) (parent_candidates : list string) (w : World R) :
  (0 <= gen_num)%Z ->
  let g := fst (generate_generation R clock gen_num parent_candidates w) in
  map UCBStats.agent_id (Generation.ucb_allocations g) =
    ["generator-001"; "generator-002"; "generator-003"] /\
  map UCBStats.times_selected (Generation.ucb_allocations g) =
    [gen_num * 3 + 5; gen_num * 2 + 4; gen_num * 2 + 2]%Z /\
  Forall (fun t => (2 <= t)%Z)
    (map UCBStats.times_selected (Generation.ucb_allocations g)) /\
  map UCBStats.exploration_bonus (Generation.ucb_allocations g) =
    [0.08; 0.12; 0.15]%Q /\
  map UCBStats.total_score (Generation.ucb_allocations g) =
    [0.88; 0.85; 0.82]%Q.
Proof.
  intros Hpos g.
  destruct (generate_generation_shape R clock gen_num parent_candidates w)
    as (_ & _ & _ & Hu & _).
  fold g in Hu. rewrite Hu.
  destruct (generate_ucb_allocations_fields R gen_num
              (snd (select_survivors R
                      (fst (created_candidates R clock gen_num parent_candidates w))
                      (snd (created_candidates R clock gen_num parent_candidates w)))))
    as (Ha & Ht & Hb & Hs).
  split; [exact Ha |]. split; [exact Ht |].
  split; [rewrite Ht; repeat constructor; lia |].
  split; [exact Hb | exact Hs].
Qed.

Lemma ucb_allocations_fixed_table_witness :
  (0 <= 0)%Z /\
  map UCBStats.times_selected
    (Generation.ucb_allocations
       (fst (generate_generation demo_gen tick_clock 0 [] demo_world))) =
    [5; 4; 2]%Z.
Proof.
  assert (H0 : (0 <= 0)%Z) by lia.
  split; [exact H0 |].
  exact (proj1 (proj2 (ucb_allocations_fixed_table demo_gen tick_clock 0 []
                         demo_world H0))).
Defined.

(** ** Survivor ranking *)

(** *** Candidate ids within a generation ascend *)

Lemma compare_append_prefix (p a b : string) :
  String.compare (String.append p a) (String.append p b) = String.compare a b.
Proof.
  induction p as [| c p IH]; cbn [String.append String.compare]; [reflexivity |].
  unfold Ascii.compare. rewrite N.compare_refl. exact IH.
Qed.

Lemma ltb_append_prefix (p a b : string) :
  String.ltb (String.append p a) (String.append p b) = String.ltb a b.
Proof. unfold String.ltb. rewrite compare_append_prefix. reflexivity. Qed.

(** Below ten the decimal strings order as the numbers do. *)
Lemma digit_strings_ascend (i j : nat) :
  (i < j)%nat -> (j < 10)%nat ->
  String.ltb (str_of_int (Z.of_nat i)) (str_of_int (Z.of_nat j)) = true.
Proof.
  intros Hij Hj.
  assert (H : forallb
                (fun j =>
                   forallb
                     (fun i => String.ltb (str_of_int (Z.of_nat i))
                                          (str_of_int (Z.of_nat j)))
                     (seq 0 j))
                (seq 0 10) = true) by (vm_compute; reflexivity).
  rewrite forallb_forall in H.
  specialize (H j). rewrite forallb_forall in H.
  apply H; apply in_seq; lia.
Qed.

Lemma cand_id_ascend (gen_num : Z) (i j : nat) :
  (i < j)%nat -> (j < 10)%nat ->
  String.ltb (cand_id gen_num i) (cand_id gen_num j) = true.
Proof.
  intros Hij Hj. unfold cand_id.
  rewrite !ltb_append_prefix. apply digit_strings_ascend; assumption.
Qed.

Lemma StronglySorted_map_seq {B : Type} (P : B -> B -> Prop) (f : nat -> B)
    (a n : nat) :
  (forall i j : nat, (a <= i)%nat -> (i < j)%nat -> (j < a + n)%nat -> P (f i) (f j)) ->
  StronglySorted P (map f (seq a n)).
Proof.
  revert a. induction n as [| n IH]; intros a H; cbn [seq map].
  - constructor.
  - constructor.
    + apply IH. intros i j Hi Hij Hj. apply H; lia.
    + apply Forall_forall. intros y Hy.
      apply in_map_iff in Hy. destruct Hy as (j & <- & Hj).
      apply in_seq in Hj. apply H; lia.
Qed.

Lemma generate_nth_candidate_id (R : RandomGen) (clock : nat -> string)
    (gen_num : Z) (parent_candidates : list string) (i : nat) (w : World R) :
  Candidate.id (fst (generate_nth_candidate R clock gen_num parent_candidates i w)) =
  cand_id gen_num i.
Proof.
  unfold generate_nth_candidate, bind.
  destruct (random R w) as [r w1].
  destruct ((if (gen_num =? 0)%Z then ret []
             else sample R parent_candidates
                    (Nat.min 2 (List.length parent_candidates))) w1)
    as [parents w2].
  apply (generate_candidate_fields R clock gen_num (Z.of_nat i) parents).
Qed.

Lemma mapM_candidate_ids (R : RandomGen) (clock : nat -> string)
    (gen_num : Z) (parent_candidates : list string) (l : list nat) (w : World R) :
  map Candidate.id
    (fst (mapM (generate_nth_candidate R clock gen_num parent_candidates) l w)) =
  map (cand_id gen_num) l.
Proof.
  revert w. induction l as [| i rest IH]; intros w; cbn [mapM]; [reflexivity |].
  unfold bind.
  pose proof (generate_nth_candidate_id R clock gen_num parent_candidates i w) as Hi.
  destruct (generate_nth_candidate R clock gen_num parent_candidates i w) as [c w1].
  specialize (IH w1).
  destruct (mapM _ rest w1) as [cs w2].
  cbn [fst ret map] in *. rewrite Hi, IH. reflexivity.
Qed.

(** A generation has at most eight candidates, and their ids are
    [gen<g>-cand0], [gen<g>-cand1], ... in this order. *)
Lemma created_candidates_ids (R : RandomGen) (clock : nat -> string)
    (gen_num : Z) (parent_candidates : list string) (w : World R) :
  RandomLaws R ->
  exists n : nat,
    (n <= 8)%nat /\
    map Candidate.id (fst (created_candidates R clock gen_num parent_candidates w)) =
    map (cand_id gen_num) (seq 0 n).
Proof.
  intros HR. unfold created_candidates.
  assert (Hn : (fst ((if (gen_num =? 0)%Z then ret 8%Z else randint R 6 8) w) <= 8)%Z).
  { destruct (gen_num =? 0)%Z; [cbn; lia |].
    unfold randint.
    pose proof (rng_randint_range R HR 6 8 (w_rng w) ltac:(lia)) as Hr.
    destruct (rng_randint R 6 8 (w_rng w)) as [x s]. cbn [fst] in *. lia. }
  destruct ((if (gen_num =? 0)%Z then ret 8%Z else randint R 6 8) w) as [num w1].
  cbn [fst] in Hn.
  exists (Z.to_nat num). split; [lia |].
  apply mapM_candidate_ids.
Qed.

(** *** Rank order *)

Lemma ranks_before_score (a b : Candidate.t) :
  ranks_before a b ->
  (Candidate.effective_score b <= Candidate.effective_score a)%Q.
Proof. intros [H | [H _]]; lra. Qed.

Lemma insert_desc_ranked (x : Candidate.t) (l : list Candidate.t) :
  StronglySorted ranks_before l ->
  Forall (id_before x) l ->
  StronglySorted ranks_before (insert_desc Candidate.effective_score x l).
Proof.
  induction 1 as [| y rest Hs IH Hall]; intros Hx; cbn [insert_desc].
  - repeat constructor.
  - inversion Hx as [| ? ? Hxy Hxrest]; subst.
    destruct (Qltb (Candidate.effective_score x) (Candidate.effective_score y))
      eqn:Hlt.
    + apply Qltb_true_iff in Hlt.
      constructor; [apply IH; exact Hxrest |].
      apply (Permutation_Forall
               (Permutation_sym (insert_desc_perm Candidate.effective_score x rest))).
      constructor; [left; exact Hlt | exact Hall].
    + apply Qltb_false_iff in Hlt.
      constructor; [constructor; assumption |].
      assert (Hle : forall z, In z (y :: rest) ->
                (Candidate.effective_score z <= Candidate.effective_score x)%Q).
      { intros z [<- | Hz]; [exact Hlt |].
        rewrite Forall_forall in Hall.
        pose proof (ranks_before_score _ _ (Hall z Hz)). lra. }
      apply Forall_forall. intros z Hz.
      rewrite Forall_forall in Hx.
      destruct (Qlt_le_dec (Candidate.effective_score z)
                           (Candidate.effective_score x)) as [Hzx | Hxz].
      * left. exact Hzx.
      * right. split; [| apply Hx; exact Hz].
        apply Qle_antisym; [exact Hxz | apply Hle; exact Hz].
Qed.

(** The stable descending sort on a list whose ids ascend ranks by
    descending score with ties in ascending id order. *)
Lemma sort_desc_ranked (l : list Candidate.t) :
  StronglySorted id_before l ->
  StronglySorted ranks_before (sort_desc Candidate.effective_score l).
Proof.
  induction 1 as [| x rest Hs IH Hall]; cbn [sort_desc]; [constructor |].
  apply insert_desc_ranked; [exact IH |].
  apply (Permutation_Forall
           (Permutation_sym (sort_desc_perm Candidate.effective_score rest))).
  exact Hall.
Qed.

Lemma top3_ids_core (l l' : list Candidate.t) :
  map core l = map core l' -> top3_ids l = top3_ids l'.
Proof.
  assert (H : forall l0,
            top3_ids l0 =
            map (fun t : string * Q * bool => fst (fst t))
              (firstn 3
                 (sort_desc (fun t : string * Q * bool => snd (fst t))
                    (filter (fun t : string * Q * bool => snd t) (map core l0))))).
  { intros l0. unfold top3_ids.
    rewrite <- (filter_map_comm core (fun t : string * Q * bool => snd t)).
    rewrite <- (sort_desc_map core (fun t : string * Q * bool => snd (fst t))).
    rewrite firstn_map, map_map. reflexivity. }
  intros Hcore. rewrite !H, Hcore. reflexivity.
Qed.

Lemma frame_eq_core (c c' : Candidate.t) : frame_eq c c' -> core c' = core c.
Proof.
  intros H. unfold core.
  rewrite (frame_eq_id _ _ H), (frame_eq_effective_score _ _ H),
    (frame_eq_gates_passed _ _ H).
  reflexivity.
Qed.

(** The references picked by the pass, read as ids. *)
Lemma ranked_refs_top3 (created : list Candidate.t) :
  map (attr Candidate.id EmptyString created) (firstn 3 (ranked_refs created)) =
  top3_ids created.
Proof.
  change (attr Candidate.id EmptyString created)
    with (fun r => opt_id (nth_error created r)).
  rewrite <- (map_map (nth_error created) opt_id), <- firstn_map.
  unfold ranked_refs. rewrite sorted_refs_deref.
  rewrite firstn_map, map_map. reflexivity.
Qed.

(** C5.  The survivors of a generation are obtained by keeping the
    candidates that pass the gates, ranking them by descending effective
    score with ties in ascending id order, and taking the ids of the first
    three when at least two candidates pass; with fewer than two passing
    candidates the survivor list is empty.  (The generator is any one that
    keeps [randint(6, 8)] within its bounds.) *)
Theorem survivors_are_top_ranked (R : RandomGen) (clock : nat -> string)
    (gen_num : Z) (parent_candidates : list string) (w : World R) :
  RandomLaws R ->
  let g := fst (generate_generation R clock gen_num parent_candidates w) in
  let passing := filter Candidate.gates_passed (Generation.candidates g) in
  exists ranked : list Candidate.t,
    Permutation ranked passing /\
    StronglySorted ranks_before ranked /\
    Generation.survivors g =
      (if (2 <=? List.length passing)%nat
       then map Candidate.id (firstn 3 ranked)
       else []).
Proof.
  intros HR g passing.
  exists (sort_desc Candidate.effective_score passing).
  pose proof (generation_candidates_frame R clock gen_num parent_candidates w)
    as Hframe.
  fold g in Hframe.
  set (created := fst (created_candidates R clock gen_num parent_candidates w))
    in Hframe.
  split; [apply sort_desc_perm |].
  split.
  - apply sort_desc_ranked. unfold passing.
    apply StronglySorted_filter.
    apply (StronglySorted_map (fun a b => String.ltb a b = true) Candidate.id).
    rewrite (Forall2_map_eq frame_eq Candidate.id _ _ frame_eq_id Hframe).
    destruct (created_candidates_ids R clock gen_num parent_candidates w HR)
      as (n & Hn & Hids).
    fold created in Hids. rewrite Hids.
    apply StronglySorted_map_seq.
    intros i j _ Hij Hj. apply cand_id_ascend; lia.
  - unfold g at 1. rewrite generation_survivors_refs. fold created.
    rewrite ranked_refs_length.
    rewrite <- (Forall2_filter_length frame_eq Candidate.gates_passed _ _
                  frame_eq_gates_passed Hframe).
    fold passing.
    destruct (2 <=? List.length passing)%nat; [| reflexivity].
    rewrite ranked_refs_top3.
    apply top3_ids_core. symmetry.
    exact (Forall2_map_eq frame_eq core _ _ frame_eq_core Hframe).
Qed.

(** Generation 2 of the demo run: four candidates pass, candidate 0 has the
    highest score and candidates 1, 4 and 7 tie behind it; the survivors are
    candidates 0, 1 and 4. *)
Lemma survivors_are_top_ranked_witness :
  RandomLaws demo_gen /\
  exists (w : World demo_gen) (parents : list string),
    let g := fst (generate_generation demo_gen tick_clock 2 parents w) in
    map Candidate.id (filter Candidate.gates_passed (Generation.candidates g)) =
      ["gen2-cand0"; "gen2-cand1"; "gen2-cand4"; "gen2-cand7"] /\
    Generation.survivors g = ["gen2-cand0"; "gen2-cand1"; "gen2-cand4"] /\
    exists ranked : list Candidate.t,
      StronglySorted ranks_before ranked /\
      Generation.survivors g = map Candidate.id (firstn 3 ranked).
Proof.
  split; [exact (tape_gen_laws demo_tape) |].
  set (w1 := snd (generate_generation demo_gen tick_clock 0 [] demo_world)).
  set (g1 := generate_generation demo_gen tick_clock 1 [] w1).
  exists (snd g1), (Generation.survivors (fst g1)).
  cbv zeta.
  set (g := fst (generate_generation demo_gen tick_clock 2
                   (Generation.survivors (fst g1)) (snd g1))).
  assert (Hids : map Candidate.id
                   (filter Candidate.gates_passed (Generation.candidates g)) =
                 ["gen2-cand0"; "gen2-cand1"; "gen2-cand4"; "gen2-cand7"])
    by (vm_compute; reflexivity).
  assert (Hsurv : Generation.survivors g =
                  ["gen2-cand0"; "gen2-cand1"; "gen2-cand4"])
    by (vm_compute; reflexivity).
  destruct (survivors_are_top_ranked demo_gen tick_clock 2
              (Generation.survivors (fst g1)) (snd g1) (tape_gen_laws demo_tape))
    as (ranked & _ & Hsorted & Hs).
  fold g in Hs.
  assert (Hlen : List.length
                   (filter Candidate.gates_passed (Generation.candidates g)) = 4%nat).
  { rewrite <- (length_map Candidate.id), Hids. reflexivity. }
  rewrite Hlen in Hs. cbn [Nat.leb] in Hs.
  split; [exact Hids |]. split; [exact Hsurv |].
  exists ranked. split; [exact Hsorted | exact Hs].
Defined.

(** ** DNA bundles *)

Lemma generate_prompt_dna_frame (R : RandomGen) (generation : Z)
    (candidate_id : string) (parent_ids : list string) (w w' : World R) :
  prompt_frame (fst (generate_prompt_dna R generation candidate_id parent_ids w)) =
  prompt_frame (fst (generate_prompt_dna R generation candidate_id parent_ids w')).
Proof.
  unfold generate_prompt_dna, bind.
  destruct (0 <? generation)%Z.
  - unfold ret.
    repeat (destruct (random R _) as [? ?]; cbn beta iota).
    reflexivity.
  - reflexivity.
Qed.

(** A candidate of generation 0 has no draw in its prompt DNA. *)
Lemma generate_prompt_dna_initial (R : RandomGen) (generation : Z)
    (candidate_id : string) (parent_ids : list string) (w w' : World R) :
  (generation <= 0)%Z ->
  fst (generate_prompt_dna R generation candidate_id parent_ids w) =
  fst (generate_prompt_dna R generation candidate_id parent_ids w').
Proof.
  intros Hg. unfold generate_prompt_dna, bind.
  destruct (Z.ltb_spec 0 generation) as [Hlt | _]; [lia | reflexivity].
Qed.

Lemma random_reads (R : RandomGen) (w : World R) :
  w_reads (snd (random R w)) = w_reads w.
Proof. unfold random. destruct (rng_random R (w_rng w)). reflexivity. Qed.

Lemma randint_reads (R : RandomGen) (a b : Z) (w : World R) :
  w_reads (snd (randint R a b w)) = w_reads w.
Proof. unfold randint. destruct (rng_randint R a b (w_rng w)). reflexivity. Qed.

(** Building a prompt DNA reads no clock. *)
Lemma generate_prompt_dna_reads (R : RandomGen) (generation : Z)
    (candidate_id : string) (parent_ids : list string) (w : World R) :
  w_reads (snd (generate_prompt_dna R generation candidate_id parent_ids w)) =
  w_reads w.
Proof.
  unfold generate_prompt_dna, bind.
  destruct (0 <? generation)%Z; [| reflexivity].
  unfold ret.
  pose proof (random_reads R w) as H1.
  destruct (random R w) as [r1 w1]; cbn beta iota.
  pose proof (random_reads R w1) as H2.
  destruct (random R w1) as [r2 w2]; cbn beta iota.
  pose proof (random_reads R w2) as H3.
  destruct (random R w2) as [r3 w3]; cbn beta iota.
  cbn [snd] in *. congruence.
Qed.

Lemma generate_dna_bundle_fields (R : RandomGen) (clock : nat -> string)
    (candidate : Candidate.t) (w : World R) :
  let b := fst (generate_dna_bundle R clock candidate w) in
  DNABundle.id b = String.append "bundle-" (Candidate.id candidate) /\
  DNABundle.candidate_id b = Candidate.id candidate /\
  DNABundle.provenance_hash b = String.append "hash-" (Candidate.id candidate) /\
  DNABundle.parent_hashes b =
    map (fun pid => String.append "hash-" pid) (Candidate.parent_ids candidate) /\
  DNABundle.prompt_layer b =
    fst (generate_prompt_dna R (Candidate.generation candidate)
           (Candidate.id candidate) (Candidate.parent_ids candidate) w) /\
  DNABundle.timestamp b = clock (w_reads w) /\
  forall w' : World R,
    DNABundle.code_layer b =
      DNABundle.code_layer (fst (generate_dna_bundle R clock candidate w')) /\
    DNABundle.evaluator_layer b =
      DNABundle.evaluator_layer (fst (generate_dna_bundle R clock candidate w')).
Proof.
  unfold generate_dna_bundle, bind, now_isoformat.
  pose proof (generate_prompt_dna_reads R (Candidate.generation candidate)
                (Candidate.id candidate) (Candidate.parent_ids candidate) w) as Hr.
  destruct (generate_prompt_dna R _ _ _ w) as [p w1].
  cbn [fst snd] in *. rewrite Hr.
  repeat (split; [reflexivity |]).
  intros w'. destruct (generate_prompt_dna R _ _ _ w') as [p' w1'].
  split; reflexivity.
Qed.

(** C8, as the code has it.  Two builds of the DNA bundle of the same
    candidate agree on [id], [candidate_id], [code_layer],
    [evaluator_layer], [provenance_hash] and [parent_hashes], and on the
    fields of the prompt layer that are computed from the candidate; for a
    candidate of generation 0 they agree on the whole prompt layer.  The
    [timestamp] of each is the clock reading of its own build, so the two
    bundles of a generation-0 candidate are identical exactly when those
    readings are equal. *)
Theorem dna_bundle_rebuild (R : RandomGen) (clock : nat -> string)
    (candidate : Candidate.t) (w w' : World R) :
  let b1 := fst (generate_dna_bundle R clock candidate w) in
  let b2 := fst (generate_dna_bundle R clock candidate w') in
  DNABundle.id b1 = DNABundle.id b2 /\
  DNABundle.candidate_id b1 = DNABundle.candidate_id b2 /\
  DNABundle.code_layer b1 = DNABundle.code_layer b2 /\
  DNABundle.evaluator_layer b1 = DNABundle.evaluator_layer b2 /\
  DNABundle.provenance_hash b1 = DNABundle.provenance_hash b2 /\
  DNABundle.parent_hashes b1 = DNABundle.parent_hashes b2 /\
  prompt_frame (DNABundle.prompt_layer b1) =
    prompt_frame (DNABundle.prompt_layer b2) /\
  DNABundle.timestamp b1 = clock (w_reads w) /\
  DNABundle.timestamp b2 = clock (w_reads w') /\
  ((Candidate.generation candidate <= 0)%Z ->
     DNABundle.prompt_layer b1 = DNABundle.prompt_layer b2 /\
     (b1 = b2 <-> clock (w_reads w) = clock (w_reads w'))).
Proof.
  intros b1 b2.
  destruct (generate_dna_bundle_fields R clock candidate w)
    as (Hi1 & Hc1 & Hh1 & Hp1 & Hl1 & Ht1 & Hrest).
  destruct (generate_dna_bundle_fields R clock candidate w')
    as (Hi2 & Hc2 & Hh2 & Hp2 & Hl2 & Ht2 & _).
  destruct (Hrest w') as [Hcode Heval].
  fold b1 in Hi1, Hc1, Hh1, Hp1, Hl1, Ht1, Hcode, Heval.
  fold b2 in Hi2, Hc2, Hh2, Hp2, Hl2, Ht2, Hcode, Heval.
  split; [congruence |]. split; [congruence |].
  split; [exact Hcode |]. split; [exact Heval |].
  split; [congruence |]. split; [congruence |].
  split; [rewrite Hl1, Hl2; apply generate_prompt_dna_frame |].
  split; [exact Ht1 |]. split; [exact Ht2 |].
  intros Hgen.
  assert (Hl : DNABundle.prompt_layer b1 = DNABundle.prompt_layer b2).
  { rewrite Hl1, Hl2. apply generate_prompt_dna_initial. exact Hgen. }
  split; [exact Hl |].
  split.
  - intros Heq. rewrite <- Ht1, <- Ht2, Heq. reflexivity.
  - intros Hclock.
    destruct b1 as [i1 c1 cl1 pl1 el1 ph1 pa1 t1].
    destruct b2 as [i2 c2 cl2 pl2 el2 ph2 pa2 t2].
    cbn in *. congruence.
Qed.

Lemma dna_bundle_rebuild_witness :
  exists (c : Candidate.t) (w w' : World demo_gen),
    (Candidate.generation c <= 0)%Z /\
    w_reads w <> w_reads w' /\
    fst (generate_dna_bundle demo_gen frozen_clock c w) =
    fst (generate_dna_bundle demo_gen frozen_clock c w').
Proof.
  set (c := fst (generate_candidate demo_gen frozen_clock 0 0 [] true false false
                   demo_world)).
  exists c, (mkWorld (R := demo_gen) 7%nat 0%nat), (mkWorld (R := demo_gen) 9%nat 1%nat).
  assert (Hgen : (Candidate.generation c <= 0)%Z).
  { unfold c.
    destruct (generate_candidate_fields demo_gen frozen_clock 0 0 [] true false false
                demo_world) as (_ & _ & _ & _ & _ & _ & Hg & _).
    rewrite Hg. lia. }
  split; [exact Hgen |].
  split; [cbn; discriminate |].
  destruct (dna_bundle_rebuild demo_gen frozen_clock c
              (mkWorld (R := demo_gen) 7%nat 0%nat)
              (mkWorld (R := demo_gen) 9%nat 1%nat))
    as (_ & _ & _ & _ & _ & _ & _ & _ & _ & Hinit).
  destruct (Hinit Hgen) as [_ Hiff].
  apply Hiff. reflexivity.
Defined.

(** The process of the demo: [SAMPLE_RUN] is created at import, then the
    bundle of candidate gen0-cand0 is requested twice.  Both requests
    succeed; the first bundle is stamped with the 61st clock reading and
    the second with the 62nd, so the two outputs differ. *)
Lemma dna_bundle_rebuild_differs :
  let start := create_sample_run demo_gen tick_clock demo_world in
  let SAMPLE_RUN := fst start in
  let first := get_dna_bundle demo_gen tick_clock SAMPLE_RUN "gen0-cand0" (snd start) in
  let second := get_dna_bundle demo_gen tick_clock SAMPLE_RUN "gen0-cand0" (snd first) in
  exists b1 b2 : DNABundle.t,
    fst first = Ok b1 /\
    fst second = Ok b2 /\
    DNABundle.candidate_id b1 = "gen0-cand0" /\
    DNABundle.candidate_id b2 = "gen0-cand0" /\
    DNABundle.timestamp b1 = "T+60" /\
    DNABundle.timestamp b2 = "T+61" /\
    b1 <> b2.
Proof.
  cbv zeta.
  set (start := create_sample_run demo_gen tick_clock demo_world).
  set (first := get_dna_bundle demo_gen tick_clock (fst start) "gen0-cand0" (snd start)).
  set (second := get_dna_bundle demo_gen tick_clock (fst start) "gen0-cand0" (snd first)).
  assert (H : match fst first, fst second with
              | Ok b1, Ok b2 =>
                  Some (DNABundle.candidate_id b1, DNABundle.candidate_id b2,
                        DNABundle.timestamp b1, DNABundle.timestamp b2)
              | _, _ => None
              end = Some ("gen0-cand0", "gen0-cand0", "T+60", "T+61")).
  { vm_compute. reflexivity. }
  clearbody second. clearbody first. clearbody start.
  destruct (fst first) as [b1 | ?]; [| discriminate H].
  destruct (fst second) as [b2 | ?]; [| discriminate H].
  injection H as H1 H2 H3 H4.
  exists b1, b2. repeat (split; [solve [reflexivity | assumption] |]).
  intros Heq. rewrite Heq, H4 in H3. discriminate H3.
Qed.

(** ** Repeatability of the sample run *)

(** The part of the claim that the seeding does give: the run does not
    depend on the state of the generator at the time of the call. *)
Lemma create_sample_run_reseeds (R : RandomGen) (clock : nat -> string)
    (w w' : World R) :
  w_reads w = w_reads w' ->
  create_sample_run R clock w = create_sample_run R clock w'.
Proof.
  intros H. unfold create_sample_run, bind, seed. rewrite H. reflexivity.
Qed.

Lemma generate_metrics_reads (R : RandomGen) (generation : Z) (is_good : bool)
    (w : World R) :
  w_reads (snd (generate_metrics R generation is_good w)) = w_reads w.
Proof.
  unfold generate_metrics, bind, ret.
  destruct is_good;
    repeat (let H := fresh "Hr" in
            pose proof (random_reads R) as H;
            match goal with
            | |- context [random R ?w0] =>
                specialize (H w0); destruct (random R w0) as [? ?]
            end; cbn [snd] in H; cbn beta iota);
    match goal with
    | |- context [randint R ?a ?b ?w0] =>
        pose proof (randint_reads R a b w0) as Hi;
        destruct (randint R a b w0) as [? ?]
    end; cbn [snd] in *; congruence.
Qed.

(** A candidate that is not good has at least two vulnerabilities. *)
Lemma generate_metrics_bad_vulnerable (R : RandomGen) (generation : Z) (w : World R) :
  RandomLaws R ->
  (2 <= Metrics.vulnerability_count (fst (generate_metrics R generation false w)))%Z.
Proof.
  intros HR. unfold generate_metrics, bind, ret.
  repeat (destruct (random R _) as [? ?]; cbn beta iota).
  match goal with
  | |- context [randint R 2 8 ?w0] =>
      unfold randint;
      pose proof (rng_randint_range R HR 2 8 (w_rng w0) ltac:(lia)) as Hr;
      destruct (rng_randint R 2 8 (w_rng w0)) as [v s]
  end.
  cbn [fst Metrics.vulnerability_count] in *. lia.
Qed.

Lemma vulnerable_fails_gates (m : Metrics.t) :
  (Metrics.vulnerability_count m <> 0)%Z -> fst (generate_gate_results m) = false.
Proof.
  intros Hv. unfold generate_gate_results, gates_of.
  cbn [fst forallb GateResult.passed].
  apply Z.eqb_neq in Hv. rewrite Hv.
  rewrite andb_false_l, !andb_false_r. reflexivity.
Qed.

(** The first comment on a candidate that fails the gates carries the clock
    reading made when the comments are generated. *)
Lemma generate_reviewer_comments_failed (R : RandomGen) (clock : nat -> string)
    (m : Metrics.t) (w : World R) :
  exists rest : list string,
    map ReviewerComment.timestamp
      (fst (generate_reviewer_comments R clock m false w)) =
    clock (w_reads w) :: rest.
Proof.
  unfold generate_reviewer_comments, bind, ret, now_isoformat. cbn [negb].
  destruct (Qltb (Metrics.performance_score m) 80);
    destruct (Qgtb (Metrics.ux_score m) 85);
    cbn; eexists; reflexivity.
Qed.

Lemma first_candidate_not_good (R : RandomGen) (clock : nat -> string)
    (parent_candidates : list string) (w : World R) :
  RandomLaws R ->
  (0.3 <= fst (rng_random R (w_rng w)))%Q ->
  exists rest : list string,
    map ReviewerComment.timestamp
      (Candidate.reviewer_comments
         (fst (generate_nth_candidate R clock 0 parent_candidates 0 w))) =
    clock (w_reads w) :: rest.
Proof.
  intros HR Hdraw. unfold generate_nth_candidate, bind, random.
  destruct (rng_random R (w_rng w)) as [r s]. cbn [fst] in Hdraw.
  cbn [Z.eqb ret].
  assert (Hgood : Qltb r (0.3 + inject_Z 0 * 0.15) = false).
  { apply Qltb_false_iff. change (inject_Z 0) with 0%Q. lra. }
  rewrite Hgood.
  set (w1 := mkWorld s (w_reads w)).
  destruct (generate_candidate_fields R clock 0 (Z.of_nat 0) [] false false false w1)
    as (Hm & Hgp & _ & _ & _ & _ & _ & _ & _ & _ & Hrc).
  rewrite Hrc.
  assert (Hfail : Candidate.gates_passed
                    (fst (generate_candidate R clock 0 (Z.of_nat 0) [] false false
                            false w1)) = false).
  { rewrite Hgp, Hm. apply vulnerable_fails_gates.
    pose proof (generate_metrics_bad_vulnerable R 0 w1 HR). lia. }
  rewrite Hfail.
  destruct (generate_reviewer_comments_failed R clock
              (Candidate.metrics
                 (fst (generate_candidate R clock 0 (Z.of_nat 0) [] false false
                         false w1)))
              (snd (generate_metrics R 0 false w1))) as [rest Hrest].
  exists rest. rewrite Hrest, generate_metrics_reads. reflexivity.
Qed.

Lemma created_candidates_first (R : RandomGen) (clock : nat -> string)
    (parent_candidates : list string) (w : World R) :
  exists rest : list Candidate.t,
    fst (created_candidates R clock 0 parent_candidates w) =
    fst (generate_nth_candidate R clock 0 parent_candidates 0 w) :: rest.
Proof.
  unfold created_candidates. cbn [Z.eqb ret].
  change (seq 0 (Z.to_nat 8)) with (0%nat :: seq 1 7).
  cbn [mapM]. unfold bind.
  destruct (generate_nth_candidate R clock 0 parent_candidates 0 w) as [c0 w1].
  destruct (mapM _ (seq 1 7) w1) as [cs w2].
  exists cs. reflexivity.
Qed.

Lemma run_generations_first (R : RandomGen) (clock : nat -> string)
    (i : Z) (rest : list Z) (parent_ids : list string) (w : World R) :
  exists gens : list Generation.t,
    fst (run_generations R clock (i :: rest) parent_ids w) =
    fst (generate_generation R clock i parent_ids w) :: gens.
Proof.
  cbn [run_generations]. unfold bind.
  destruct (generate_generation R clock i parent_ids w) as [g w1].
  destruct (run_generations R clock rest (Generation.survivors g) w1) as [gs w2].
  exists gs. reflexivity.
Qed.

(** When the first draw after seeding is at least 0.3, the first candidate
    of generation 0 is not good, fails the gates, and its first reviewer
    comment is stamped with the first clock reading of the call. *)
Lemma first_comment_timestamp_run (R : RandomGen) (clock : nat -> string)
    (w : World R) :
  RandomLaws R ->
  (0.3 <= fst (rng_random R (rng_seed R 42)))%Q ->
  first_comment_timestamp (fst (create_sample_run R clock w)) =
  Some (clock (w_reads w)).
Proof.
  intros HR Hdraw. unfold first_comment_timestamp.
  destruct (create_sample_run_generations R clock w) as [Hg _]. rewrite Hg.
  set (w0 := mkWorld (rng_seed R 42) (w_reads w)).
  destruct (run_generations_first R clock 0 [1; 2; 3; 4]%Z [] w0) as [gens Hgens].
  rewrite Hgens.
  pose proof (generation_candidates_frame R clock 0 [] w0) as Hframe.
  destruct (created_candidates_first R clock [] w0) as [rest Hfirst].
  rewrite Hfirst in Hframe.
  inversion Hframe as [| c0 c0' l l' Hc0 Hl Heq1 Heq2]; subst.
  destruct (first_candidate_not_good R clock [] w0 HR Hdraw) as [ts Hts].
  assert (Hrc : Candidate.reviewer_comments c0' =
                Candidate.reviewer_comments
                  (fst (generate_nth_candidate R clock 0 [] 0 w0))).
  { apply Hc0. }
  rewrite Hrc.
  destruct (Candidate.reviewer_comments
              (fst (generate_nth_candidate R clock 0 [] 0 w0))) as [| rc rcs];
    [discriminate Hts |].
  cbn [map] in Hts. injection Hts as Hts _. rewrite Hts. reflexivity.
Qed.

(** C10.  Two calls of [create_sample_run] re-seed the generator, yet the
    runs they return differ as soon as the clock has moved between them:
    for every generator that meets the contract of [random] and whose first
    draw after [seed(42)] is at least 0.3 (CPython's is 0.6394...), the
    first candidate of generation 0 fails the gates and its reviewer
    comment carries [datetime.now()]. *)
Theorem create_sample_run_not_repeatable (R : RandomGen) (clock : nat -> string)
    (w w' : World R) :
  RandomLaws R ->
  (0.3 <= fst (rng_random R (rng_seed R 42)))%Q ->
  clock (w_reads w) <> clock (w_reads w') ->
  fst (create_sample_run R clock w) <> fst (create_sample_run R clock w').
Proof.
  intros HR Hdraw Hclock Heq.
  pose proof (first_comment_timestamp_run R clock w HR Hdraw) as H1.
  pose proof (first_comment_timestamp_run R clock w' HR Hdraw) as H2.
  rewrite Heq, H2 in H1. injection H1 as H1. apply Hclock. symmetry. exact H1.
Qed.

(** Two calls in one process, the second starting where the first ended. *)
Lemma create_sample_run_not_repeatable_witness :
  let w := mkWorld (R := seed42_gen) O O in
  let first := create_sample_run seed42_gen tick_clock w in
  let second := create_sample_run seed42_gen tick_clock (snd first) in
  RandomLaws seed42_gen /\
  (0.3 <= fst (rng_random seed42_gen (rng_seed seed42_gen 42)))%Q /\
  tick_clock (w_reads w) <> tick_clock (w_reads (snd first)) /\
  fst first <> fst second.
Proof.
  cbv zeta.
  set (w := mkWorld (R := seed42_gen) O O).
  set (first := create_sample_run seed42_gen tick_clock w).
  assert (Hdraw : (0.3 <= fst (rng_random seed42_gen (rng_seed seed42_gen 42)))%Q).
  { vm_compute. discriminate. }
  assert (Hclock : tick_clock (w_reads w) <> tick_clock (w_reads (snd first))).
  { vm_compute. discriminate. }
  split; [apply tape_gen_laws |].
  split; [exact Hdraw |]. split; [exact Hclock |].
  exact (create_sample_run_not_repeatable seed42_gen tick_clock w (snd first)
           (tape_gen_laws _) Hdraw Hclock).
Defined.

(** ** Further properties of the pipeline *)

Lemma random_range (R : RandomGen) (w : World R) :
  RandomLaws R ->
  (0 <= fst (random R w) /\ fst (random R w) < 1)%Q.
Proof.
  intros HR. unfold random. pose proof (rng_random_range R HR (w_rng w)) as H.
  destruct (rng_random R (w_rng w)) as [x s]. exact H.
Qed.

Lemma randint_range (R : RandomGen) (a b : Z) (w : World R) :
  RandomLaws R ->
  (a <= b)%Z -> (a <= fst (randint R a b w) <= b)%Z.
Proof.
  intros HR Hab. unfold randint.
  pose proof (rng_randint_range R HR a b (w_rng w) Hab) as H.
  destruct (rng_randint R a b (w_rng w)) as [x s]. exact H.
Qed.

(** Take the next draw of the goal, keeping its range. *)
Ltac next_draw R HR :=
  match goal with
  | |- context [random R ?w0] =>
      let H := fresh "Hdraw" in
      pose proof (random_range R w0 HR) as H;
      destruct (random R w0) as [? ?]; cbn [fst] in H; cbn beta iota
  end.

(** X2.  Every metrics value that [generate_metrics] builds is within the bounds
    the [Metrics] model declares, so its validation never rejects one. *)
Lemma generate_metrics_valid (R : RandomGen) (generation : Z) (is_good : bool)
    (w : World R) :
  RandomLaws R ->
  let m := fst (generate_metrics R generation is_good w) in
  (0 <= Metrics.test_pass_rate m /\ Metrics.test_pass_rate m <= 1)%Q /\
  (0 <= Metrics.coverage m /\ Metrics.coverage m <= 1)%Q /\
  (0 <= Metrics.performance_score m /\ Metrics.performance_score m <= 100)%Q /\
  (0 <= Metrics.security_score m /\ Metrics.security_score m <= 100)%Q /\
  (0 <= Metrics.ux_score m /\ Metrics.ux_score m <= 100)%Q /\
  (0 <= Metrics.style_score m /\ Metrics.style_score m <= 100)%Q /\
  (0 <= Metrics.vulnerability_count m)%Z.
Proof.
  intros HR. unfold generate_metrics, bind, ret.
  destruct is_good; repeat next_draw R HR;
    match goal with
    | |- context [randint R ?a ?b ?w0] =>
        pose proof (randint_range R a b w0 HR ltac:(lia)) as Hint;
        destruct (randint R a b w0) as [v ?]
    end;
    cbn [fst Metrics.test_pass_rate Metrics.coverage Metrics.performance_score
         Metrics.security_score Metrics.ux_score Metrics.style_score
         Metrics.vulnerability_count] in *;
    repeat split; try lra; lia.
Qed.

Lemma generate_metrics_valid_witness :
  RandomLaws demo_gen /\
  (0 <= Metrics.vulnerability_count
          (fst (generate_metrics demo_gen 0 true demo_world)))%Z.
Proof.
  split; [exact (tape_gen_laws demo_tape) |].
  destruct (generate_metrics_valid demo_gen 0 true demo_world
              (tape_gen_laws demo_tape)) as (_ & _ & _ & _ & _ & _ & Hv).
  exact Hv.
Defined.

(** X3.  The breeding pairs of a generation pair the top-ranked survivor with
    each of the other survivors, in rank order. *)
Lemma breeding_pairs_top_with_rest (R : RandomGen) (clock : nat -> string)
    (gen_num : Z) (parent_candidates : list string) (w : World R) :
  let g := fst (generate_generation R clock gen_num parent_candidates w) in
  (List.length (Generation.survivors g) <= 3)%nat /\
  List.length (Generation.survivors g) <> 1%nat /\
  Generation.breeding_pairs g =
    match Generation.survivors g with
    | top :: others => map (fun s => (top, s)) others
    | [] => []
    end.
Proof.
  intros g.
  destruct (generate_generation_shape R clock gen_num parent_candidates w)
    as (_ & _ & _ & _ & _ & Hb).
  fold g in Hb.
  pose proof (generation_survivors_refs R clock gen_num parent_candidates w) as Hs.
  cbv zeta in Hs. fold g in Hs.
  set (refs := ranked_refs
                 (fst (created_candidates R clock gen_num parent_candidates w))) in Hs.
  assert (Hlen : (List.length (Generation.survivors g) <= 3)%nat /\
                 List.length (Generation.survivors g) <> 1%nat).
  { rewrite Hs, length_map.
    destruct (Nat.leb_spec 2 (List.length refs)) as [Hge | Hlt].
    - rewrite length_firstn. lia.
    - cbn. lia. }
  destruct Hlen as [Hle Hne].
  split; [exact Hle |]. split; [exact Hne |].
  rewrite Hb.
  destruct (Generation.survivors g) as [| s0 [| s1 [| s2 [| s3 rest]]]];
    cbn in *; try reflexivity; lia.
Qed.

(** *** Invariants of the candidates of a generation *)

Lemma mapM_Forall {S A B : Type} (P : B -> Prop) (f : A -> State S B)
    (l : list A) (s : S) :
  (forall x s', P (fst (f x s'))) -> Forall P (fst (mapM f l s)).
Proof.
  intros Hf. revert s.
  induction l as [| x rest IH]; intros s; cbn [mapM]; [constructor |].
  unfold bind. pose proof (Hf x s) as Hx.
  destruct (f x s) as [b s1]. specialize (IH s1).
  destruct (mapM f rest s1) as [bs s2]. cbn [fst ret] in *.
  constructor; assumption.
Qed.

Lemma generate_nth_candidate_created (R : RandomGen) (clock : nat -> string)
    (gen_num : Z) (parent_candidates : list string) (i : nat) (w : World R) :
  let c := fst (generate_nth_candidate R clock gen_num parent_candidates i w) in
  Candidate.generation c = gen_num /\
  Candidate.is_pareto_front c = false /\
  Candidate.selected_for_breeding c = false.
Proof.
  unfold generate_nth_candidate, bind.
  destruct (random R w) as [r w1].
  destruct ((if (gen_num =? 0)%Z then ret []
             else sample R parent_candidates
                    (Nat.min 2 (List.length parent_candidates))) w1)
    as [parents w2].
  destruct (generate_candidate_fields R clock gen_num (Z.of_nat i) parents
              (Qltb r (0.3 + inject_Z gen_num * 0.15)) false false w2)
    as (_ & _ & _ & _ & _ & _ & Hg & _ & Hp & Hs & _).
  split; [exact Hg |]. split; [exact Hp | exact Hs].
Qed.

Lemma created_candidates_fresh (R : RandomGen) (clock : nat -> string)
    (gen_num : Z) (parent_candidates : list string) (w : World R) :
  Forall (fun c => Candidate.generation c = gen_num /\
                   Candidate.is_pareto_front c = false /\
                   Candidate.selected_for_breeding c = false)
    (fst (created_candidates R clock gen_num parent_candidates w)).
Proof.
  unfold created_candidates.
  destruct ((if (gen_num =? 0)%Z then ret 8%Z else randint R 6 8) w) as [n w1].
  apply mapM_Forall. intros i w'. apply generate_nth_candidate_created.
Qed.

Lemma Forall2_nth_error_r {A : Type} (P : A -> A -> Prop) (l l' : list A)
    (i : nat) (b : A) :
  Forall2 P l l' -> nth_error l' i = Some b ->
  exists a : A, nth_error l i = Some a /\ P a b.
Proof.
  intros H. revert i.
  induction H as [| x y l l' Hxy Hl IH]; intros i Hi.
  - destruct i; discriminate Hi.
  - destruct i as [| i]; cbn [nth_error] in *.
    + injection Hi as <-. exists x. split; [reflexivity | exact Hxy].
    + apply IH. exact Hi.
Qed.

Lemma firstn_subset {A : Type} (n : nat) (l : list A) (x : A) :
  In x (firstn n l) -> In x l.
Proof.
  revert l. induction n as [| n IH]; intros l H; [destruct H |].
  destruct l as [| y rest]; [destruct H |].
  cbn [firstn] in H. destruct H as [-> | H]; [left; reflexivity |].
  right. apply IH. exact H.
Qed.

(** X4.  In every generation each candidate carries the number of the
    generation, and a candidate that is flagged [selected_for_breeding] or
    [is_pareto_front] passes the gates and is selected for breeding. *)
Lemma selected_candidates_pass_gates (R : RandomGen) (clock : nat -> string)
    (gen_num : Z) (parent_candidates : list string) (w : World R) :
  let g := fst (generate_generation R clock gen_num parent_candidates w) in
  Forall (fun c =>
            Candidate.generation c = Generation.number g /\
            (Candidate.selected_for_breeding c = true \/
             Candidate.is_pareto_front c = true ->
             Candidate.gates_passed c = true /\
             Candidate.selected_for_breeding c = true))
    (Generation.candidates g).
Proof.
  intros g.
  destruct (generate_generation_shape R clock gen_num parent_candidates w)
    as (Hn & Hc & _).
  fold g in Hn, Hc.
  set (created := created_candidates R clock gen_num parent_candidates w) in Hc.
  pose proof (select_survivors_marked R (fst created) (snd created)) as Hm.
  rewrite <- Hc in Hm.
  pose proof (created_candidates_fresh R clock gen_num parent_candidates w) as Hfresh.
  fold created in Hfresh. rewrite Forall_forall in Hfresh.
  apply Forall_forall. intros c' Hin.
  apply In_nth_error in Hin. destruct Hin as [i Hi].
  destruct (Forall2_nth_error_r marked _ _ i c' Hm Hi) as (c & Hci & Hmark).
  destruct (Hfresh c (nth_error_In _ _ Hci)) as (Hgen & Hpar & Hsel).
  rewrite Hn. split.
  - destruct (marked_frame_eq c c' Hmark) as (_ & Hg' & _). congruence.
  - intros Hflag.
    destruct Hmark as [-> | [pareto ->]].
    + destruct Hflag; congruence.
    + split; [| reflexivity].
      change (Candidate.gates_passed (mark_survivor pareto c))
        with (Candidate.gates_passed c).
      destruct (in_dec Nat.eq_dec i
                  (snd (fst (select_survivors R (fst created) (snd created)))))
        as [Hsurv | Hnot].
      * rewrite select_survivors_refs in Hsurv.
        destruct (2 <=? List.length (ranked_refs (fst created)))%nat;
          [| destruct Hsurv].
        apply firstn_subset in Hsurv.
        unfold ranked_refs in Hsurv.
        apply (Permutation_in _ (sort_desc_perm _ _)) in Hsurv.
        unfold passing_refs in Hsurv. apply filter_In in Hsurv.
        destruct Hsurv as [_ Hpass]. unfold attr in Hpass.
        rewrite Hci in Hpass. exact Hpass.
      * pose proof (select_survivors_other R (fst created) (snd created) i Hnot)
          as Hsame.
        rewrite <- Hc, Hi, Hci in Hsame. injection Hsame as Hsame.
        assert (Hs' : Candidate.selected_for_breeding (mark_survivor pareto c) = true)
          by reflexivity.
        rewrite Hsame in Hs'. congruence.
Qed.

(** ** Determinism up to timestamps *)

Lemma sim_ret {R : RandomGen} {A B : Type} (e : A -> B) (a a' : A) :
  e a = e a' -> sim (R := R) e (ret a) (ret a').
Proof. intros H w w' Hw. split; [exact H | exact Hw]. Qed.

Lemma sim_bind {R : RandomGen} {A A' B B' : Type} (e1 : A -> A') (e2 : B -> B')
    (m1 m2 : M R A) (k1 k2 : A -> M R B) :
  sim e1 m1 m2 ->
  (forall a a' : A, e1 a = e1 a' -> sim e2 (k1 a) (k2 a')) ->
  sim e2 (bind m1 k1) (bind m2 k2).
Proof.
  intros Hm Hk w w' Hw. unfold bind.
  destruct (Hm w w' Hw) as [Ha Hs].
  destruct (m1 w) as [a w1]. destruct (m2 w') as [a' w1'].
  cbn [fst snd] in Ha, Hs. exact (Hk a a' Ha w1 w1' Hs).
Qed.

Lemma sim_random (R : RandomGen) : sim (fun x => x) (random R) (random R).
Proof.
  intros w w' Hw. unfold random. rewrite Hw.
  destruct (rng_random R (w_rng w')). split; reflexivity.
Qed.

Lemma sim_randint (R : RandomGen) (a b : Z) :
  sim (fun x => x) (randint R a b) (randint R a b).
Proof.
  intros w w' Hw. unfold randint. rewrite Hw.
  destruct (rng_randint R a b (w_rng w')). split; reflexivity.
Qed.

Lemma sim_sample (R : RandomGen) (population : list string) (k : nat) :
  sim (fun x => x) (sample R population k) (sample R population k).
Proof.
  intros w w' Hw. unfold sample. rewrite Hw.
  destruct (rng_sample R population k (w_rng w')). split; reflexivity.
Qed.

(** Two clock readings are equal once erased. *)
Lemma sim_now (R : RandomGen) (clock clock' : nat -> string) :
  sim (fun _ => tt) (now_isoformat R clock) (now_isoformat R clock').
Proof. intros w w' Hw. split; [reflexivity | exact Hw]. Qed.

Create HintDb sim discriminated.

#[local] Hint Resolve sim_random sim_randint sim_sample sim_now : sim.

(** One step through a pair of binds: relate the two first computations by
    a lemma of the database, or, when they are one compound computation
    that reads no clock, by equality of their results; then the
    continuations. *)
Ltac sim_step :=
  lazymatch goal with
  | |- sim _ (bind _ _) (bind _ _) =>
      first
        [ eapply sim_bind; [solve [eauto with sim] | cbv beta; intros ? ? ?; subst]
        | eapply (sim_bind (fun x => x)); [| cbv beta; intros ? ? ?; subst] ]
  | |- sim _ (ret _) (ret _) => apply sim_ret
  | |- sim _ (if ?b then _ else _) (if ?b then _ else _) => destruct b
  | |- sim _ _ _ => solve [eauto with sim]
  end.

Lemma sim_generate_metrics (R : RandomGen) (generation : Z) (is_good : bool) :
  sim (fun m => m) (generate_metrics R generation is_good)
    (generate_metrics R generation is_good).
Proof. unfold generate_metrics. repeat sim_step; reflexivity. Qed.

Lemma sim_generate_prompt_dna (R : RandomGen) (generation : Z)
    (candidate_id : string) (parent_ids : list string) :
  sim (fun p => p) (generate_prompt_dna R generation candidate_id parent_ids)
    (generate_prompt_dna R generation candidate_id parent_ids).
Proof. unfold generate_prompt_dna. repeat sim_step; reflexivity. Qed.

Lemma sim_generate_reviewer_comments (R : RandomGen) (clock clock' : nat -> string)
    (m : Metrics.t) (gates_passed : bool) :
  sim (map erase_comment)
    (generate_reviewer_comments R clock m gates_passed)
    (generate_reviewer_comments R clock' m gates_passed).
Proof.
  intros w w' Hw.
  unfold generate_reviewer_comments, bind, ret, now_isoformat.
  destruct (negb gates_passed);
    destruct (Qltb (Metrics.performance_score m) 80);
    destruct (Qgtb (Metrics.ux_score m) 85);
    cbn; split; (reflexivity || exact Hw).
Qed.

#[local] Hint Resolve sim_generate_metrics sim_generate_prompt_dna
  sim_generate_reviewer_comments : sim.

Lemma sim_generate_candidate (R : RandomGen) (clock clock' : nat -> string)
    (gen_num candidate_num : Z) (parent_ids : list string)
    (is_good is_pareto selected : bool) :
  sim erase_candidate
    (generate_candidate R clock gen_num candidate_num parent_ids
       is_good is_pareto selected)
    (generate_candidate R clock' gen_num candidate_num parent_ids
       is_good is_pareto selected).
Proof.
  unfold generate_candidate. sim_step. cbn [generate_gate_results].
  sim_step. sim_step. sim_step. sim_step.
  unfold erase_candidate; cbn. congruence.
Qed.

Lemma sim_generate_nth_candidate (R : RandomGen) (clock clock' : nat -> string)
    (gen_num : Z) (parent_candidates : list string) (i : nat) :
  sim erase_candidate
    (generate_nth_candidate R clock gen_num parent_candidates i)
    (generate_nth_candidate R clock' gen_num parent_candidates i).
Proof.
  unfold generate_nth_candidate. sim_step. sim_step.
  - repeat sim_step; reflexivity.
  - apply sim_generate_candidate.
Qed.

Lemma sim_mapM {R : RandomGen} {A B C : Type} (e : B -> C)
    (f f' : A -> M R B) (l : list A) :
  (forall x : A, sim e (f x) (f' x)) ->
  sim (map e) (mapM f l) (mapM f' l).
Proof.
  intros Hf. induction l as [| x rest IH]; cbn [mapM].
  - apply sim_ret. reflexivity.
  - eapply sim_bind; [apply Hf |]. intros b b' Hb.
    eapply sim_bind; [exact IH |]. intros bs bs' Hbs.
    apply sim_ret. cbn [map]. rewrite Hb, Hbs. reflexivity.
Qed.

(** *** The selection pass reads nothing that erasure changes *)

Lemma attr_erase {A : Type} (f : Candidate.t -> A) (d : A)
    (store : list Candidate.t) (r : nat) :
  (forall c, f (erase_candidate c) = f c) ->
  attr f d (map erase_candidate store) r = attr f d store r.
Proof.
  intros Hf. unfold attr. rewrite nth_error_map.
  destruct (nth_error store r); cbn; [apply Hf | reflexivity].
Qed.

Lemma insert_desc_ext {A : Type} (k1 k2 : A -> Q) (x : A) (l : list A) :
  (forall a, k1 a = k2 a) -> insert_desc k1 x l = insert_desc k2 x l.
Proof.
  intros Hk. induction l as [| y rest IH]; cbn [insert_desc]; [reflexivity |].
  rewrite !Hk, IH. reflexivity.
Qed.

Lemma sort_desc_ext {A : Type} (k1 k2 : A -> Q) (l : list A) :
  (forall a, k1 a = k2 a) -> sort_desc k1 l = sort_desc k2 l.
Proof.
  intros Hk. induction l as [| x rest IH]; cbn [sort_desc]; [reflexivity |].
  rewrite IH. apply insert_desc_ext. exact Hk.
Qed.

Lemma ranked_refs_erase (store : list Candidate.t) :
  ranked_refs (map erase_candidate store) = ranked_refs store.
Proof.
  unfold ranked_refs, passing_refs. rewrite length_map.
  rewrite (filter_ext _ (attr Candidate.gates_passed false store))
    by (intros r; apply attr_erase; reflexivity).
  apply sort_desc_ext. intros r. apply attr_erase. reflexivity.
Qed.

Lemma update_at_map {A B : Type} (g : A -> B) (f : A -> A) (f' : B -> B)
    (i : nat) (l : list A) :
  (forall a, g (f a) = f' (g a)) ->
  map g (update_at i f l) = update_at i f' (map g l).
Proof.
  intros Hg. revert i.
  induction l as [| x rest IH]; intros i; cbn [update_at map]; [reflexivity |].
  destruct i as [| j]; cbn [map]; [rewrite Hg | rewrite IH]; reflexivity.
Qed.

Lemma sim_mark_survivors (R : RandomGen) (survivors : list nat)
    (store store' : list Candidate.t) :
  map erase_candidate store = map erase_candidate store' ->
  sim (map erase_candidate)
    (mark_survivors R survivors store) (mark_survivors R survivors store').
Proof.
  revert store store'.
  induction survivors as [| r rest IH]; intros store store' Hs; cbn [mark_survivors].
  - apply sim_ret. exact Hs.
  - sim_step. apply IH.
    rewrite !(update_at_map erase_candidate _ (mark_survivor (Qgtb a' 0.5)))
      by reflexivity.
    rewrite Hs. reflexivity.
Qed.

Lemma sim_select_survivors (R : RandomGen) (candidates candidates' : list Candidate.t) :
  map erase_candidate candidates = map erase_candidate candidates' ->
  sim erase_selection (select_survivors R candidates) (select_survivors R candidates').
Proof.
  intros Hs. unfold select_survivors.
  fold (ranked_refs candidates). fold (ranked_refs candidates').
  rewrite <- (ranked_refs_erase candidates), <- (ranked_refs_erase candidates'), Hs.
  sim_step.
  - eapply sim_bind; [apply sim_mark_survivors; exact Hs |].
    intros st st' Hst. apply sim_ret. unfold erase_selection. cbn [fst snd].
    rewrite Hst. reflexivity.
  - apply sim_ret. unfold erase_selection. cbn [fst snd]. rewrite Hs. reflexivity.
Qed.

Lemma sim_generate_ucb_allocations (R : RandomGen) (gen_num : Z) :
  sim (fun u => u) (generate_ucb_allocations R gen_num)
    (generate_ucb_allocations R gen_num).
Proof. unfold generate_ucb_allocations. repeat sim_step; reflexivity. Qed.

Lemma pareto_points_erase (store : list Candidate.t) :
  pareto_points (map erase_candidate store) = pareto_points store.
Proof. unfold pareto_points. rewrite map_map. reflexivity. Qed.

#[local] Hint Resolve sim_generate_ucb_allocations sim_select_survivors : sim.

Lemma sim_generate_generation (R : RandomGen) (clock clock' : nat -> string)
    (gen_num : Z) (parent_candidates : list string) :
  sim erase_generation
    (generate_generation R clock gen_num parent_candidates)
    (generate_generation R clock' gen_num parent_candidates).
Proof.
  unfold generate_generation.
  sim_step; [repeat sim_step; reflexivity |].
  eapply (sim_bind (map erase_candidate));
    [apply sim_mapM; intros i; apply sim_generate_nth_candidate |].
  intros cands cands' Hcands.
  sim_step.
  match goal with H : erase_selection ?a = erase_selection ?b |- _ =>
    destruct a as [store survivors]; destruct b as [store' survivors'];
    unfold erase_selection in H; cbn [fst snd] in H;
    injection H as Hstore Hsurv; subst survivors'
  end.
  sim_step. sim_step.
  unfold erase_generation.
  cbn [Generation.number Generation.candidates Generation.pareto_front
       Generation.ucb_allocations Generation.survivors Generation.breeding_pairs
       Generation.summary].
  rewrite <- (pareto_points_erase store), <- (pareto_points_erase store').
  rewrite <- (length_map erase_candidate store),
    <- (length_map erase_candidate store').
  rewrite (map_ext (attr Candidate.id EmptyString store)
             (attr Candidate.id EmptyString (map erase_candidate store)))
    by (intros r; symmetry; apply attr_erase; reflexivity).
  rewrite (map_ext (attr Candidate.id EmptyString store')
             (attr Candidate.id EmptyString (map erase_candidate store')))
    by (intros r; symmetry; apply attr_erase; reflexivity).
  rewrite Hstore. reflexivity.
Qed.

Lemma sim_run_generations (R : RandomGen) (clock clock' : nat -> string)
    (gen_nums : list Z) (parent_ids : list string) :
  sim (map erase_generation)
    (run_generations R clock gen_nums parent_ids)
    (run_generations R clock' gen_nums parent_ids).
Proof.
  revert parent_ids.
  induction gen_nums as [| i rest IH]; intros parent_ids; cbn [run_generations].
  - apply sim_ret. reflexivity.
  - eapply sim_bind; [apply sim_generate_generation |].
    intros g g' Hg.
    assert (Hs : Generation.survivors g = Generation.survivors g').
    { exact (f_equal Generation.survivors Hg). }
    rewrite Hs.
    eapply sim_bind; [apply IH |].
    intros gs gs' Hgs. apply sim_ret. cbn [map]. rewrite Hg, Hgs. reflexivity.
Qed.

(** X1.  Any two calls of [create_sample_run], whatever the state of the
    generator and the readings of the clock, return the same run once the
    timestamps of the reviewer comments are erased. *)
Lemma create_sample_run_deterministic_up_to_timestamps (R : RandomGen)
    (clock clock' : nat -> string) (w w' : World R) :
  erase_run (fst (create_sample_run R clock w)) =
  erase_run (fst (create_sample_run R clock' w')).
Proof.
  unfold create_sample_run, bind, seed.
  destruct (sim_run_generations R clock clock' (map Z.of_nat (seq 0 5)) []
              (mkWorld (rng_seed R 42) (w_reads w))
              (mkWorld (rng_seed R 42) (w_reads w')) eq_refl) as [Hgens _].
  destruct (run_generations R clock _ [] (mkWorld (rng_seed R 42) (w_reads w)))
    as [gs w1].
  destruct (run_generations R clock' _ [] (mkWorld (rng_seed R 42) (w_reads w')))
    as [gs' w1'].
  cbn [fst snd ret] in *. unfold erase_run.
  cbn [GADRun.id GADRun.name GADRun.requirement GADRun.total_generations
       GADRun.generations GADRun.final_candidate_id GADRun.rpg GADRun.agents].
  rewrite Hgens.
  assert (Hfinal : match rev gs with
                   | final_gen :: _ => hd_error (Generation.survivors final_gen)
                   | [] => None
                   end =
                   match rev gs' with
                   | final_gen :: _ => hd_error (Generation.survivors final_gen)
                   | [] => None
                   end).
  { assert (Hsurv : map Generation.survivors gs = map Generation.survivors gs').
    { assert (He : forall l : list Generation.t,
                map Generation.survivors l =
                map Generation.survivors (map erase_generation l))
        by (intros l; rewrite map_map; reflexivity).
      rewrite (He gs), (He gs'), Hgens. reflexivity. }
    assert (Hrev : forall l : list Generation.t,
              match rev l with
              | final_gen :: _ => hd_error (Generation.survivors final_gen)
              | [] => None
              end =
              match rev (map Generation.survivors l) with
              | s :: _ => hd_error s
              | [] => None
              end).
    { intros l. rewrite <- map_rev. destruct (rev l); reflexivity. }
    rewrite !Hrev, Hsurv. reflexivity. }
  rewrite Hfinal. reflexivity.
Qed.


(** * Accessors, endpoints and lineage *)

(** ** The generations of a run *)

Lemma run_generations_chain (R : RandomGen) (clock : nat -> string)
    (gen_nums : list Z) (parent_ids : list string) (w : World R) :
  generations_from R clock gen_nums parent_ids
    (fst (run_generations R clock gen_nums parent_ids w)).
Proof.
  revert parent_ids w.
  induction gen_nums as [| i rest IH]; intros parent_ids w; cbn [run_generations].
  - constructor.
  - unfold bind.
    pose proof (generations_from_cons R clock i rest parent_ids w) as Hcons.
    destruct (generate_generation R clock i parent_ids w) as [g w1].
    cbn [fst] in Hcons.
    specialize (IH (Generation.survivors g) w1).
    destruct (run_generations R clock rest (Generation.survivors g) w1) as [gs w2].
    cbn [fst ret] in *. apply Hcons. exact IH.
Qed.

Lemma sample_run_chain (R : RandomGen) (clock : nat -> string) (w : World R) :
  generations_from R clock [0; 1; 2; 3; 4]%Z []
    (GADRun.generations (fst (create_sample_run R clock w))).
Proof.
  destruct (create_sample_run_generations R clock w) as [Hg _].
  rewrite Hg. apply run_generations_chain.
Qed.

Lemma generations_from_numbers (R : RandomGen) (clock : nat -> string)
    (nums : list Z) (pool : list string) (gens : list Generation.t) :
  generations_from R clock nums pool gens ->
  map Generation.number gens = nums /\ Forall (is_generation R clock) gens.
Proof.
  induction 1 as [pool | i rest pool w gens Hrest [IHn IHg]].
  - split; [reflexivity | constructor].
  - destruct (generate_generation_shape R clock i pool w) as (Hn & _).
    split; [cbn [map]; rewrite Hn, IHn; reflexivity |].
    constructor; [exists i, pool, w; reflexivity | exact IHg].
Qed.

Lemma mapM_length {S A B : Type} (f : A -> State S B) (l : list A) (s : S) :
  List.length (fst (mapM f l s)) = List.length l.
Proof.
  revert s. induction l as [| x rest IH]; intros s; cbn [mapM]; [reflexivity |].
  unfold bind. destruct (f x s) as [b s1]. specialize (IH s1).
  destruct (mapM f rest s1) as [bs s2]. cbn [fst ret List.length] in *.
  rewrite IH. reflexivity.
Qed.

(** The number of candidates of a generation: eight in generation 0, six
    to eight in any other. *)
Lemma generation_size (R : RandomGen) (clock : nat -> string)
    (gen_num : Z) (parent_candidates : list string) (w : World R) :
  RandomLaws R ->
  let n := List.length
             (Generation.candidates
                (fst (generate_generation R clock gen_num parent_candidates w))) in
  (gen_num = 0%Z -> n = 8%nat) /\ (6 <= n <= 8)%nat.
Proof.
  intros HR n.
  assert (Hn : n = List.length
                     (fst (created_candidates R clock gen_num parent_candidates w))).
  { unfold n. symmetry.
    apply (Forall2_length
             (generation_candidates_frame R clock gen_num parent_candidates w)). }
  rewrite Hn. unfold created_candidates.
  destruct (Z.eqb_spec gen_num 0) as [-> | Hne].
  - cbn [ret]. rewrite mapM_length, length_seq. split; [reflexivity | cbn; lia].
  - pose proof (randint_range R 6 8 w HR ltac:(lia)) as Hr.
    destruct (randint R 6 8 w) as [num w1]. cbn [fst] in Hr.
    rewrite mapM_length, length_seq. split; [contradiction | lia].
Qed.

(** The ids of the candidates of a generation, in order. *)
Lemma generation_ids (R : RandomGen) (clock : nat -> string)
    (gen_num : Z) (parent_candidates : list string) (w : World R) :
  let g := fst (generate_generation R clock gen_num parent_candidates w) in
  map Candidate.id (Generation.candidates g) =
  map (cand_id gen_num) (seq 0 (List.length (Generation.candidates g))).
Proof.
  intros g.
  pose proof (generation_candidates_frame R clock gen_num parent_candidates w)
    as Hframe.
  fold g in Hframe.
  rewrite (Forall2_map_eq frame_eq Candidate.id _ _ frame_eq_id Hframe).
  rewrite <- (Forall2_length Hframe).
  unfold created_candidates.
  destruct ((if (gen_num =? 0)%Z then ret 8%Z else randint R 6 8) w) as [num w1].
  rewrite mapM_candidate_ids, mapM_length, length_seq. reflexivity.
Qed.

(** ** Candidate ids are unique *)

Lemma cand_id_inj_small (g g' : Z) (i i' : nat) :
  (0 <= g <= 4)%Z -> (0 <= g' <= 4)%Z -> (i < 8)%nat -> (i' < 8)%nat ->
  cand_id g i = cand_id g' i' -> g = g' /\ i = i'.
Proof.
  intros Hg Hg' Hi Hi' Heq.
  assert (Hcheck :
            forallb
              (fun a =>
                 forallb
                   (fun j =>
                      forallb
                        (fun a' =>
                           forallb
                             (fun j' =>
                                implb (String.eqb (cand_id a j) (cand_id a' j'))
                                      ((a =? a')%Z && (j =? j')%nat))
                             (seq 0 8))
                        [0; 1; 2; 3; 4]%Z)
                   (seq 0 8))
              [0; 1; 2; 3; 4]%Z = true) by (vm_compute; reflexivity).
  rewrite forallb_forall in Hcheck.
  assert (Hin : forall a : Z, (0 <= a <= 4)%Z -> In a [0; 1; 2; 3; 4]%Z)
    by (intros a Ha; cbn; lia).
  specialize (Hcheck g (Hin g Hg)). rewrite forallb_forall in Hcheck.
  specialize (Hcheck i). rewrite forallb_forall in Hcheck.
  specialize (Hcheck ltac:(apply in_seq; lia) g' (Hin g' Hg')).
  rewrite forallb_forall in Hcheck.
  specialize (Hcheck i' ltac:(apply in_seq; lia)).
  apply String.eqb_eq in Heq. rewrite Heq in Hcheck. cbn [implb] in Hcheck.
  apply andb_prop in Hcheck. destruct Hcheck as [H1 H2].
  apply Z.eqb_eq in H1. apply Nat.eqb_eq in H2. split; assumption.
Qed.

Lemma NoDup_map_on {A B : Type} (f : A -> B) (l : list A) :
  (forall x y : A, In x l -> In y l -> f x = f y -> x = y) ->
  NoDup l -> NoDup (map f l).
Proof.
  intros Hinj Hnd. induction Hnd as [| x l Hx Hnd IH]; cbn [map]; constructor.
  - intros Hin. apply in_map_iff in Hin. destruct Hin as (y & Hy & Hyl).
    assert (y = x) by (apply Hinj; [right; exact Hyl | left; reflexivity | exact Hy]).
    subst y. contradiction.
  - apply IH. intros a b Ha Hb. apply Hinj; right; assumption.
Qed.

Lemma is_generation_small (R : RandomGen) (clock : nat -> string)
    (g : Generation.t) :
  RandomLaws R -> is_generation R clock g -> small_generation g.
Proof.
  intros HR (gen_num & pool & w & ->).
  destruct (generate_generation_shape R clock gen_num pool w) as (Hn & _).
  destruct (generation_size R clock gen_num pool w HR) as [_ Hsize].
  split; [lia |]. rewrite Hn. apply generation_ids.
Qed.

Lemma in_small_generation (g : Generation.t) (x : string) :
  small_generation g ->
  In x (map Candidate.id (Generation.candidates g)) ->
  exists i : nat, (i < 8)%nat /\ x = cand_id (Generation.number g) i.
Proof.
  intros [Hlen Hids] Hin. rewrite Hids in Hin.
  apply in_map_iff in Hin. destruct Hin as (i & <- & Hi).
  apply in_seq in Hi. exists i. split; [lia | reflexivity].
Qed.

Lemma small_generations_nodup (gens : list Generation.t) :
  NoDup (map Generation.number gens) ->
  Forall (fun g => (0 <= Generation.number g <= 4)%Z /\ small_generation g) gens ->
  NoDup (map Candidate.id (flat_map Generation.candidates gens)).
Proof.
  induction gens as [| g rest IH]; intros Hnd Hall; cbn [flat_map map].
  - constructor.
  - inversion Hnd as [| ? ? Hnotin Hnd']; subst.
    inversion Hall as [| ? ? [Hrange Hsmall] Hall']; subst.
    rewrite map_app. apply NoDup_app.
    + destruct Hsmall as [Hlen Hids]. rewrite Hids.
      apply NoDup_map_on; [| apply seq_NoDup].
      intros i j Hi Hj Hij. apply in_seq in Hi. apply in_seq in Hj.
      apply (cand_id_inj_small (Generation.number g) (Generation.number g));
        [lia | lia | lia | lia | exact Hij].
    + apply IH; assumption.
    + intros x Hx Hx'.
      destruct (in_small_generation g x Hsmall Hx) as (i & Hi & ->).
      apply in_map_iff in Hx'. destruct Hx' as (c & Hc & Hcin).
      apply in_flat_map in Hcin. destruct Hcin as (g' & Hg' & Hcg').
      rewrite Forall_forall in Hall'. destruct (Hall' g' Hg') as [Hrange' Hsmall'].
      destruct (in_small_generation g' (Candidate.id c) Hsmall'
                  (in_map Candidate.id _ _ Hcg')) as (i' & Hi' & Hc').
      rewrite Hc' in Hc.
      destruct (cand_id_inj_small (Generation.number g') (Generation.number g) i' i
                  Hrange' Hrange Hi' Hi Hc) as [Hnum _].
      apply Hnotin. rewrite <- Hnum. apply in_map. exact Hg'.
Qed.

(** X5.  The candidate ids of a sample run are pairwise distinct, across
    all of its generations. *)
Theorem sample_run_ids_unique (R : RandomGen) (clock : nat -> string)
    (w : World R) :
  RandomLaws R ->
  NoDup (map Candidate.id (all_candidates (fst (create_sample_run R clock w)))).
Proof.
  intros HR. unfold all_candidates.
  destruct (generations_from_numbers R clock _ _ _ (sample_run_chain R clock w))
    as [Hnums Hgens].
  apply small_generations_nodup.
  - rewrite Hnums. repeat constructor; cbn; lia.
  - rewrite Forall_forall in Hgens. apply Forall_forall. intros g Hg.
    split; [| exact (is_generation_small R clock g HR (Hgens g Hg))].
    assert (Hin : In (Generation.number g) [0; 1; 2; 3; 4]%Z)
      by (rewrite <- Hnums; apply in_map; exact Hg).
    cbn in Hin. lia.
Qed.

Lemma sample_run_ids_unique_witness :
  RandomLaws demo_gen /\
  NoDup (map Candidate.id
           (all_candidates (fst (create_sample_run demo_gen tick_clock demo_world)))).
Proof.
  split; [exact (tape_gen_laws demo_tape) |].
  exact (sample_run_ids_unique demo_gen tick_clock demo_world
           (tape_gen_laws demo_tape)).
Defined.

(** ** [get_generation] *)

Lemma get_generation_spec (run : GADRun.t) (gen_num : Z) :
  ((0 <= gen_num < Z.of_nat (List.length (GADRun.generations run)))%Z ->
   exists g : Generation.t,
     nth_error (GADRun.generations run) (Z.to_nat gen_num) = Some g /\
     get_generation run gen_num = Ok g) /\
  (~ (0 <= gen_num < Z.of_nat (List.length (GADRun.generations run)))%Z ->
   get_generation run gen_num =
   ValueError
     (String.append "Generation " (String.append (str_of_int gen_num) " not found"))).
Proof.
  unfold get_generation. split.
  - intros [H0 H1].
    destruct (Z.leb_spec 0 gen_num) as [_ | ?]; [| lia].
    destruct (Z.ltb_spec gen_num (Z.of_nat (List.length (GADRun.generations run))))
      as [_ | ?]; [| lia].
    cbn [andb].
    destruct (nth_error (GADRun.generations run) (Z.to_nat gen_num)) as [g |] eqn:Hg.
    + exists g. split; reflexivity.
    + apply nth_error_None in Hg. lia.
  - intros Hout.
    destruct (Z.leb_spec 0 gen_num) as [H0 | ?]; [| reflexivity].
    destruct (Z.ltb_spec gen_num (Z.of_nat (List.length (GADRun.generations run))))
      as [H1 | ?]; [| reflexivity].
    exfalso. apply Hout. lia.
Qed.

(** X6.  On a sample run, [get_generation n] returns a generation exactly
    for [0 <= n <= 4], and the generation returned has number [n]; for any
    other [n] it raises [ValueError("Generation n not found")], which the
    endpoint turns into a 404 with that message. *)
Theorem get_generation_of_sample_run (R : RandomGen) (clock : nat -> string)
    (w : World R) (gen_num : Z) :
  let run := fst (create_sample_run R clock w) in
  ((0 <= gen_num <= 4)%Z ->
   exists g : Generation.t,
     get_generation run gen_num = Ok g /\
     Generation.number g = gen_num /\
     get_generation_data run gen_num = Response g) /\
  (~ (0 <= gen_num <= 4)%Z ->
   get_generation run gen_num =
     ValueError
       (String.append "Generation "
          (String.append (str_of_int gen_num) " not found")) /\
   get_generation_data run gen_num =
     HTTPException 404
       (String.append "Generation "
          (String.append (str_of_int gen_num) " not found"))).
Proof.
  intros run.
  destruct (generations_from_numbers R clock _ _ _ (sample_run_chain R clock w))
    as [Hnums _].
  fold run in Hnums.
  assert (Hlen : List.length (GADRun.generations run) = 5%nat).
  { rewrite <- (length_map Generation.number), Hnums. reflexivity. }
  destruct (get_generation_spec run gen_num) as [Hin Hout].
  rewrite Hlen in Hin, Hout. unfold get_generation_data. split.
  - intros Hrange. destruct (Hin ltac:(lia)) as (g & Hnth & Hget).
    exists g. rewrite Hget. split; [reflexivity |]. split; [| reflexivity].
    apply (map_nth_error Generation.number) in Hnth. rewrite Hnums in Hnth.
    assert (Hcases : (gen_num = 0 \/ gen_num = 1 \/ gen_num = 2 \/ gen_num = 3 \/
                      gen_num = 4)%Z) by lia.
    destruct Hcases as [-> | [-> | [-> | [-> | ->]]]];
      cbn in Hnth; injection Hnth as Hnth; symmetry; exact Hnth.
  - intros Hrange. rewrite (Hout ltac:(lia)). split; reflexivity.
Qed.

Lemma get_generation_of_sample_run_witness :
  exists g : Generation.t,
    get_generation (fst (create_sample_run demo_gen tick_clock demo_world)) 3 = Ok g /\
    Generation.number g = 3%Z.
Proof.
  destruct (get_generation_of_sample_run demo_gen tick_clock demo_world 3)
    as [Hin _].
  destruct (Hin ltac:(lia)) as (g & Hget & Hnum & _).
  exists g. split; assumption.
Defined.

(** ** Lookups by candidate id *)

Lemma find_unique {A : Type} (f : A -> string) (l : list A) (c : A) :
  NoDup (map f l) -> In c l ->
  find (fun x => String.eqb (f x) (f c)) l = Some c.
Proof.
  induction l as [| x rest IH]; intros Hnd Hin; [destruct Hin |].
  cbn [map] in Hnd. inversion Hnd as [| ? ? Hnotin Hnd']; subst.
  cbn [find]. destruct Hin as [-> | Hin].
  - rewrite String.eqb_refl. reflexivity.
  - destruct (String.eqb_spec (f x) (f c)) as [Heq | _].
    + exfalso. apply Hnotin. rewrite Heq. apply in_map. exact Hin.
    + apply IH; assumption.
Qed.

Lemma find_absent {A : Type} (f : A -> string) (l : list A) (k : string) :
  ~ In k (map f l) -> find (fun x => String.eqb (f x) k) l = None.
Proof.
  intros Hnot.
  destruct (find (fun x => String.eqb (f x) k) l) as [x |] eqn:Hfind;
    [| reflexivity].
  apply find_some in Hfind. destruct Hfind as [Hin Heq].
  apply String.eqb_eq in Heq. exfalso. apply Hnot. rewrite <- Heq.
  apply in_map. exact Hin.
Qed.

(** Building a bundle reads the clock once. *)
Lemma generate_dna_bundle_reads (R : RandomGen) (clock : nat -> string)
    (candidate : Candidate.t) (w : World R) :
  w_reads (snd (generate_dna_bundle R clock candidate w)) = S (w_reads w).
Proof.
  unfold generate_dna_bundle, bind, now_isoformat.
  pose proof (generate_prompt_dna_reads R (Candidate.generation candidate)
                (Candidate.id candidate) (Candidate.parent_ids candidate) w) as Hr.
  destruct (generate_prompt_dna R _ _ _ w) as [p w1].
  cbn [fst snd w_reads ret] in *. rewrite Hr. reflexivity.
Qed.

(** X7.  On a sample run, [get_dna_bundle] called with the id of a
    candidate of the run builds the bundle of that very candidate: the
    bundle names the candidate, and the call reads the clock once.  Called
    with any other id it raises [ValueError("Candidate <id> not found")]
    (a 404 at the endpoint) without reading the clock or drawing from the
    generator. *)
Theorem get_dna_bundle_of_sample_run (R : RandomGen) (clock : nat -> string)
    (w0 : World R) :
  RandomLaws R ->
  let run := fst (create_sample_run R clock w0) in
  (forall (c : Candidate.t) (w : World R),
     In c (all_candidates run) ->
     exists b : DNABundle.t,
       get_dna_bundle R clock run (Candidate.id c) w =
         (Ok b, snd (generate_dna_bundle R clock c w)) /\
       b = fst (generate_dna_bundle R clock c w) /\
       DNABundle.candidate_id b = Candidate.id c /\
       fst (get_dna_bundle_data R clock run (Candidate.id c) w) = Response b /\
       w_reads (snd (get_dna_bundle R clock run (Candidate.id c) w)) =
         S (w_reads w)) /\
  (forall (candidate_id : string) (w : World R),
     ~ In candidate_id (map Candidate.id (all_candidates run)) ->
     get_dna_bundle R clock run candidate_id w =
       (ValueError
          (String.append "Candidate " (String.append candidate_id " not found")),
        w) /\
     get_dna_bundle_data R clock run candidate_id w =
       (HTTPException 404
          (String.append "Candidate " (String.append candidate_id " not found")),
        w)).
Proof.
  intros HR run. split.
  - intros c w Hin.
    pose proof (find_unique Candidate.id (all_candidates run) c
                  (sample_run_ids_unique R clock w0 HR) Hin) as Hfind.
    assert (Hget : get_dna_bundle R clock run (Candidate.id c) w =
                   (Ok (fst (generate_dna_bundle R clock c w)),
                    snd (generate_dna_bundle R clock c w))).
    { unfold get_dna_bundle. fold (all_candidates run). rewrite Hfind.
      unfold bind, ret. destruct (generate_dna_bundle R clock c w). reflexivity. }
    exists (fst (generate_dna_bundle R clock c w)).
    split; [exact Hget |]. split; [reflexivity |].
    split; [apply (generate_dna_bundle_fields R clock c w) |].
    split.
    + unfold get_dna_bundle_data, bind, ret. rewrite Hget. reflexivity.
    + rewrite Hget. cbn [snd]. apply generate_dna_bundle_reads.
  - intros cid w Hnot.
    pose proof (find_absent Candidate.id (all_candidates run) cid Hnot) as Hfind.
    assert (Hget : get_dna_bundle R clock run cid w =
                   (ValueError
                      (String.append "Candidate " (String.append cid " not found")),
                    w)).
    { unfold get_dna_bundle. fold (all_candidates run). rewrite Hfind. reflexivity. }
    split; [exact Hget |].
    unfold get_dna_bundle_data, bind, ret. rewrite Hget. reflexivity.
Qed.

Lemma get_dna_bundle_of_sample_run_witness :
  RandomLaws demo_gen /\
  get_dna_bundle_data demo_gen tick_clock
    (fst (create_sample_run demo_gen tick_clock demo_world)) "gen9-cand0"
    (snd (create_sample_run demo_gen tick_clock demo_world)) =
  (HTTPException 404 "Candidate gen9-cand0 not found",
   snd (create_sample_run demo_gen tick_clock demo_world)).
Proof.
  split; [exact (tape_gen_laws demo_tape) |].
  destruct (get_dna_bundle_of_sample_run demo_gen tick_clock demo_world
              (tape_gen_laws demo_tape)) as [_ Hmiss].
  apply Hmiss. vm_compute.
  intros H; repeat (destruct H as [H | H]; [discriminate H |]); exact H.
Defined.

(** ** The prompt DNA of a candidate *)

Lemma generate_prompt_dna_args (R : RandomGen) (generation : Z)
    (candidate_id : string) (parent_ids : list string) (w : World R) :
  let p := fst (generate_prompt_dna R generation candidate_id parent_ids w) in
  PromptDNA.id p = String.append "prompt-dna-" candidate_id /\
  PromptDNA.generation p = generation /\
  PromptDNA.parent_ids p = parent_ids.
Proof.
  unfold generate_prompt_dna, bind, ret.
  destruct (0 <? generation)%Z.
  - repeat (destruct (random R _) as [? ?]; cbn beta iota).
    cbn. repeat split; reflexivity.
  - cbn. repeat split; reflexivity.
Qed.

Lemma prompt_frame_id_task (p p' : PromptDNA.t) :
  prompt_frame p = prompt_frame p' ->
  PromptDNA.id p = PromptDNA.id p' /\
  PromptDNA.task_description p = PromptDNA.task_description p'.
Proof.
  unfold prompt_frame. intros H. injection H as H1 H2 H3 _ _ _ _ _ _ _.
  split; assumption.
Qed.

Lemma generate_candidate_prompt_recorded (R : RandomGen) (clock : nat -> string)
    (gen_num candidate_num : Z) (parent_ids : list string)
    (is_good is_pareto selected : bool) (w : World R) :
  prompt_recorded R
    (fst (generate_candidate R clock gen_num candidate_num parent_ids
            is_good is_pareto selected w)).
Proof.
  intros w'. unfold prompt_of.
  destruct (generate_candidate_fields R clock gen_num candidate_num parent_ids
              is_good is_pareto selected w)
    as (_ & _ & _ & _ & _ & Hid & Hgen & Hpar & _).
  rewrite Hid, Hgen, Hpar.
  set (cid := String.append "gen"
                (String.append (str_of_int gen_num)
                   (String.append "-cand" (str_of_int candidate_num)))).
  destruct (generate_prompt_dna_args R gen_num cid parent_ids w')
    as (_ & Hg & Hp).
  assert (Hrec : forall c0,
            c0 = fst (generate_candidate R clock gen_num candidate_num parent_ids
                        is_good is_pareto selected w) ->
            exists w2 : World R,
              Candidate.prompt_dna_id c0 =
                PromptDNA.id (fst (generate_prompt_dna R gen_num cid parent_ids w2)) /\
              Candidate.prompt_dna_summary c0 =
                String.append
                  (substring 0 100
                     (PromptDNA.task_description
                        (fst (generate_prompt_dna R gen_num cid parent_ids w2))))
                  "...").
  { intros c0 ->. unfold generate_candidate, bind. fold cid.
    destruct (generate_metrics R gen_num is_good w) as [m w1].
    cbn [generate_gate_results].
    destruct (generate_reviewer_comments R clock m _ w1) as [cs w2].
    exists w2.
    destruct (generate_prompt_dna R gen_num cid parent_ids w2) as [p w3].
    destruct (randint R 1 3 w3) as [a w4].
    split; reflexivity. }
  destruct (Hrec _ eq_refl) as (w2 & Hpid & Hsum).
  destruct (prompt_frame_id_task _ _
              (generate_prompt_dna_frame R gen_num cid parent_ids w' w2))
    as [Hi Ht].
  rewrite Hpid, Hsum, Hi, Ht.
  repeat split; assumption.
Qed.

Lemma frame_eq_prompt_recorded (R : RandomGen) (c c' : Candidate.t) :
  frame_eq c c' -> prompt_recorded R c -> prompt_recorded R c'.
Proof.
  intros (Hid & Hgen & Hpar & Hpid & Hsum & _) Hrec w.
  unfold prompt_of. rewrite Hid, Hgen, Hpar, Hpid, Hsum. apply Hrec.
Qed.

Lemma Forall2_Forall_r {A : Type} (P : A -> A -> Prop) (Q1 Q2 : A -> Prop)
    (l l' : list A) :
  (forall a b, P a b -> Q1 a -> Q2 b) ->
  Forall2 P l l' -> Forall Q1 l -> Forall Q2 l'.
Proof.
  intros Himp H. induction H as [| a b l l' Hab Hl IH]; intros Hall.
  - constructor.
  - inversion Hall; subst. constructor; [eapply Himp; eassumption | auto].
Qed.

Lemma generation_prompt_recorded (R : RandomGen) (clock : nat -> string)
    (g : Generation.t) :
  is_generation R clock g ->
  Forall (prompt_recorded R) (Generation.candidates g).
Proof.
  intros (gen_num & pool & w & ->).
  apply (Forall2_Forall_r frame_eq (prompt_recorded R) (prompt_recorded R) _ _
           (frame_eq_prompt_recorded R)
           (generation_candidates_frame R clock gen_num pool w)).
  unfold created_candidates.
  destruct ((if (gen_num =? 0)%Z then ret 8%Z else randint R 6 8) w) as [n w1].
  apply mapM_Forall. intros i w'.
  unfold generate_nth_candidate, bind.
  destruct (random R w') as [r w2].
  destruct ((if (gen_num =? 0)%Z then ret []
             else sample R pool (Nat.min 2 (List.length pool))) w2)
    as [parents w3].
  apply generate_candidate_prompt_recorded.
Qed.

Lemma sample_run_is_generation (R : RandomGen) (clock : nat -> string)
    (w : World R) (c : Candidate.t) :
  In c (all_candidates (fst (create_sample_run R clock w))) ->
  exists g : Generation.t,
    In g (GADRun.generations (fst (create_sample_run R clock w))) /\
    is_generation R clock g /\
    In c (Generation.candidates g).
Proof.
  intros Hin. unfold all_candidates in Hin. apply in_flat_map in Hin.
  destruct Hin as (g & Hg & Hc).
  destruct (generations_from_numbers R clock _ _ _ (sample_run_chain R clock w))
    as [_ Hgens].
  rewrite Forall_forall in Hgens.
  exists g. split; [exact Hg |]. split; [exact (Hgens g Hg) | exact Hc].
Qed.

(** X8.  On a sample run, [get_prompt_dna] called with the id of a candidate
    of the run returns a prompt DNA with the id that the candidate records
    in [prompt_dna_id], the candidate's generation and parents, and a task
    description whose first hundred characters followed by ["..."] are the
    candidate's [prompt_dna_summary]; the prompt layer of the candidate's
    DNA bundle agrees in the same way.  For an unknown id it raises
    [ValueError] (a 404 at the endpoint) and leaves generator and clock
    untouched. *)
Theorem get_prompt_dna_of_sample_run (R : RandomGen) (clock : nat -> string)
    (w0 : World R) :
  RandomLaws R ->
  let run := fst (create_sample_run R clock w0) in
  (forall (c : Candidate.t) (w : World R),
     In c (all_candidates run) ->
     exists p : PromptDNA.t,
       fst (get_prompt_dna R run (Candidate.id c) w) = Ok p /\
       fst (get_prompt_dna_data R run (Candidate.id c) w) = Response p /\
       prompt_of c p /\
       prompt_of c (DNABundle.prompt_layer (fst (generate_dna_bundle R clock c w)))) /\
  (forall (candidate_id : string) (w : World R),
     ~ In candidate_id (map Candidate.id (all_candidates run)) ->
     get_prompt_dna_data R run candidate_id w =
       (HTTPException 404
          (String.append "Candidate " (String.append candidate_id " not found")),
        w)).
Proof.
  intros HR run. split.
  - intros c w Hin.
    pose proof (find_unique Candidate.id (all_candidates run) c
                  (sample_run_ids_unique R clock w0 HR) Hin) as Hfind.
    destruct (sample_run_is_generation R clock w0 c Hin) as (g & _ & Hg & Hc).
    pose proof (generation_prompt_recorded R clock g Hg) as Hrec.
    rewrite Forall_forall in Hrec. specialize (Hrec c Hc).
    assert (Hget : fst (get_prompt_dna R run (Candidate.id c) w) =
                   Ok (fst (generate_prompt_dna R (Candidate.generation c)
                              (Candidate.id c) (Candidate.parent_ids c) w))).
    { unfold get_prompt_dna. fold (all_candidates run). rewrite Hfind.
      unfold bind, ret. destruct (generate_prompt_dna R _ _ _ w). reflexivity. }
    eexists. split; [exact Hget |].
    split.
    + unfold get_prompt_dna_data, bind, ret.
      destruct (get_prompt_dna R run (Candidate.id c) w) as [r w1].
      cbn [fst] in *. rewrite Hget. reflexivity.
    + split; [apply Hrec |].
      destruct (generate_dna_bundle_fields R clock c w)
        as (_ & _ & _ & _ & Hlayer & _).
      rewrite Hlayer. apply Hrec.
  - intros cid w Hnot.
    pose proof (find_absent Candidate.id (all_candidates run) cid Hnot) as Hfind.
    unfold get_prompt_dna_data, get_prompt_dna, bind, ret.
    fold (all_candidates run). rewrite Hfind. reflexivity.
Qed.

Lemma demo_run_has_candidate :
  exists c : Candidate.t,
    In c (all_candidates (fst (create_sample_run demo_gen tick_clock demo_world))).
Proof.
  set (cs := all_candidates (fst (create_sample_run demo_gen tick_clock demo_world))).
  assert (H : match cs with [] => false | _ :: _ => true end = true)
    by (vm_compute; reflexivity).
  clearbody cs. destruct cs as [| c rest]; [discriminate H |].
  exists c. left. reflexivity.
Qed.

Lemma get_prompt_dna_of_sample_run_witness :
  RandomLaws demo_gen /\
  exists (c : Candidate.t) (p : PromptDNA.t),
    In c (all_candidates (fst (create_sample_run demo_gen tick_clock demo_world))) /\
    fst (get_prompt_dna demo_gen
           (fst (create_sample_run demo_gen tick_clock demo_world))
           (Candidate.id c) demo_world) = Ok p /\
    PromptDNA.id p = Candidate.prompt_dna_id c.
Proof.
  split; [exact (tape_gen_laws demo_tape) |].
  destruct demo_run_has_candidate as (c & Hc).
  destruct (get_prompt_dna_of_sample_run demo_gen tick_clock demo_world
              (tape_gen_laws demo_tape)) as [Hfound _].
  destruct (Hfound c demo_world Hc) as (p & Hget & _ & Hof & _).
  exists c, p. split; [exact Hc |]. split; [exact Hget | apply Hof].
Defined.

(** ** Quality of generated candidates *)

(** The ranges from which [generate_metrics] draws. *)
Lemma generate_metrics_ranges (R : RandomGen) (generation : Z) (is_good : bool)
    (w : World R) :
  RandomLaws R ->
  let m := fst (generate_metrics R generation is_good w) in
  if is_good then
    (0.95 <= Metrics.test_pass_rate m /\ Metrics.test_pass_rate m < 1)%Q /\
    (0.85 <= Metrics.coverage m /\ Metrics.coverage m < 0.95)%Q /\
    (85 <= Metrics.performance_score m /\ Metrics.performance_score m < 95)%Q /\
    (90 <= Metrics.security_score m /\ Metrics.security_score m < 100)%Q /\
    (80 <= Metrics.ux_score m /\ Metrics.ux_score m < 95)%Q /\
    (90 <= Metrics.style_score m /\ Metrics.style_score m < 100)%Q /\
    Metrics.license_compliance m = true /\
    (0 <= Metrics.vulnerability_count m <= 1)%Z
  else
    (0.6 <= Metrics.test_pass_rate m /\ Metrics.test_pass_rate m < 0.8)%Q /\
    (0.5 <= Metrics.coverage m /\ Metrics.coverage m < 0.7)%Q /\
    (50 <= Metrics.performance_score m /\ Metrics.performance_score m < 80)%Q /\
    (40 <= Metrics.security_score m /\ Metrics.security_score m < 80)%Q /\
    (50 <= Metrics.ux_score m /\ Metrics.ux_score m < 80)%Q /\
    (60 <= Metrics.style_score m /\ Metrics.style_score m < 90)%Q /\
    (2 <= Metrics.vulnerability_count m <= 8)%Z.
Proof.
  intros HR. unfold generate_metrics, bind, ret.
  destruct is_good; repeat next_draw R HR;
    match goal with
    | |- context [randint R ?a ?b ?w0] =>
        pose proof (randint_range R a b w0 HR ltac:(lia)) as Hint;
        destruct (randint R a b w0) as [v ?]
    end;
    cbn [fst Metrics.test_pass_rate Metrics.coverage Metrics.performance_score
         Metrics.security_score Metrics.ux_score Metrics.style_score
         Metrics.vulnerability_count Metrics.license_compliance] in *;
    repeat split; try lra; try lia.
Qed.

Lemma Qgeb_false_iff (a b : Q) : Qgeb a b = false <-> (a < b)%Q.
Proof.
  unfold Qgeb. destruct (Qle_bool b a) eqn:E.
  - apply Qle_bool_iff in E. split; [discriminate | lra].
  - split; [intros _ | reflexivity].
    destruct (Qlt_le_dec a b) as [H | H]; [exact H |].
    apply Qle_bool_iff in H. congruence.
Qed.

Lemma generate_candidate_separated (R : RandomGen) (clock : nat -> string)
    (gen_num candidate_num : Z) (parent_ids : list string)
    (is_good is_pareto selected : bool) (w : World R) :
  RandomLaws R ->
  let c := fst (generate_candidate R clock gen_num candidate_num parent_ids
                  is_good is_pareto selected w) in
  score_separated c /\ (is_good = false -> Candidate.gates_passed c = false).
Proof.
  intros HR c.
  destruct (generate_candidate_fields R clock gen_num candidate_num parent_ids
              is_good is_pareto selected w)
    as (Hm & Hgp & _ & Hscore & _).
  fold c in Hm, Hgp, Hscore.
  pose proof (generate_metrics_ranges R gen_num is_good w HR) as Hr.
  cbv zeta in Hr. rewrite <- Hm in Hr.
  clearbody c. clear Hm. unfold score_separated.
  remember (Candidate.metrics c) as m eqn:Em. clear Em.
  assert (Hpass : Candidate.gates_passed c =
                  Qgeb (Metrics.test_pass_rate m) 0.8 &&
                  Qgeb (Metrics.security_score m) 70 &&
                  (Metrics.vulnerability_count m =? 0)%Z &&
                  Metrics.license_compliance m).
  { rewrite Hgp. unfold generate_gate_results, gates_of.
    cbn [fst forallb GateResult.passed].
    rewrite andb_true_r, !andb_assoc. reflexivity. }
  pose proof (effective_score_of_passed m) as Hp.
  pose proof (effective_score_of_failed m) as Hf.
  unfold weighted_sum in Hp, Hf.
  destruct is_good.
  - destruct Hr as ((T1 & T2) & (C1 & C2) & (P1 & P2) & (S1 & S2) & (U1 & U2) &
                    (Y1 & Y2) & Hlic & Hv).
    assert (Ht : Qgeb (Metrics.test_pass_rate m) 0.8 = true)
      by (apply Qgeb_true_iff; lra).
    assert (Hs : Qgeb (Metrics.security_score m) 70 = true)
      by (apply Qgeb_true_iff; lra).
    rewrite Ht, Hs, Hlic, andb_true_r in Hpass. cbn [andb] in Hpass.
    split; [| discriminate].
    split; intros Hg; rewrite Hscore, Hg.
    + rewrite Hg in Hpass. symmetry in Hpass. apply Z.eqb_eq in Hpass.
      split; [lra |]. split; [exact Hpass | lra].
    + rewrite Hg in Hpass. symmetry in Hpass. apply Z.eqb_neq in Hpass.
      split; [lra | lia].
  - destruct Hr as ((T1 & T2) & (C1 & C2) & (P1 & P2) & (S1 & S2) & (U1 & U2) &
                    (Y1 & Y2) & Hv).
    assert (Hg : Candidate.gates_passed c = false).
    { rewrite Hpass.
      assert (Ht : Qgeb (Metrics.test_pass_rate m) 0.8 = false)
        by (apply Qgeb_false_iff; lra).
      rewrite Ht. reflexivity. }
    split; [| intros _; exact Hg].
    split; intros Hg'; [congruence |].
    rewrite Hscore, Hg. split; [lra | lia].
Qed.

Lemma frame_eq_score_separated (c c' : Candidate.t) :
  frame_eq c c' -> score_separated c -> score_separated c'.
Proof.
  intros (_ & _ & _ & _ & _ & Hm & Hs & _ & Hg & _) Hsep.
  unfold score_separated. rewrite Hm, Hs, Hg. exact Hsep.
Qed.

Lemma generation_score_separated (R : RandomGen) (clock : nat -> string)
    (gen_num : Z) (parent_candidates : list string) (w : World R) :
  RandomLaws R ->
  Forall score_separated
    (Generation.candidates
       (fst (generate_generation R clock gen_num parent_candidates w))).
Proof.
  intros HR.
  apply (Forall2_Forall_r frame_eq score_separated score_separated _ _
           frame_eq_score_separated
           (generation_candidates_frame R clock gen_num parent_candidates w)).
  unfold created_candidates.
  destruct ((if (gen_num =? 0)%Z then ret 8%Z else randint R 6 8) w) as [n w1].
  apply mapM_Forall. intros i w'.
  unfold generate_nth_candidate, bind.
  destruct (random R w') as [r w2].
  destruct ((if (gen_num =? 0)%Z then ret []
             else sample R parent_candidates
                    (Nat.min 2 (List.length parent_candidates))) w2)
    as [parents w3].
  apply generate_candidate_separated. exact HR.
Qed.

Lemma score_separated_apart (c : Candidate.t) :
  score_separated c -> score_apart c.
Proof.
  intros [Hpass Hfail]. unfold score_apart, rounding_slack. split.
  - intros Hp. destruct (Hpass Hp) as (Hs & Hv & Ht).
    split; [lra |]. split; [exact Hv | lra].
  - intros Hf. destruct (Hfail Hf) as (Hs & Hv). split; [lra | exact Hv].
Qed.

(** X9.  In every generation, a candidate that passes the gates has no
    vulnerability, a test pass rate of 0.95 or more and an effective score
    of 88.5 or more, and a candidate that fails them has a vulnerability
    and an effective score of 49 or less, each bound up to the rounding
    slack: ranked by effective score, every passing candidate comes before
    every failing one, by more than 39 points. *)
Theorem passing_outranks_failing (R : RandomGen) (clock : nat -> string)
    (gen_num : Z) (parent_candidates : list string) (w : World R) :
  RandomLaws R ->
  let g := fst (generate_generation R clock gen_num parent_candidates w) in
  Forall score_apart (Generation.candidates g) /\
  (forall c1 c2 : Candidate.t,
     In c1 (Generation.candidates g) -> In c2 (Generation.candidates g) ->
     Candidate.gates_passed c1 = true -> Candidate.gates_passed c2 = false ->
     (Candidate.effective_score c2 + 39 < Candidate.effective_score c1)%Q).
Proof.
  intros HR g.
  pose proof (generation_score_separated R clock gen_num parent_candidates w HR)
    as Hsep.
  fold g in Hsep.
  assert (Hall : Forall score_apart (Generation.candidates g))
    by exact (Forall_impl _ score_separated_apart Hsep).
  split; [exact Hall |].
  intros c1 c2 H1 H2 Hp Hf. rewrite Forall_forall in Hall.
  destruct (Hall c1 H1) as [Hpass _]. destruct (Hall c2 H2) as [_ Hfail].
  destruct (Hpass Hp) as [Hhi _]. destruct (Hfail Hf) as [Hlo _].
  unfold rounding_slack in *. lra.
Qed.

Lemma passing_outranks_failing_witness :
  RandomLaws demo_gen /\
  Forall score_apart
    (Generation.candidates
       (fst (generate_generation demo_gen tick_clock 0 [] demo_world))).
Proof.
  split; [exact (tape_gen_laws demo_tape) |].
  exact (proj1 (passing_outranks_failing demo_gen tick_clock 0 [] demo_world
                  (tape_gen_laws demo_tape))).
Defined.

(** ** Agents of record *)

Lemma generation_candidates_Forall_nth (R : RandomGen) (clock : nat -> string)
    (P : Candidate.t -> Prop)
    (gen_num : Z) (parent_candidates : list string) (w : World R) :
  (forall c c' : Candidate.t, frame_eq c c' -> P c -> P c') ->
  (forall (i : nat) (w' : World R),
     P (fst (generate_nth_candidate R clock gen_num parent_candidates i w'))) ->
  Forall P
    (Generation.candidates
       (fst (generate_generation R clock gen_num parent_candidates w))).
Proof.
  intros Hframe Hgen.
  apply (Forall2_Forall_r frame_eq P P _ _ Hframe
           (generation_candidates_frame R clock gen_num parent_candidates w)).
  unfold created_candidates.
  destruct ((if (gen_num =? 0)%Z then ret 8%Z else randint R 6 8) w) as [n w1].
  apply mapM_Forall. exact Hgen.
Qed.

Lemma generation_candidates_Forall (R : RandomGen) (clock : nat -> string)
    (P : Candidate.t -> Prop)
    (gen_num : Z) (parent_candidates : list string) (w : World R) :
  (forall c c' : Candidate.t, frame_eq c c' -> P c -> P c') ->
  (forall (i : Z) (parents : list string) (is_good : bool) (w' : World R),
     P (fst (generate_candidate R clock gen_num i parents is_good false false w'))) ->
  Forall P
    (Generation.candidates
       (fst (generate_generation R clock gen_num parent_candidates w))).
Proof.
  intros Hframe Hgen.
  apply generation_candidates_Forall_nth; [exact Hframe |].
  intros i w'. unfold generate_nth_candidate, bind.
  destruct (random R w') as [r w2].
  destruct ((if (gen_num =? 0)%Z then ret []
             else sample R parent_candidates
                    (Nat.min 2 (List.length parent_candidates))) w2)
    as [parents w3].
  apply Hgen.
Qed.

Lemma agent_ids_generator :
  agent_ids "generator" = ["generator-001"; "generator-002"; "generator-003"].
Proof. vm_compute. reflexivity. Qed.

Lemma agent_ids_reviewer :
  agent_ids "reviewer" =
  ["reviewer-security-001"; "reviewer-performance-001"; "reviewer-ux-001";
   "reviewer-quality-001"].
Proof. vm_compute. reflexivity. Qed.

Lemma generate_candidate_agent (R : RandomGen) (clock : nat -> string)
    (gen_num candidate_num : Z) (parent_ids : list string)
    (is_good is_pareto selected : bool) (w : World R) :
  RandomLaws R ->
  exists a : Z,
    (1 <= a <= 3)%Z /\
    Candidate.generator_agent_id
      (fst (generate_candidate R clock gen_num candidate_num parent_ids
              is_good is_pareto selected w)) =
    String.append "generator-" (format_03d a).
Proof.
  intros HR. unfold generate_candidate, bind.
  destruct (generate_metrics R gen_num is_good w) as [m w1].
  cbn [generate_gate_results].
  destruct (generate_reviewer_comments R clock m _ w1) as [cs w2].
  destruct (generate_prompt_dna R _ _ _ w2) as [p w3].
  pose proof (randint_range R 1 3 w3 HR ltac:(lia)) as Ha.
  destruct (randint R 1 3 w3) as [a w4].
  exists a. split; [exact Ha | reflexivity].
Qed.

Lemma generate_reviewer_comments_reviewers (R : RandomGen) (clock : nat -> string)
    (m : Metrics.t) (gates_passed : bool) (w : World R) :
  Forall (fun rc => In (ReviewerComment.reviewer_id rc) (agent_ids "reviewer"))
    (fst (generate_reviewer_comments R clock m gates_passed w)).
Proof.
  rewrite agent_ids_reviewer.
  unfold generate_reviewer_comments, bind, ret, now_isoformat.
  destruct gates_passed;
    destruct (Qltb (Metrics.performance_score m) 80);
    destruct (Qgtb (Metrics.ux_score m) 85);
    cbn [fst app];
    repeat (apply Forall_cons || apply Forall_nil);
    cbn [ReviewerComment.reviewer_id In]; auto 6.
Qed.

Lemma generate_candidate_registered (R : RandomGen) (clock : nat -> string)
    (gen_num candidate_num : Z) (parent_ids : list string)
    (is_good is_pareto selected : bool) (w : World R) :
  RandomLaws R ->
  agents_registered
    (fst (generate_candidate R clock gen_num candidate_num parent_ids
            is_good is_pareto selected w)).
Proof.
  intros HR. split.
  - destruct (generate_candidate_agent R clock gen_num candidate_num parent_ids
                is_good is_pareto selected w HR) as (a & Ha & ->).
    rewrite agent_ids_generator.
    assert (Hcases : a = 1%Z \/ a = 2%Z \/ a = 3%Z) by lia.
    destruct Hcases as [-> | [-> | ->]]; vm_compute; auto.
  - destruct (generate_candidate_fields R clock gen_num candidate_num parent_ids
                is_good is_pareto selected w)
      as (_ & _ & _ & _ & _ & _ & _ & _ & _ & _ & ->).
    apply generate_reviewer_comments_reviewers.
Qed.

Lemma frame_eq_agents_registered (c c' : Candidate.t) :
  frame_eq c c' -> agents_registered c -> agents_registered c'.
Proof.
  intros (_ & _ & _ & _ & _ & _ & _ & _ & _ & _ & _ & _ & Ha & Hc) H.
  unfold agents_registered. rewrite Ha, Hc. exact H.
Qed.

(** X10.  The agents that a generation names exist in the table of
    [generate_agents]: the allocation snapshot lists exactly the generator
    agents, every candidate is attributed to one of them, and every reviewer
    comment comes from a reviewer agent.  The evaluator layer of a DNA
    bundle names the generator of its candidate and carries the reviewers
    and reliability scores of the table. *)
Theorem generation_agents_registered (R : RandomGen) (clock : nat -> string)
    (gen_num : Z) (parent_candidates : list string) (w : World R) :
  RandomLaws R ->
  let g := fst (generate_generation R clock gen_num parent_candidates w) in
  map UCBStats.agent_id (Generation.ucb_allocations g) = agent_ids "generator" /\
  Forall agents_registered (Generation.candidates g) /\
  (forall (c : Candidate.t) (w' : World R),
     let e := DNABundle.evaluator_layer (fst (generate_dna_bundle R clock c w')) in
     map UCBStats.agent_id (EvaluatorLayer.ucb_stats e) =
       [Candidate.generator_agent_id c] /\
     map fst (EvaluatorLayer.reviewer_reliabilities e) = agent_ids "reviewer" /\
     Forall2 Qeq (map snd (EvaluatorLayer.reviewer_reliabilities e))
       (map snd agent_reliabilities)).
Proof.
  intros HR g. split; [| split].
  - destruct (generate_generation_shape R clock gen_num parent_candidates w)
      as (_ & _ & _ & Hucb & _).
    fold g in Hucb. rewrite Hucb, agent_ids_generator.
    apply generate_ucb_allocations_fields.
  - apply generation_candidates_Forall.
    + exact frame_eq_agents_registered.
    + intros i parents is_good w'. apply generate_candidate_registered. exact HR.
  - intros c w' e. subst e.
    unfold generate_dna_bundle, bind, ret, now_isoformat.
    destruct (generate_prompt_dna R _ _ _ w') as [p w1].
    cbn [fst DNABundle.evaluator_layer EvaluatorLayer.ucb_stats
         EvaluatorLayer.reviewer_reliabilities map UCBStats.agent_id].
    split; [reflexivity |]. split; [rewrite agent_ids_reviewer; reflexivity |].
    vm_compute. repeat constructor.
Qed.

Lemma generation_agents_registered_witness :
  RandomLaws demo_gen /\
  Forall agents_registered
    (Generation.candidates
       (fst (generate_generation demo_gen tick_clock 1 [] demo_world_1))).
Proof.
  split; [exact (tape_gen_laws demo_tape) |].
  exact (proj1 (proj2 (generation_agents_registered demo_gen tick_clock 1 []
                         demo_world_1 (tape_gen_laws demo_tape)))).
Defined.

(** ** Reviewer comments and their timestamps *)

Lemma generate_reviewer_comments_severities (R : RandomGen) (clock : nat -> string)
    (m : Metrics.t) (gates_passed : bool) (w : World R) :
  map ReviewerComment.severity
    (fst (generate_reviewer_comments R clock m gates_passed w)) =
  (if gates_passed then [] else ["critical"]) ++
  (if Qltb (Metrics.performance_score m) 80 then ["warning"] else []) ++
  (if Qgtb (Metrics.ux_score m) 85 then ["info"] else []).
Proof.
  unfold generate_reviewer_comments, bind, ret, now_isoformat.
  destruct gates_passed;
    destruct (Qltb (Metrics.performance_score m) 80);
    destruct (Qgtb (Metrics.ux_score m) 85); reflexivity.
Qed.

Lemma generate_candidate_passing_good (R : RandomGen) (clock : nat -> string)
    (gen_num candidate_num : Z) (parent_ids : list string)
    (is_good is_pareto selected : bool) (w : World R) :
  RandomLaws R ->
  let c := fst (generate_candidate R clock gen_num candidate_num parent_ids
                  is_good is_pareto selected w) in
  Candidate.gates_passed c = true ->
  (85 <= Metrics.performance_score (Candidate.metrics c))%Q.
Proof.
  intros HR c Hpass.
  destruct (generate_candidate_separated R clock gen_num candidate_num parent_ids
              is_good is_pareto selected w HR) as [_ Hbad].
  fold c in Hbad.
  destruct is_good; [| rewrite (Hbad eq_refl) in Hpass; discriminate].
  destruct (generate_candidate_fields R clock gen_num candidate_num parent_ids
              true is_pareto selected w) as (Hm & _).
  fold c in Hm. rewrite Hm.
  pose proof (generate_metrics_ranges R gen_num true w HR) as Hr.
  cbv beta iota zeta in Hr. tauto.
Qed.

Lemma generate_candidate_comments (R : RandomGen) (clock : nat -> string)
    (gen_num candidate_num : Z) (parent_ids : list string)
    (is_good is_pareto selected : bool) (w : World R) :
  RandomLaws R ->
  comments_follow_metrics
    (fst (generate_candidate R clock gen_num candidate_num parent_ids
            is_good is_pareto selected w)).
Proof.
  intros HR.
  pose proof (generate_candidate_passing_good R clock gen_num candidate_num
                parent_ids is_good is_pareto selected w HR) as Hgood.
  destruct (generate_candidate_fields R clock gen_num candidate_num parent_ids
              is_good is_pareto selected w)
    as (_ & _ & _ & _ & _ & _ & _ & _ & _ & _ & Hc).
  cbv zeta in Hgood.
  set (c := fst (generate_candidate R clock gen_num candidate_num parent_ids
                   is_good is_pareto selected w)) in *.
  assert (Hsev : severities c =
            (if Candidate.gates_passed c then [] else ["critical"]) ++
            (if Qltb (Metrics.performance_score (Candidate.metrics c)) 80
             then ["warning"] else []) ++
            (if Qgtb (Metrics.ux_score (Candidate.metrics c)) 85
             then ["info"] else [])).
  { unfold severities. rewrite Hc.
    apply generate_reviewer_comments_severities. }
  assert (Hlen : List.length (Candidate.reviewer_comments c) =
                 List.length (severities c))
    by (unfold severities; rewrite length_map; reflexivity).
  clearbody c. clear Hc.
  unfold comments_follow_metrics. rewrite Hlen, Hsev.
  pose proof (Qltb_true_iff (Metrics.performance_score (Candidate.metrics c)) 80)
    as Hw.
  pose proof (Qgtb_true_iff (Metrics.ux_score (Candidate.metrics c)) 85) as Hi.
  destruct (Candidate.gates_passed c) eqn:Hg;
    destruct (Qltb (Metrics.performance_score (Candidate.metrics c)) 80) eqn:Hp;
    destruct (Qgtb (Metrics.ux_score (Candidate.metrics c)) 85) eqn:Hu;
    try (exfalso;
         assert (Hlt : (Metrics.performance_score (Candidate.metrics c) < 80)%Q)
           by (apply Hw; reflexivity);
         specialize (Hgood eq_refl); lra);
    cbn [app List.length In incl];
    repeat split; intros;
    try match goal with
        | H : (_ < _)%Q |- _ =>
            first [apply Hw in H | apply Hi in H]; discriminate H
        end;
    repeat match goal with
           | H : _ \/ _ |- _ => destruct H
           | H : False |- _ => destruct H
           | H : _ = _ :> string |- _ => discriminate H
           | H : true = false |- _ => discriminate H
           | H : false = true |- _ => discriminate H
           end;
    try lia; try (apply Hw; reflexivity); try (apply Hi; reflexivity);
    try (intros x Hx; cbn [In] in *; intuition (subst; auto; discriminate));
    auto 6.
Qed.

Lemma frame_eq_comments_follow_metrics (c c' : Candidate.t) :
  frame_eq c c' -> comments_follow_metrics c -> comments_follow_metrics c'.
Proof.
  intros (_ & _ & _ & _ & _ & Hm & _ & _ & Hg & _ & _ & _ & _ & Hc) H.
  unfold comments_follow_metrics, severities. rewrite Hm, Hg, Hc. exact H.
Qed.

(** X11.  The reviewer comments of every candidate of a generation follow
    its metrics: at most three comments, a critical one exactly when the
    gates fail, a warning exactly when the performance score is below 80,
    an info comment exactly when the UX score is above 85.  A candidate
    that passes the gates has no critical comment and no warning, so at
    most one comment. *)
Theorem reviewer_comments_follow_gates (R : RandomGen) (clock : nat -> string)
    (gen_num : Z) (parent_candidates : list string) (w : World R) :
  RandomLaws R ->
  Forall comments_follow_metrics
    (Generation.candidates
       (fst (generate_generation R clock gen_num parent_candidates w))).
Proof.
  intros HR. apply generation_candidates_Forall.
  - exact frame_eq_comments_follow_metrics.
  - intros i parents is_good w'. apply generate_candidate_comments. exact HR.
Qed.

Lemma reviewer_comments_follow_gates_witness :
  RandomLaws demo_gen /\
  Forall comments_follow_metrics
    (Generation.candidates
       (fst (generate_generation demo_gen tick_clock 0 [] demo_world))).
Proof.
  split; [exact (tape_gen_laws demo_tape) |].
  exact (reviewer_comments_follow_gates demo_gen tick_clock 0 [] demo_world
           (tape_gen_laws demo_tape)).
Defined.

(** *** Timestamps *)

Lemma stamps_from_nil (clock : nat -> string) (n : nat) :
  stamps_from clock n [] n.
Proof. split; [reflexivity | cbn; lia]. Qed.

Lemma stamps_from_app (clock : nat -> string) (n0 n1 n2 : nat)
    (cs cs' : list ReviewerComment.t) :
  stamps_from clock n0 cs n1 -> stamps_from clock n1 cs' n2 ->
  stamps_from clock n0 (cs ++ cs') n2.
Proof.
  intros [H1 ->] [H2 ->]. split.
  - rewrite map_app, length_app, seq_app, map_app, H1, H2. reflexivity.
  - rewrite length_app. lia.
Qed.

Lemma generate_reviewer_comments_stamps (R : RandomGen) (clock : nat -> string)
    (m : Metrics.t) (gates_passed : bool) (w : World R) :
  let r := generate_reviewer_comments R clock m gates_passed w in
  stamps_from clock (w_reads w) (fst r) (w_reads (snd r)) /\
  w_rng (snd r) = w_rng w.
Proof.
  unfold generate_reviewer_comments, bind, ret, now_isoformat, stamps_from.
  destruct gates_passed;
    destruct (Qltb (Metrics.performance_score m) 80);
    destruct (Qgtb (Metrics.ux_score m) 85);
    cbn; (split; [split; [reflexivity | lia] | reflexivity]).
Qed.

Lemma sample_reads (R : RandomGen) (population : list string) (k : nat)
    (w : World R) :
  w_reads (snd (sample R population k w)) = w_reads w.
Proof. unfold sample. destruct (rng_sample R population k (w_rng w)). reflexivity. Qed.

Lemma generate_candidate_stamps (R : RandomGen) (clock : nat -> string)
    (gen_num candidate_num : Z) (parent_ids : list string)
    (is_good is_pareto selected : bool) (w : World R) :
  let r := generate_candidate R clock gen_num candidate_num parent_ids
             is_good is_pareto selected w in
  stamps_from clock (w_reads w) (Candidate.reviewer_comments (fst r))
    (w_reads (snd r)).
Proof.
  unfold generate_candidate, bind.
  pose proof (generate_metrics_reads R gen_num is_good w) as Hm.
  destruct (generate_metrics R gen_num is_good w) as [m w1].
  cbn [generate_gate_results].
  pose proof (generate_reviewer_comments_stamps R clock m
                (fst (generate_gate_results m)) w1) as [Hc _].
  cbn [generate_gate_results fst] in Hc.
  destruct (generate_reviewer_comments R clock m _ w1) as [cs w2].
  pose proof (generate_prompt_dna_reads R gen_num
                (String.append "gen"
                   (String.append (str_of_int gen_num)
                      (String.append "-cand" (str_of_int candidate_num))))
                parent_ids w2) as Hp.
  destruct (generate_prompt_dna R _ _ _ w2) as [p w3].
  pose proof (randint_reads R 1 3 w3) as Ha.
  destruct (randint R 1 3 w3) as [a w4].
  cbn [fst snd ret Candidate.reviewer_comments] in *.
  rewrite Ha, Hp, <- Hm. exact Hc.
Qed.

Lemma generate_nth_candidate_stamps (R : RandomGen) (clock : nat -> string)
    (gen_num : Z) (parent_candidates : list string) (i : nat) (w : World R) :
  let r := generate_nth_candidate R clock gen_num parent_candidates i w in
  stamps_from clock (w_reads w) (Candidate.reviewer_comments (fst r))
    (w_reads (snd r)).
Proof.
  unfold generate_nth_candidate, bind.
  pose proof (random_reads R w) as Hr.
  destruct (random R w) as [r w1]. cbn [snd] in Hr.
  assert (Hs : w_reads
                 (snd ((if (gen_num =? 0)%Z then ret []
                        else sample R parent_candidates
                               (Nat.min 2 (List.length parent_candidates))) w1)) =
               w_reads w1)
    by (destruct (gen_num =? 0)%Z; [reflexivity | apply sample_reads]).
  destruct ((if (gen_num =? 0)%Z then ret []
             else sample R parent_candidates
                    (Nat.min 2 (List.length parent_candidates))) w1)
    as [parents w2].
  cbn [snd] in Hs. rewrite <- Hr, <- Hs.
  apply generate_candidate_stamps.
Qed.

Lemma mapM_stamps {A : Type} (R : RandomGen) (clock : nat -> string)
    (f : A -> M R Candidate.t) (l : list A) (w : World R) :
  (forall x w',
     stamps_from clock (w_reads w') (Candidate.reviewer_comments (fst (f x w')))
       (w_reads (snd (f x w')))) ->
  stamps_from clock (w_reads w)
    (flat_map Candidate.reviewer_comments (fst (mapM f l w)))
    (w_reads (snd (mapM f l w))).
Proof.
  intros Hf. revert w. induction l as [| x l IH]; intros w.
  - apply stamps_from_nil.
  - cbn [mapM]. unfold bind.
    specialize (Hf x w). destruct (f x w) as [c w1].
    specialize (IH w1). destruct (mapM f l w1) as [cs w2].
    cbn [fst snd ret flat_map] in *.
    eapply stamps_from_app; eassumption.
Qed.

Lemma mark_survivors_reads (R : RandomGen) (survivors : list nat)
    (store : list Candidate.t) (w : World R) :
  w_reads (snd (mark_survivors R survivors store w)) = w_reads w.
Proof.
  revert store w. induction survivors as [| r rest IH]; intros store w.
  - reflexivity.
  - cbn [mark_survivors]. unfold bind.
    pose proof (random_reads R w) as Hr.
    destruct (random R w) as [x w1]. cbn [snd] in Hr.
    rewrite IH. exact Hr.
Qed.

Lemma select_survivors_reads (R : RandomGen) (candidates : list Candidate.t)
    (w : World R) :
  w_reads (snd (select_survivors R candidates w)) = w_reads w.
Proof.
  unfold select_survivors.
  destruct (2 <=? _)%nat; [| reflexivity].
  unfold bind.
  pose proof (mark_survivors_reads R
                (firstn 3
                   (sort_desc (attr Candidate.effective_score 0%Q candidates)
                      (passing_refs candidates)))
                candidates w) as Hm.
  destruct (mark_survivors R _ candidates w) as [store w1].
  exact Hm.
Qed.

Lemma generate_ucb_allocations_reads (R : RandomGen) (gen_num : Z) (w : World R) :
  w_reads (snd (generate_ucb_allocations R gen_num w)) = w_reads w.
Proof.
  unfold generate_ucb_allocations, bind.
  pose proof (random_reads R w) as H1.
  destruct (random R w) as [r1 w1].
  pose proof (random_reads R w1) as H2.
  destruct (random R w1) as [r2 w2].
  pose proof (random_reads R w2) as H3.
  destruct (random R w2) as [r3 w3].
  cbn [snd ret] in *. congruence.
Qed.

Lemma marked_reviewer_comments (c c' : Candidate.t) :
  marked c c' -> Candidate.reviewer_comments c' = Candidate.reviewer_comments c.
Proof.
  intros H. apply marked_frame_eq in H.
  destruct H as (_ & _ & _ & _ & _ & _ & _ & _ & _ & _ & _ & _ & _ & Hc).
  exact Hc.
Qed.

Lemma generate_generation_stamps (R : RandomGen) (clock : nat -> string)
    (gen_num : Z) (parent_candidates : list string) (w : World R) :
  let r := generate_generation R clock gen_num parent_candidates w in
  stamps_from clock (w_reads w)
    (flat_map Candidate.reviewer_comments (Generation.candidates (fst r)))
    (w_reads (snd r)).
Proof.
  unfold generate_generation, bind.
  assert (Hn : w_reads
                 (snd ((if (gen_num =? 0)%Z then ret 8%Z else randint R 6 8) w)) =
               w_reads w)
    by (destruct (gen_num =? 0)%Z; [reflexivity | apply randint_reads]).
  destruct ((if (gen_num =? 0)%Z then ret 8%Z else randint R 6 8) w) as [n w1].
  cbn [snd] in Hn.
  pose proof (mapM_stamps R clock
                (generate_nth_candidate R clock gen_num parent_candidates)
                (seq 0 (Z.to_nat n)) w1
                (generate_nth_candidate_stamps R clock gen_num parent_candidates))
    as Hc.
  destruct (mapM _ _ w1) as [cands w2]. cbn [fst snd] in Hc.
  pose proof (select_survivors_marked R cands w2) as Hmk.
  pose proof (select_survivors_reads R cands w2) as Hs.
  destruct (select_survivors R cands w2) as [[store survivors] w3].
  cbn [fst snd] in Hmk, Hs.
  pose proof (generate_ucb_allocations_reads R gen_num w3) as Hu.
  destruct (generate_ucb_allocations R gen_num w3) as [ucb w4].
  cbn [fst snd ret Generation.candidates] in *.
  rewrite flat_map_concat_map.
  rewrite (Forall2_map_eq marked Candidate.reviewer_comments cands store
             marked_reviewer_comments Hmk).
  rewrite <- flat_map_concat_map.
  rewrite Hu, Hs, <- Hn. exact Hc.
Qed.

Lemma run_generations_stamps (R : RandomGen) (clock : nat -> string)
    (gen_nums : list Z) (parent_ids : list string) (w : World R) :
  let r := run_generations R clock gen_nums parent_ids w in
  stamps_from clock (w_reads w)
    (flat_map Candidate.reviewer_comments
       (flat_map Generation.candidates (fst r)))
    (w_reads (snd r)).
Proof.
  revert parent_ids w.
  induction gen_nums as [| i rest IH]; intros parent_ids w; cbn [run_generations].
  - apply stamps_from_nil.
  - unfold bind.
    pose proof (generate_generation_stamps R clock i parent_ids w) as Hg.
    destruct (generate_generation R clock i parent_ids w) as [g w1].
    specialize (IH (Generation.survivors g) w1).
    destruct (run_generations R clock rest (Generation.survivors g) w1) as [gs w2].
    cbn [fst snd ret flat_map] in *.
    rewrite flat_map_app.
    eapply stamps_from_app; eassumption.
Qed.

(** X12.  The reviewer comments of a sample run, in generation, candidate
    and comment order, carry consecutive clock readings starting with the
    first reading of the call: building the run reads the clock once per
    comment and for nothing else, and a DNA bundle built right after the
    run is stamped with the next reading. *)
Theorem sample_run_comment_timestamps (R : RandomGen) (clock : nat -> string)
    (w : World R) :
  let r := create_sample_run R clock w in
  let comments := all_comments (fst r) in
  map ReviewerComment.timestamp comments =
    map clock (seq (w_reads w) (List.length comments)) /\
  w_reads (snd r) = (w_reads w + List.length comments)%nat /\
  (forall c : Candidate.t,
     DNABundle.timestamp (fst (generate_dna_bundle R clock c (snd r))) =
     clock (w_reads w + List.length comments)%nat).
Proof.
  intros r comments.
  assert (H : stamps_from clock (w_reads w) comments (w_reads (snd r))).
  { subst comments r. unfold all_comments, all_candidates.
    unfold create_sample_run, bind, seed.
    change (map Z.of_nat (seq 0 5)) with [0; 1; 2; 3; 4]%Z.
    pose proof (run_generations_stamps R clock [0; 1; 2; 3; 4]%Z []
                  (mkWorld (rng_seed R 42) (w_reads w))) as Hs.
    destruct (run_generations R clock _ [] _) as [gs w1].
    cbn [fst snd ret GADRun.generations w_reads] in *. exact Hs. }
  destruct H as [Hts Hn].
  split; [exact Hts |]. split; [exact Hn |].
  intros c.
  destruct (generate_dna_bundle_fields R clock c (snd r))
    as (_ & _ & _ & _ & _ & Ht & _).
  rewrite Ht, Hn. reflexivity.
Qed.

(** ** Selection bookkeeping *)

Lemma ltb_irrefl (s : string) : String.ltb s s = false.
Proof.
  unfold String.ltb.
  pose proof (String.compare_antisym s s) as H.
  destruct (String.compare s s); try reflexivity; discriminate H.
Qed.

Lemma cand_id_inj (gen_num : Z) (i j : nat) :
  (i < 10)%nat -> (j < 10)%nat -> cand_id gen_num i = cand_id gen_num j -> i = j.
Proof.
  intros Hi Hj He.
  destruct (Nat.lt_trichotomy i j) as [Hlt | [Heq | Hgt]]; [| exact Heq |].
  - pose proof (cand_id_ascend gen_num i j Hlt Hj) as H.
    rewrite He, ltb_irrefl in H. discriminate H.
  - pose proof (cand_id_ascend gen_num j i Hgt Hi) as H.
    rewrite He, ltb_irrefl in H. discriminate H.
Qed.

Lemma generation_ids_nodup (R : RandomGen) (clock : nat -> string)
    (gen_num : Z) (parent_candidates : list string) (w : World R) :
  RandomLaws R ->
  NoDup (map Candidate.id
           (Generation.candidates
              (fst (generate_generation R clock gen_num parent_candidates w)))).
Proof.
  intros HR.
  destruct (generation_size R clock gen_num parent_candidates w HR) as [_ Hn].
  rewrite generation_ids.
  apply NoDup_map_on; [| apply seq_NoDup].
  intros x y Hx Hy. apply in_seq in Hx, Hy.
  apply cand_id_inj; lia.
Qed.

Lemma update_at_same {A : Type} (f : A -> A) (l : list A) (i : nat) :
  nth_error (update_at i f l) i = option_map f (nth_error l i).
Proof.
  revert i. induction l as [| x rest IH]; intros i.
  - destruct i; reflexivity.
  - destruct i as [| i]; cbn [update_at nth_error option_map];
      [reflexivity | apply IH].
Qed.

Lemma mark_survivor_recorded (pareto : bool) (c : Candidate.t) :
  Candidate.selected_for_breeding (mark_survivor pareto c) = true /\
  survival_recorded (mark_survivor pareto c).
Proof. destruct pareto; split; reflexivity. Qed.

Lemma mark_survivors_in (R : RandomGen) (survivors : list nat)
    (store : list Candidate.t) (w : World R) (i : nat) (c : Candidate.t) :
  nth_error store i = Some c ->
  In i survivors \/
  (Candidate.selected_for_breeding c = true /\ survival_recorded c) ->
  exists c' : Candidate.t,
    nth_error (fst (mark_survivors R survivors store w)) i = Some c' /\
    Candidate.selected_for_breeding c' = true /\ survival_recorded c'.
Proof.
  revert store w c.
  induction survivors as [| r rest IH]; intros store w c Hc H.
  - destruct H as [[] | H]. exists c. split; [exact Hc | exact H].
  - cbn [mark_survivors]. unfold bind.
    destruct (random R w) as [x w1].
    destruct (Nat.eq_dec i r) as [-> | Hne].
    + apply (IH _ w1 (mark_survivor (Qgtb x 0.5) c)).
      * rewrite update_at_same, Hc. reflexivity.
      * right. apply mark_survivor_recorded.
    + apply (IH _ w1 c).
      * rewrite update_at_other; [exact Hc | exact Hne].
      * destruct H as [[H | H] | H]; [congruence | left; exact H | right; exact H].
Qed.

Lemma select_survivors_in (R : RandomGen) (candidates : list Candidate.t)
    (w : World R) (i : nat) (c : Candidate.t) :
  nth_error candidates i = Some c ->
  In i (snd (fst (select_survivors R candidates w))) ->
  exists c' : Candidate.t,
    nth_error (fst (fst (select_survivors R candidates w))) i = Some c' /\
    Candidate.selected_for_breeding c' = true /\ survival_recorded c'.
Proof.
  unfold select_survivors. intros Hc Hi.
  destruct (2 <=? _)%nat; [| destruct Hi].
  unfold bind in *.
  pose proof (mark_survivors_in R
                (firstn 3
                   (sort_desc (attr Candidate.effective_score 0%Q candidates)
                      (passing_refs candidates)))
                candidates w i c Hc) as Hm.
  destruct (mark_survivors R _ candidates w) as [store w1].
  cbn [fst snd ret] in *. apply Hm. left. exact Hi.
Qed.

Lemma generate_candidate_unselected (R : RandomGen) (clock : nat -> string)
    (gen_num candidate_num : Z) (parent_ids : list string)
    (is_good is_pareto : bool) (w : World R) :
  Candidate.survival_reason
    (fst (generate_candidate R clock gen_num candidate_num parent_ids
            is_good is_pareto false w)) = None.
Proof.
  unfold generate_candidate, bind.
  destruct (generate_metrics R gen_num is_good w) as [m w1].
  cbn [generate_gate_results].
  destruct (generate_reviewer_comments R clock m _ w1) as [cs w2].
  destruct (generate_prompt_dna R _ _ _ w2) as [p w3].
  destruct (randint R 1 3 w3) as [a w4].
  reflexivity.
Qed.

Lemma created_candidates_unmarked (R : RandomGen) (clock : nat -> string)
    (gen_num : Z) (parent_candidates : list string) (w : World R) :
  Forall (fun c => Candidate.selected_for_breeding c = false /\
                   Candidate.survival_reason c = None)
    (fst (created_candidates R clock gen_num parent_candidates w)).
Proof.
  unfold created_candidates.
  destruct ((if (gen_num =? 0)%Z then ret 8%Z else randint R 6 8) w) as [n w1].
  apply mapM_Forall. intros i w'.
  split; [apply generate_nth_candidate_created |].
  unfold generate_nth_candidate, bind.
  destruct (random R w') as [r w2].
  destruct ((if (gen_num =? 0)%Z then ret []
             else sample R parent_candidates
                    (Nat.min 2 (List.length parent_candidates))) w2)
    as [parents w3].
  apply generate_candidate_unselected.
Qed.

Lemma ranked_refs_valid (candidates : list Candidate.t) :
  NoDup (ranked_refs candidates) /\
  forall i : nat, In i (ranked_refs candidates) ->
    exists c : Candidate.t,
      nth_error candidates i = Some c /\ Candidate.gates_passed c = true.
Proof.
  unfold ranked_refs.
  pose proof (sort_desc_perm (attr Candidate.effective_score 0%Q candidates)
                (passing_refs candidates)) as Hp.
  split.
  - apply (Permutation_NoDup (Permutation_sym Hp)).
    unfold passing_refs. apply NoDup_filter, seq_NoDup.
  - intros i Hi. apply (Permutation_in _ Hp) in Hi.
    unfold passing_refs in Hi. apply filter_In in Hi. destruct Hi as [_ Hi].
    unfold attr in Hi. destruct (nth_error candidates i) as [c |];
      [exists c; split; [reflexivity | exact Hi] | discriminate Hi].
Qed.

Lemma NoDup_firstn {A : Type} (n : nat) (l : list A) :
  NoDup l -> NoDup (firstn n l).
Proof.
  intros H. rewrite <- (firstn_skipn n l) in H.
  exact (NoDup_app_remove_r _ _ H).
Qed.

Lemma nth_error_id_inj (store : list Candidate.t) (i j : nat) (c c' : Candidate.t) :
  NoDup (map Candidate.id store) ->
  nth_error store i = Some c -> nth_error store j = Some c' ->
  Candidate.id c = Candidate.id c' -> i = j.
Proof.
  intros Hnd Hi Hj He.
  apply (proj1 (NoDup_nth_error (map Candidate.id store)) Hnd).
  - rewrite length_map. apply nth_error_Some. congruence.
  - rewrite (map_nth_error Candidate.id _ _ Hi), (map_nth_error Candidate.id _ _ Hj).
    congruence.
Qed.

(** The survivor pass, seen from the generation it returns: the survivor
    references are distinct positions of gate-passing candidates, the
    candidate at a survivor position is marked, and every other candidate
    is as it was created. *)
Lemma generation_selection (R : RandomGen) (clock : nat -> string)
    (gen_num : Z) (parent_candidates : list string) (w : World R) :
  let g := fst (generate_generation R clock gen_num parent_candidates w) in
  exists refs : list nat,
    NoDup refs /\
    Generation.survivors g =
      map (attr Candidate.id EmptyString (Generation.candidates g)) refs /\
    (forall i : nat, In i refs ->
       exists c : Candidate.t,
         nth_error (Generation.candidates g) i = Some c /\
         Candidate.gates_passed c = true /\
         Candidate.selected_for_breeding c = true /\
         survival_recorded c) /\
    (forall (i : nat) (c : Candidate.t),
       ~ In i refs -> nth_error (Generation.candidates g) i = Some c ->
       Candidate.selected_for_breeding c = false /\
       Candidate.survival_reason c = None).
Proof.
  intros g.
  set (created := created_candidates R clock gen_num parent_candidates w).
  set (selection := fst (select_survivors R (fst created) (snd created))).
  destruct (generate_generation_shape R clock gen_num parent_candidates w)
    as (_ & Hstore & _ & _ & Hsurv & _).
  fold g created in Hstore, Hsurv. fold selection in Hstore, Hsurv.
  rewrite <- Hstore in Hsurv.
  pose proof (generation_candidates_frame R clock gen_num parent_candidates w)
    as Hframe.
  fold g created in Hframe.
  assert (Hother : forall i : nat, ~ In i (snd selection) ->
            nth_error (Generation.candidates g) i = nth_error (fst created) i).
  { intros i Hi. rewrite Hstore. apply select_survivors_other. exact Hi. }
  pose proof (select_survivors_refs R (fst created) (snd created)) as Hrefs.
  fold selection in Hrefs.
  destruct (ranked_refs_valid (fst created)) as [Hnd Hvalid].
  assert (Hsub : forall i, In i (snd selection) -> In i (ranked_refs (fst created))).
  { intros i Hi. rewrite Hrefs in Hi.
    destruct (2 <=? _)%nat; [exact (firstn_subset _ _ _ Hi) | destruct Hi]. }
  exists (snd selection). split; [| split; [exact Hsurv | split]].
  - rewrite Hrefs. destruct (2 <=? _)%nat; [| constructor].
    apply NoDup_firstn. exact Hnd.
  - intros i Hi.
    destruct (Hvalid i (Hsub i Hi)) as (c & Hc & Hpass).
    destruct (select_survivors_in R (fst created) (snd created) i c Hc Hi)
      as (c' & Hc' & Hsel & Hrec).
    fold selection in Hc'. rewrite <- Hstore in Hc'.
    exists c'. split; [exact Hc' |]. split; [| split; assumption].
    destruct (Forall2_nth_error_r frame_eq _ _ i c' Hframe Hc') as (c0 & Hc0 & Hfr).
    rewrite Hc in Hc0. injection Hc0 as <-.
    rewrite (frame_eq_gates_passed _ _ Hfr). exact Hpass.
  - intros i c Hi Hc. rewrite (Hother i Hi) in Hc.
    pose proof (created_candidates_unmarked R clock gen_num parent_candidates w)
      as Hun.
    rewrite Forall_forall in Hun. apply Hun.
    exact (nth_error_In _ _ Hc).
Qed.

Lemma generation_survivors_recorded (R : RandomGen) (clock : nat -> string)
    (gen_num : Z) (parent_candidates : list string) (w : World R) :
  RandomLaws R ->
  let g := fst (generate_generation R clock gen_num parent_candidates w) in
  NoDup (Generation.survivors g) /\
  incl (Generation.survivors g) (map Candidate.id (Generation.candidates g)) /\
  Forall (selection_recorded (Generation.survivors g)) (Generation.candidates g).
Proof.
  intros HR g.
  pose proof (generation_ids_nodup R clock gen_num parent_candidates w HR) as Hids.
  fold g in Hids.
  destruct (generation_selection R clock gen_num parent_candidates w)
    as (refs & Hnd & Hsurv & Hin & Hout).
  fold g in Hsurv, Hin, Hout.
  set (store := Generation.candidates g) in *.
  assert (Hattr : forall i c, nth_error store i = Some c ->
            attr Candidate.id EmptyString store i = Candidate.id c).
  { intros i c Hc. unfold attr. rewrite Hc. reflexivity. }
  split; [| split].
  - rewrite Hsurv. apply NoDup_map_on; [| exact Hnd].
    intros i j Hi Hj He.
    destruct (Hin i Hi) as (c & Hc & _). destruct (Hin j Hj) as (c' & Hc' & _).
    rewrite (Hattr i c Hc), (Hattr j c' Hc') in He.
    exact (nth_error_id_inj store i j c c' Hids Hc Hc' He).
  - intros x Hx. rewrite Hsurv in Hx. apply in_map_iff in Hx.
    destruct Hx as (i & <- & Hi). destruct (Hin i Hi) as (c & Hc & _).
    rewrite (Hattr i c Hc). apply in_map. exact (nth_error_In _ _ Hc).
  - apply Forall_forall. intros c Hc.
    apply In_nth_error in Hc. destruct Hc as [i Hc].
    unfold selection_recorded.
    destruct (in_dec Nat.eq_dec i refs) as [Hi | Hi].
    + destruct (Hin i Hi) as (c' & Hc' & Hpass & Hsel & Hrec).
      rewrite Hc in Hc'. injection Hc' as <-.
      split; [| split; [intros _; exact Hpass | exact Hrec]].
      split; [intros _ | intros _; exact Hsel].
      rewrite Hsurv, <- (Hattr i c Hc). apply in_map. exact Hi.
    + destruct (Hout i c Hi Hc) as [Hsel Hreason].
      split; [| split].
      * split; [rewrite Hsel; discriminate |].
        intros Hx. exfalso. apply Hi.
        rewrite Hsurv in Hx. apply in_map_iff in Hx.
        destruct Hx as (j & He & Hj). destruct (Hin j Hj) as (c' & Hc' & _).
        rewrite (Hattr j c' Hc') in He.
        rewrite (nth_error_id_inj store i j c c' Hids Hc Hc' (eq_sym He)).
        exact Hj.
      * rewrite Hsel. discriminate.
      * unfold survival_recorded. rewrite Hsel. exact Hreason.
Qed.

(** X13.  The selection bookkeeping of a generation is consistent: the
    survivor ids are pairwise distinct ids of candidates of the generation;
    a candidate is selected for breeding exactly when its id is a survivor
    id, and then it passes the gates; the survival reason of a candidate is
    absent when it is not selected and otherwise the one that goes with its
    Pareto flag; and no breeding pair pairs a survivor with itself. *)
Theorem survivors_well_formed (R : RandomGen) (clock : nat -> string)
    (gen_num : Z) (parent_candidates : list string) (w : World R) :
  RandomLaws R ->
  let g := fst (generate_generation R clock gen_num parent_candidates w) in
  NoDup (Generation.survivors g) /\
  incl (Generation.survivors g) (map Candidate.id (Generation.candidates g)) /\
  Forall (selection_recorded (Generation.survivors g)) (Generation.candidates g) /\
  (forall a b : string,
     In (a, b) (Generation.breeding_pairs g) ->
     a <> b /\ In a (Generation.survivors g) /\ In b (Generation.survivors g)).
Proof.
  intros HR g.
  destruct (generation_survivors_recorded R clock gen_num parent_candidates w HR)
    as (Hnd & Hincl & Hrec).
  fold g in Hnd, Hincl, Hrec.
  split; [exact Hnd |]. split; [exact Hincl |]. split; [exact Hrec |].
  destruct (generate_generation_shape R clock gen_num parent_candidates w)
    as (_ & _ & _ & _ & _ & Hbp).
  fold g in Hbp. rewrite Hbp. clear Hbp Hincl Hrec.
  destruct (Generation.survivors g) as [| s0 [| s1 rest]];
    cbn [make_breeding_pairs]; intros a b Hab.
  - destruct Hab.
  - destruct Hab.
  - inversion Hnd as [| ? ? Hnot _]; subst.
    destruct Hab as [H | Hab].
    + injection H as <- <-.
      split; [intros Heq; apply Hnot; left; symmetry; exact Heq | cbn; auto].
    + destruct rest as [| s2 rest']; [destruct Hab |].
      destruct Hab as [H | []]. injection H as <- <-.
      split; [intros Heq; apply Hnot; right; left; symmetry; exact Heq
             | cbn; auto].
Qed.

Lemma survivors_well_formed_witness :
  RandomLaws demo_gen /\
  NoDup (Generation.survivors
           (fst (generate_generation demo_gen tick_clock 1 [] demo_world_1))).
Proof.
  split; [exact (tape_gen_laws demo_tape) |].
  exact (proj1 (survivors_well_formed demo_gen tick_clock 1 [] demo_world_1
                  (tape_gen_laws demo_tape))).
Defined.

(** ** Lineage *)

Lemma tape_gen_sample_laws (tape : list Q) : SampleLaws (tape_gen tape).
Proof.
  intros population k s Hk. cbn [tape_gen rng_sample fst].
  split; [apply firstn_length_le; exact Hk |].
  intros x Hx. exact (firstn_subset _ _ _ Hx).
Qed.

Lemma sample_drawn (R : RandomGen) (population : list string) (k : nat)
    (w : World R) :
  SampleLaws R -> (k <= List.length population)%nat ->
  List.length (fst (sample R population k w)) = k /\
  incl (fst (sample R population k w)) population.
Proof.
  intros HS Hk. unfold sample.
  pose proof (HS population k (w_rng w) Hk) as H.
  destruct (rng_sample R population k (w_rng w)) as [x s]. exact H.
Qed.

Lemma generate_nth_candidate_parents (R : RandomGen) (clock : nat -> string)
    (gen_num : Z) (parent_candidates : list string) (i : nat) (w : World R) :
  SampleLaws R ->
  let c := fst (generate_nth_candidate R clock gen_num parent_candidates i w) in
  (gen_num = 0%Z -> Candidate.parent_ids c = []) /\
  (gen_num <> 0%Z -> parents_drawn_from parent_candidates c).
Proof.
  intros HS. unfold generate_nth_candidate, bind.
  destruct (random R w) as [r w1].
  pose proof (sample_drawn R parent_candidates
                (Nat.min 2 (List.length parent_candidates)) w1 HS
                (Nat.le_min_r _ _)) as Hs.
  destruct (gen_num =? 0)%Z eqn:E.
  - apply Z.eqb_eq in E. cbn [ret].
    destruct (generate_candidate_fields R clock gen_num (Z.of_nat i) []
                (Qltb r (0.3 + inject_Z gen_num * 0.15)) false false w1)
      as (_ & _ & _ & _ & _ & _ & _ & Hp & _).
    cbv zeta. split; [intros _; exact Hp | intros H; contradiction].
  - apply Z.eqb_neq in E.
    destruct (sample R parent_candidates _ w1) as [parents w2].
    cbn [fst] in Hs.
    destruct (generate_candidate_fields R clock gen_num (Z.of_nat i) parents
                (Qltb r (0.3 + inject_Z gen_num * 0.15)) false false w2)
      as (_ & _ & _ & _ & _ & _ & _ & Hp & _).
    cbv zeta. split; [intros H; contradiction |].
    intros _. unfold parents_drawn_from. rewrite Hp. exact Hs.
Qed.

Lemma generation_parents (R : RandomGen) (clock : nat -> string)
    (gen_num : Z) (parent_candidates : list string) (w : World R) :
  SampleLaws R ->
  Forall (fun c =>
            (gen_num = 0%Z -> Candidate.parent_ids c = []) /\
            (gen_num <> 0%Z -> parents_drawn_from parent_candidates c))
    (Generation.candidates
       (fst (generate_generation R clock gen_num parent_candidates w))).
Proof.
  intros HS. apply generation_candidates_Forall_nth.
  - intros c c' (_ & _ & Hp & _). unfold parents_drawn_from.
    rewrite Hp. exact (fun H => H).
  - intros i w'. apply generate_nth_candidate_parents. exact HS.
Qed.

Lemma generations_from_head (R : RandomGen) (clock : nat -> string)
    (i : Z) (rest : list Z) (pool : list string) (gens : list Generation.t) :
  generations_from R clock (i :: rest) pool gens ->
  exists (w : World R) (gs : list Generation.t),
    gens = fst (generate_generation R clock i pool w) :: gs.
Proof. intros H. inversion H; subst. eauto. Qed.

Lemma generations_from_step (R : RandomGen) (clock : nat -> string)
    (nums : list Z) (pool : list string) (gens : list Generation.t) :
  generations_from R clock nums pool gens ->
  forall (k : nat) (prev g : Generation.t),
    nth_error gens k = Some prev -> nth_error gens (S k) = Some g ->
    exists (i : Z) (w : World R),
      nth_error nums (S k) = Some i /\
      g = fst (generate_generation R clock i (Generation.survivors prev) w).
Proof.
  induction 1 as [pool | i rest pool w gens Hrest IH]; intros k prev g Hk HSk.
  - destruct k; discriminate Hk.
  - destruct k as [| k]; cbn [nth_error] in *.
    + injection Hk as <-.
      destruct rest as [| j rest'].
      * inversion Hrest; subst. discriminate HSk.
      * destruct (generations_from_head R clock j rest' _ gens Hrest)
          as (w' & gs & ->).
        cbn [nth_error] in HSk. injection HSk as <-.
        exists j, w'. split; reflexivity.
    + exact (IH k prev g Hk HSk).
Qed.

Lemma survivor_is_selected (R : RandomGen) (clock : nat -> string)
    (prev : Generation.t) (pid : string) :
  RandomLaws R -> is_generation R clock prev ->
  In pid (Generation.survivors prev) ->
  exists p : Candidate.t,
    In p (Generation.candidates prev) /\
    Candidate.id p = pid /\
    Candidate.gates_passed p = true /\
    Candidate.selected_for_breeding p = true.
Proof.
  intros HR (gen_num & pool & w & ->) Hpid.
  destruct (generation_survivors_recorded R clock gen_num pool w HR)
    as (_ & Hincl & Hrec).
  pose proof (Hincl pid Hpid) as Hin. apply in_map_iff in Hin.
  destruct Hin as (p & Hid & Hp).
  rewrite Forall_forall in Hrec.
  destruct (Hrec p Hp) as (Hsel & Hpass & _).
  assert (Hs : Candidate.selected_for_breeding p = true)
    by (apply Hsel; rewrite Hid; exact Hpid).
  exists p. split; [exact Hp |]. split; [exact Hid |].
  split; [exact (Hpass Hs) | exact Hs].
Qed.

Lemma bred_from_survivors (R : RandomGen) (clock : nat -> string)
    (prev : Generation.t) (c : Candidate.t) :
  RandomLaws R -> is_generation R clock prev ->
  parents_drawn_from (Generation.survivors prev) c ->
  bred_from R clock prev c.
Proof.
  intros HR Hprev Hdrawn.
  assert (Hparent : forall pid : string,
            In pid (Candidate.parent_ids c) ->
            exists p : Candidate.t,
              In p (Generation.candidates prev) /\
              Candidate.id p = pid /\
              Candidate.gates_passed p = true /\
              Candidate.selected_for_breeding p = true).
  { intros pid Hpid.
    apply (survivor_is_selected R clock prev pid HR Hprev).
    apply (proj2 Hdrawn). exact Hpid. }
  split; [exact Hdrawn |]. split; [exact Hparent |].
  intros h w Hh.
  destruct (generate_dna_bundle_fields R clock c w) as (_ & _ & _ & Hph & _).
  rewrite Hph in Hh. apply in_map_iff in Hh. destruct Hh as (pid & <- & Hpid).
  destruct (Hparent pid Hpid) as (p & Hp & Hid & _ & Hsel).
  exists p. split; [exact Hp |]. split; [exact Hsel |].
  intros w'.
  destruct (generate_dna_bundle_fields R clock p w') as (_ & _ & Hprov & _).
  rewrite Hprov, Hid. reflexivity.
Qed.

(** X14.  Lineage in a sample run: the candidates of generation 0 have no
    parents, and the candidates of every later generation are bred from the
    generation before it.  Their parents are [min(2, n)] ids drawn from its
    [n] survivors (none when it has no survivors), each parent is a
    candidate of that generation that passed the gates and was selected for
    breeding, and each parent hash of a DNA bundle is the provenance hash of
    the bundle of such a parent.  ([random.sample] is any function that
    returns [k] elements of the population.) *)
Theorem sample_run_lineage (R : RandomGen) (clock : nat -> string)
    (w : World R) :
  RandomLaws R -> SampleLaws R ->
  let run := fst (create_sample_run R clock w) in
  (exists (g0 : Generation.t) (rest : list Generation.t),
     GADRun.generations run = g0 :: rest /\
     Forall (fun c => Candidate.parent_ids c = []) (Generation.candidates g0)) /\
  (forall (k : nat) (prev g : Generation.t),
     nth_error (GADRun.generations run) k = Some prev ->
     nth_error (GADRun.generations run) (S k) = Some g ->
     Forall (bred_from R clock prev) (Generation.candidates g)).
Proof.
  intros HR HS run.
  pose proof (sample_run_chain R clock w) as Hchain. fold run in Hchain.
  split.
  - destruct (generations_from_head R clock _ _ _ _ Hchain) as (w0 & gs & Hg).
    exists (fst (generate_generation R clock 0 [] w0)), gs.
    split; [exact Hg |].
    apply (Forall_impl _ (fun c H => proj1 H eq_refl)
             (generation_parents R clock 0 [] w0 HS)).
  - intros k prev g Hk HSk.
    destruct (generations_from_step R clock _ _ _ Hchain k prev g Hk HSk)
      as (i & w' & Hi & ->).
    assert (Hne : i <> 0%Z).
    { do 4 (destruct k as [| k]; [injection Hi as <-; discriminate |]).
      destruct k; discriminate Hi. }
    assert (Hprev : is_generation R clock prev).
    { destruct (generations_from_numbers R clock _ _ _ Hchain) as [_ Hall].
      rewrite Forall_forall in Hall. apply Hall.
      exact (nth_error_In _ _ Hk). }
    apply (Forall_impl _
             (fun c H => bred_from_survivors R clock prev c HR Hprev
                           (proj2 H Hne))
             (generation_parents R clock i (Generation.survivors prev) w' HS)).
Qed.

Lemma sample_run_lineage_witness :
  RandomLaws demo_gen /\ SampleLaws demo_gen /\
  exists (g0 : Generation.t) (rest : list Generation.t),
    GADRun.generations (fst (create_sample_run demo_gen tick_clock demo_world)) =
      g0 :: rest /\
    Forall (fun c => Candidate.parent_ids c = []) (Generation.candidates g0).
Proof.
  split; [exact (tape_gen_laws demo_tape) |].
  split; [exact (tape_gen_sample_laws demo_tape) |].
  exact (proj1 (sample_run_lineage demo_gen tick_clock demo_world
                  (tape_gen_laws demo_tape) (tape_gen_sample_laws demo_tape))).
Defined.

(** ** The run summary *)

Section SortedFacts.
Context {A : Type} (key : A -> Q).

Lemma insert_desc_sorted (x : A) (l : list A) :
  StronglySorted (fun a b => (key b <= key a)%Q) l ->
  StronglySorted (fun a b => (key b <= key a)%Q) (insert_desc key x l).
Proof.
  induction 1 as [| y rest Hrest IH Hy]; cbn [insert_desc].
  - constructor; constructor.
  - destruct (Qltb (key x) (key y)) eqn:E.
    + apply Qltb_true_iff in E. constructor; [exact IH |].
      apply (Permutation_Forall (Permutation_sym (insert_desc_perm key x rest))).
      constructor; [lra | exact Hy].
    + apply Qltb_false_iff in E. constructor.
      * constructor; assumption.
      * constructor; [exact E |].
        apply (Forall_impl _ (fun b Hb => Qle_trans _ _ _ Hb E) Hy).
Qed.

Lemma sort_desc_sorted (l : list A) :
  StronglySorted (fun a b => (key b <= key a)%Q) (sort_desc key l).
Proof.
  induction l as [| x rest IH]; cbn [sort_desc];
    [constructor | apply insert_desc_sorted, IH].
Qed.

Lemma sort_desc_head_max (l rest : list A) (x : A) :
  sort_desc key l = x :: rest ->
  In x l /\ forall y : A, In y l -> (key y <= key x)%Q.
Proof.
  intros H.
  pose proof (sort_desc_perm key l) as Hp.
  pose proof (sort_desc_sorted l) as Hs.
  rewrite H in Hp, Hs.
  split; [apply (Permutation_in _ Hp); left; reflexivity |].
  intros y Hy. apply (Permutation_in _ (Permutation_sym Hp)) in Hy.
  destruct Hy as [<- | Hy]; [lra |].
  inversion Hs as [| ? ? _ Hall]; subst.
  rewrite Forall_forall in Hall. exact (Hall y Hy).
Qed.

End SortedFacts.

Lemma generation_survivors_top3 (R : RandomGen) (clock : nat -> string)
    (gen_num : Z) (parent_candidates : list string) (w : World R) :
  let g := fst (generate_generation R clock gen_num parent_candidates w) in
  Generation.survivors g =
  if (2 <=? List.length (filter Candidate.gates_passed (Generation.candidates g)))%nat
  then top3_ids (Generation.candidates g) else [].
Proof.
  intros g.
  pose proof (generation_candidates_frame R clock gen_num parent_candidates w)
    as Hframe.
  fold g in Hframe.
  set (created := fst (created_candidates R clock gen_num parent_candidates w))
    in Hframe.
  unfold g at 1. rewrite generation_survivors_refs. fold created.
  rewrite ranked_refs_length.
  rewrite <- (Forall2_filter_length frame_eq Candidate.gates_passed _ _
                frame_eq_gates_passed Hframe).
  destruct (2 <=? _)%nat; [| reflexivity].
  rewrite ranked_refs_top3.
  apply top3_ids_core. symmetry.
  exact (Forall2_map_eq frame_eq core _ _ frame_eq_core Hframe).
Qed.

Lemma generation_survivors_length (R : RandomGen) (clock : nat -> string)
    (gen_num : Z) (parent_candidates : list string) (w : World R) :
  (List.length
     (Generation.survivors
        (fst (generate_generation R clock gen_num parent_candidates w))) <= 3)%nat.
Proof.
  rewrite generation_survivors_top3.
  destruct (2 <=? _)%nat; [| cbn; lia].
  unfold top3_ids. rewrite length_map. apply firstn_le_length.
Qed.

(** The first survivor of a generation is the best of the generation, and
    a scan of the candidates for its id finds it. *)
Lemma generation_top_survivor (R : RandomGen) (clock : nat -> string)
    (gen_num : Z) (parent_candidates : list string) (w : World R)
    (sid : string) (others : list string) :
  RandomLaws R ->
  let g := fst (generate_generation R clock gen_num parent_candidates w) in
  Generation.survivors g = sid :: others ->
  exists p : Candidate.t,
    find (fun cand => String.eqb (Candidate.id cand) sid) (Generation.candidates g) =
      Some p /\
    Candidate.id p = sid /\
    best_of g p.
Proof.
  intros HR g Hsurv.
  pose proof (generation_survivors_top3 R clock gen_num parent_candidates w) as Htop.
  cbv zeta in Htop. fold g in Htop. rewrite Hsurv in Htop.
  destruct (2 <=? _)%nat; [| discriminate Htop].
  unfold top3_ids in Htop.
  destruct (sort_desc Candidate.effective_score
              (filter Candidate.gates_passed (Generation.candidates g)))
    as [| p rest] eqn:Hsort; [discriminate Htop |].
  cbn [firstn map] in Htop. injection Htop as Hid _.
  destruct (sort_desc_head_max Candidate.effective_score _ _ _ Hsort)
    as [Hin Hmax].
  apply filter_In in Hin. destruct Hin as [Hin Hpass].
  exists p. split; [| split; [symmetry; exact Hid |]].
  - rewrite Hid. apply find_unique; [| exact Hin].
    apply generation_ids_nodup. exact HR.
  - split; [exact Hin |]. split; [exact Hpass |].
    intros c Hc Hcp. apply Hmax. apply filter_In. split; assumption.
Qed.

Lemma generations_from_cons_inv (R : RandomGen) (clock : nat -> string)
    (i : Z) (rest : list Z) (pool : list string) (gens : list Generation.t) :
  generations_from R clock (i :: rest) pool gens ->
  exists (w : World R) (gs : list Generation.t),
    gens = fst (generate_generation R clock i pool w) :: gs /\
    generations_from R clock rest
      (Generation.survivors (fst (generate_generation R clock i pool w))) gs.
Proof. intros H. inversion H; subst. eauto. Qed.

(** The five generations of a sample run. *)
Lemma sample_run_five (R : RandomGen) (clock : nat -> string) (w : World R) :
  exists (p1 p2 p3 p4 : list string) (w0 w1 w2 w3 w4 : World R),
    GADRun.generations (fst (create_sample_run R clock w)) =
    [ fst (generate_generation R clock 0 [] w0);
      fst (generate_generation R clock 1 p1 w1);
      fst (generate_generation R clock 2 p2 w2);
      fst (generate_generation R clock 3 p3 w3);
      fst (generate_generation R clock 4 p4 w4) ].
Proof.
  pose proof (sample_run_chain R clock w) as H.
  apply generations_from_cons_inv in H. destruct H as (w0 & gs0 & -> & H).
  apply generations_from_cons_inv in H. destruct H as (w1 & gs1 & -> & H).
  apply generations_from_cons_inv in H. destruct H as (w2 & gs2 & -> & H).
  apply generations_from_cons_inv in H. destruct H as (w3 & gs3 & -> & H).
  apply generations_from_cons_inv in H. destruct H as (w4 & gs4 & -> & H).
  inversion H; subst.
  do 4 eexists. exists w0, w1, w2, w3, w4. reflexivity.
Qed.

Lemma create_sample_run_final (R : RandomGen) (clock : nat -> string)
    (w : World R) :
  let run := fst (create_sample_run R clock w) in
  GADRun.final_candidate_id run =
  match rev (GADRun.generations run) with
  | final_gen :: _ => hd_error (Generation.survivors final_gen)
  | [] => None
  end.
Proof.
  unfold create_sample_run, bind, seed.
  destruct (run_generations R clock _ [] _) as [gs w1].
  reflexivity.
Qed.

(** X15.  The summary endpoint on a sample run: it returns a summary
    (the run has a last generation), with [total_generations] equal to 5
    and to the number of generations, [total_candidates] the number of
    candidates of the run, between 32 and 40, and [total_survivors] at most
    15.  [final_survivor] is absent exactly when the last generation has no
    survivors; otherwise it is the entry of the run's final candidate,
    which passes the gates and has the highest effective score among the
    gate-passing candidates of the last generation. *)
Theorem run_summary_of_sample_run (R : RandomGen) (clock : nat -> string)
    (w : World R) :
  RandomLaws R ->
  let run := fst (create_sample_run R clock w) in
  exists (s : RunSummary.t) (last : Generation.t),
    get_run_summary run = Some s /\
    nth_error (GADRun.generations run) 4 = Some last /\
    RunSummary.total_generations s = 5%Z /\
    RunSummary.total_generations s =
      Z.of_nat (List.length (GADRun.generations run)) /\
    RunSummary.total_candidates s = Z.of_nat (List.length (all_candidates run)) /\
    (32 <= RunSummary.total_candidates s <= 40)%Z /\
    (0 <= RunSummary.total_survivors s <= 15)%Z /\
    match RunSummary.final_survivor s with
    | None =>
        Generation.survivors last = [] /\ GADRun.final_candidate_id run = None
    | Some fs =>
        hd_error (Generation.survivors last) = Some (FinalSurvivor.id fs) /\
        GADRun.final_candidate_id run = Some (FinalSurvivor.id fs) /\
        FinalSurvivor.gates_passed fs = true /\
        exists p : Candidate.t, fs = final_survivor_of p /\ best_of last p
    end.
Proof.
  intros HR run.
  destruct (sample_run_five R clock w)
    as (p1 & p2 & p3 & p4 & w0 & w1 & w2 & w3 & w4 & Hgens).
  fold run in Hgens.
  destruct (create_sample_run_generations R clock w) as [_ Htotal].
  fold run in Htotal.
  pose proof (create_sample_run_final R clock w) as Hfinal.
  fold run in Hfinal. cbv zeta in Hfinal.
  destruct (generation_size R clock 0 [] w0 HR) as [H0 _].
  specialize (H0 eq_refl).
  destruct (generation_size R clock 1 p1 w1 HR) as [_ H1].
  destruct (generation_size R clock 2 p2 w2 HR) as [_ H2].
  destruct (generation_size R clock 3 p3 w3 HR) as [_ H3].
  destruct (generation_size R clock 4 p4 w4 HR) as [_ H4].
  pose proof (generation_survivors_length R clock 0 [] w0) as S0.
  pose proof (generation_survivors_length R clock 1 p1 w1) as S1.
  pose proof (generation_survivors_length R clock 2 p2 w2) as S2.
  pose proof (generation_survivors_length R clock 3 p3 w3) as S3.
  pose proof (generation_survivors_length R clock 4 p4 w4) as S4.
  pose proof (fun sid others =>
                generation_top_survivor R clock 4 p4 w4 sid others HR) as Htop.
  cbv zeta in Htop.
  set (g0 := fst (generate_generation R clock 0 [] w0)) in *.
  set (g1 := fst (generate_generation R clock 1 p1 w1)) in *.
  set (g2 := fst (generate_generation R clock 2 p2 w2)) in *.
  set (g3 := fst (generate_generation R clock 3 p3 w3)) in *.
  set (g4 := fst (generate_generation R clock 4 p4 w4)) in *.
  clearbody g0 g1 g2 g3 g4.
  unfold get_run_summary, get_sample_run, all_candidates.
  rewrite Hgens in *. cbn [rev app] in *.
  destruct (Generation.survivors g4) as [| sid others] eqn:Hs4.
  - eexists. exists g4. split; [reflexivity |].
    cbn [RunSummary.total_generations RunSummary.total_candidates
         RunSummary.total_survivors RunSummary.final_survivor
         nth_error sum_len fold_left flat_map List.length].
    rewrite !length_app, Hs4. cbn [List.length hd_error] in *.
    repeat split; try assumption; try reflexivity; lia.
  - destruct (Htop sid others eq_refl) as (p & Hfind & Hid & Hbest).
    rewrite Hfind.
    eexists. exists g4. split; [reflexivity |].
    cbn [RunSummary.total_generations RunSummary.total_candidates
         RunSummary.total_survivors RunSummary.final_survivor
         nth_error sum_len fold_left flat_map List.length
         FinalSurvivor.id FinalSurvivor.gates_passed].
    rewrite !length_app, Hs4. cbn [List.length hd_error] in *.
    subst sid.
    repeat split; try assumption; try reflexivity; try lia;
      try (exact (proj1 (proj2 Hbest))).
    exists p. split; [reflexivity | exact Hbest].
Qed.

Lemma run_summary_of_sample_run_witness :
  RandomLaws demo_gen /\
  exists s : RunSummary.t,
    get_run_summary (fst (create_sample_run demo_gen tick_clock demo_world)) =
      Some s /\
    RunSummary.total_generations s = 5%Z.
Proof.
  split; [exact (tape_gen_laws demo_tape) |].
  destruct (run_summary_of_sample_run demo_gen tick_clock demo_world
              (tape_gen_laws demo_tape)) as (s & last & Hs & _ & Ht & _).
  exists s. split; [exact Hs | exact Ht].
Defined.

(** ** Prompt DNA by generation *)

(** X16.  The prompt DNA of generation 0 (or less) inherits nothing: no
    mutations, no feedback history, no trust-region similarity, and
    building it leaves the random generator and the clock alone.  The
    prompt DNA of a later generation has a similarity between 0.85 and
    0.95, both ends included and up to the rounding slack, two feedback
    entries, and at most two mutations, a feedback integration before a
    constraint refinement. *)
Theorem prompt_dna_by_generation (R : RandomGen) (generation : Z)
    (candidate_id : string) (parent_ids : list string) (w : World R) :
  RandomLaws R ->
  let r := generate_prompt_dna R generation candidate_id parent_ids w in
  ((generation <= 0)%Z -> initial_prompt (fst r) /\ snd r = w) /\
  ((0 < generation)%Z -> refined_prompt (fst r)).
Proof.
  intros HR. unfold generate_prompt_dna, bind, ret.
  destruct (0 <? generation)%Z eqn:E.
  - apply Z.ltb_lt in E.
    repeat next_draw R HR.
    cbn [fst snd].
    split; [intros H; lia | intros _].
    unfold refined_prompt, mutation_types.
    cbn [PromptDNA.trust_region_similarity PromptDNA.mutations
         PromptDNA.feedback_history List.length].
    split; [eexists; split; [reflexivity | unfold rounding_slack; lra] |].
    split; [| reflexivity].
    repeat match goal with
           | |- context [Qgtb ?a ?b] => destruct (Qgtb a b)
           end; cbn; auto 6.
  - apply Z.ltb_ge in E. cbn [fst snd].
    split; [intros _ | intros H; lia].
    split; [| reflexivity]. repeat split.
Qed.

Lemma prompt_dna_by_generation_witness :
  RandomLaws demo_gen /\
  refined_prompt (fst (generate_prompt_dna demo_gen 1 "gen1-cand0" [] demo_world)).
Proof.
  split; [exact (tape_gen_laws demo_tape) |].
  apply (prompt_dna_by_generation demo_gen 1 "gen1-cand0" [] demo_world
           (tape_gen_laws demo_tape)).
  reflexivity.
Defined.

Lemma generate_prompt_dna_task (R : RandomGen) (generation : Z)
    (candidate_id : string) (parent_ids : list string) (w : World R) :
  PromptDNA.task_description
    (fst (generate_prompt_dna R generation candidate_id parent_ids w)) =
  String.append
    "Implement a secure REST API endpoint for user authentication with JWT tokens"
    (if (0 <? generation)%Z
     then String.append " [Gen "
            (String.append (str_of_int generation) " refinement]")
     else EmptyString).
Proof.
  unfold generate_prompt_dna, bind, ret.
  destruct (0 <? generation)%Z;
    repeat (destruct (random R _) as [? ?]; cbn beta iota); reflexivity.
Qed.

Lemma task_description_short (R : RandomGen) (generation : Z)
    (candidate_id : string) (parent_ids : list string) (w : World R) :
  (0 <= generation <= 9)%Z ->
  substring 0 100
    (PromptDNA.task_description
       (fst (generate_prompt_dna R generation candidate_id parent_ids w))) =
  PromptDNA.task_description
    (fst (generate_prompt_dna R generation candidate_id parent_ids w)).
Proof.
  intros Hg. rewrite generate_prompt_dna_task.
  assert (Hcases : generation = 0%Z \/ generation = 1%Z \/ generation = 2%Z \/
                   generation = 3%Z \/ generation = 4%Z \/ generation = 5%Z \/
                   generation = 6%Z \/ generation = 7%Z \/ generation = 8%Z \/
                   generation = 9%Z) by lia.
  repeat (destruct Hcases as [-> | Hcases]; [vm_compute; reflexivity |]).
  subst. vm_compute. reflexivity.
Qed.

Lemma generate_candidate_summary_complete (R : RandomGen) (clock : nat -> string)
    (gen_num candidate_num : Z) (parent_ids : list string)
    (is_good is_pareto selected : bool) (w : World R) :
  (0 <= gen_num <= 9)%Z ->
  summary_complete R
    (fst (generate_candidate R clock gen_num candidate_num parent_ids
            is_good is_pareto selected w)).
Proof.
  intros Hg w'.
  destruct (generate_candidate_prompt_recorded R clock gen_num candidate_num
              parent_ids is_good is_pareto selected w w')
    as (_ & _ & _ & Hsum).
  rewrite <- Hsum.
  destruct (generate_candidate_fields R clock gen_num candidate_num parent_ids
              is_good is_pareto selected w)
    as (_ & _ & _ & _ & _ & _ & Hgen & _).
  rewrite Hgen, task_description_short; [reflexivity | exact Hg].
Qed.

(** X17.  In generations 0 to 9 the 100-character cut of
    [prompt_dna_summary] removes nothing: the summary of every candidate is
    the whole task description of its prompt, followed by the ellipsis. *)
Theorem summary_not_truncated (R : RandomGen) (clock : nat -> string)
    (gen_num : Z) (parent_candidates : list string) (w : World R) :
  (0 <= gen_num <= 9)%Z ->
  Forall (summary_complete R)
    (Generation.candidates
       (fst (generate_generation R clock gen_num parent_candidates w))).
Proof.
  intros Hg. apply generation_candidates_Forall.
  - intros c c' (Hid & Hgen & Hpar & _ & Hsum & _) H w'.
    rewrite Hid, Hgen, Hpar, Hsum. apply H.
  - intros i parents is_good w'.
    apply generate_candidate_summary_complete. exact Hg.
Qed.

Lemma summary_not_truncated_witness :
  (0 <= 4 <= 9)%Z /\
  Forall (summary_complete demo_gen)
    (Generation.candidates
       (fst (generate_generation demo_gen tick_clock 4 [] demo_world))).
Proof.
  split; [lia |].
  apply (summary_not_truncated demo_gen tick_clock 4 [] demo_world). lia.
Defined.

(** ** Scores and their breakdown *)






(** ** Commit ids are unique *)

Lemma generate_candidate_commit (R : RandomGen) (clock : nat -> string)
    (gen_num candidate_num : Z) (parent_ids : list string)
    (is_good is_pareto selected : bool) (w : World R) :
  Candidate.commit_id
    (fst (generate_candidate R clock gen_num candidate_num parent_ids
            is_good is_pareto selected w)) =
  String.append "abc"
    (String.append (str_of_int gen_num)
       (String.append (format_03d candidate_num) "def")).
Proof.
  unfold generate_candidate, bind.
  destruct (generate_metrics R gen_num is_good w) as [m w1].
  cbn [generate_gate_results].
  destruct (generate_reviewer_comments R clock m _ w1) as [cs w2].
  destruct (generate_prompt_dna R _ _ _ w2) as [p w3].
  destruct (randint R 1 3 w3) as [a w4].
  reflexivity.
Qed.

Lemma mapM_map_fst {S A B C : Type} (f : A -> State S B) (g : B -> C) (h : A -> C)
    (l : list A) (s : S) :
  (forall x s', g (fst (f x s')) = h x) ->
  map g (fst (mapM f l s)) = map h l.
Proof.
  intros Hf. revert s. induction l as [| x l IH]; intros s; [reflexivity |].
  cbn [mapM]. unfold bind.
  specialize (Hf x s). destruct (f x s) as [b s1].
  specialize (IH s1). destruct (mapM f l s1) as [bs s2].
  cbn [fst ret map] in *. rewrite Hf, IH. reflexivity.
Qed.

Lemma generation_commits (R : RandomGen) (clock : nat -> string)
    (gen_num : Z) (parent_candidates : list string) (w : World R) :
  let g := fst (generate_generation R clock gen_num parent_candidates w) in
  map Candidate.commit_id (Generation.candidates g) =
  map (commit_of gen_num) (seq 0 (List.length (Generation.candidates g))).
Proof.
  intros g.
  pose proof (generation_candidates_frame R clock gen_num parent_candidates w)
    as Hframe.
  fold g in Hframe.
  rewrite (Forall2_map_eq frame_eq Candidate.commit_id _ _
             (fun a a' H => proj1 (proj2 (proj2 (proj2 (proj2 (proj2 (proj2
                (proj2 (proj2 (proj2 (proj2 (proj2 H))))))))))))
             Hframe).
  rewrite <- (Forall2_length Hframe).
  unfold created_candidates.
  destruct ((if (gen_num =? 0)%Z then ret 8%Z else randint R 6 8) w) as [num w1].
  rewrite mapM_length, length_seq.
  apply mapM_map_fst. intros i w'.
  unfold generate_nth_candidate, bind.
  destruct (random R w') as [r w2].
  destruct ((if (gen_num =? 0)%Z then ret []
             else sample R parent_candidates
                    (Nat.min 2 (List.length parent_candidates))) w2)
    as [parents w3].
  apply generate_candidate_commit.
Qed.

Lemma commit_of_inj_small (g g' : Z) (i i' : nat) :
  (0 <= g <= 4)%Z -> (0 <= g' <= 4)%Z -> (i < 8)%nat -> (i' < 8)%nat ->
  commit_of g i = commit_of g' i' -> g = g' /\ i = i'.
Proof.
  intros Hg Hg' Hi Hi' Heq.
  assert (Hcheck :
            forallb
              (fun a =>
                 forallb
                   (fun j =>
                      forallb
                        (fun a' =>
                           forallb
                             (fun j' =>
                                implb (String.eqb (commit_of a j) (commit_of a' j'))
                                      ((a =? a')%Z && (j =? j')%nat))
                             (seq 0 8))
                        [0; 1; 2; 3; 4]%Z)
                   (seq 0 8))
              [0; 1; 2; 3; 4]%Z = true) by (vm_compute; reflexivity).
  rewrite forallb_forall in Hcheck.
  assert (Hin : forall a : Z, (0 <= a <= 4)%Z -> In a [0; 1; 2; 3; 4]%Z)
    by (intros a Ha; cbn; lia).
  specialize (Hcheck g (Hin g Hg)). rewrite forallb_forall in Hcheck.
  specialize (Hcheck i). rewrite forallb_forall in Hcheck.
  specialize (Hcheck ltac:(apply in_seq; lia) g' (Hin g' Hg')).
  rewrite forallb_forall in Hcheck.
  specialize (Hcheck i' ltac:(apply in_seq; lia)).
  apply String.eqb_eq in Heq. rewrite Heq in Hcheck. cbn [implb] in Hcheck.
  apply andb_prop in Hcheck. destruct Hcheck as [H1 H2].
  apply Z.eqb_eq in H1. apply Nat.eqb_eq in H2. split; assumption.
Qed.

Lemma generations_nodup_by (f : Candidate.t -> string) (name : Z -> nat -> string)
    (gens : list Generation.t) :
  (forall (g g' : Z) (i i' : nat),
     (0 <= g <= 4)%Z -> (0 <= g' <= 4)%Z -> (i < 8)%nat -> (i' < 8)%nat ->
     name g i = name g' i' -> g = g' /\ i = i') ->
  NoDup (map Generation.number gens) ->
  Forall (fun g =>
            (0 <= Generation.number g <= 4)%Z /\
            (List.length (Generation.candidates g) <= 8)%nat /\
            map f (Generation.candidates g) =
            map (name (Generation.number g))
              (seq 0 (List.length (Generation.candidates g)))) gens ->
  NoDup (map f (flat_map Generation.candidates gens)).
Proof.
  intros Hinj.
  induction gens as [| g rest IH]; intros Hnd Hall; cbn [flat_map map].
  - constructor.
  - inversion Hnd as [| ? ? Hnotin Hnd']; subst.
    inversion Hall as [| ? ? (Hrange & Hlen & Hnames) Hall']; subst.
    rewrite map_app. apply NoDup_app.
    + rewrite Hnames. apply NoDup_map_on; [| apply seq_NoDup].
      intros i j Hi Hj Hij. apply in_seq in Hi. apply in_seq in Hj.
      apply (Hinj (Generation.number g) (Generation.number g));
        [lia | lia | lia | lia | exact Hij].
    + apply IH; assumption.
    + intros x Hx Hx'.
      rewrite Hnames in Hx. apply in_map_iff in Hx.
      destruct Hx as (i & <- & Hi). apply in_seq in Hi.
      apply in_map_iff in Hx'. destruct Hx' as (c & Hc & Hcin).
      apply in_flat_map in Hcin. destruct Hcin as (g' & Hg' & Hcg').
      rewrite Forall_forall in Hall'.
      destruct (Hall' g' Hg') as (Hrange' & Hlen' & Hnames').
      assert (Hc' : In (f c) (map f (Generation.candidates g')))
        by (apply in_map; exact Hcg').
      rewrite Hnames' in Hc'. apply in_map_iff in Hc'.
      destruct Hc' as (i' & Hi'eq & Hi'). apply in_seq in Hi'.
      rewrite <- Hi'eq in Hc.
      destruct (Hinj (Generation.number g') (Generation.number g) i' i
                  Hrange' Hrange ltac:(lia) ltac:(lia) Hc) as [Hnum _].
      apply Hnotin. rewrite <- Hnum. apply in_map. exact Hg'.
Qed.

Lemma NoDup_map_inj {A B : Type} (f : A -> B) (l : list A) (x y : A) :
  NoDup (map f l) -> In x l -> In y l -> f x = f y -> x = y.
Proof.
  induction l as [| a l IH]; intros Hnd Hx Hy He; [destruct Hx |].
  cbn [map] in Hnd. inversion Hnd as [| ? ? Hnot Hnd']; subst.
  destruct Hx as [-> | Hx]; destruct Hy as [-> | Hy].
  - reflexivity.
  - exfalso. apply Hnot. rewrite He. apply in_map. exact Hy.
  - exfalso. apply Hnot. rewrite <- He. apply in_map. exact Hx.
  - apply IH; assumption.
Qed.

(** X19.  The commit ids of a sample run are pairwise distinct across all
    of its generations, so the Merkle roots of the DNA bundles tell the
    candidates of the run apart.  The naming scheme itself is not
    injective: [generate_candidate] gives candidate 1000 of generation 1
    and candidate 0 of generation 11 the same commit id, under different
    candidate ids. *)
Theorem sample_run_commits_unique (R : RandomGen) (clock : nat -> string)
    (w : World R) :
  RandomLaws R ->
  let run := fst (create_sample_run R clock w) in
  NoDup (map Candidate.commit_id (all_candidates run)) /\
  (forall (c c' : Candidate.t) (w1 w2 : World R),
     In c (all_candidates run) -> In c' (all_candidates run) ->
     EvaluatorLayer.merkle_root
       (DNABundle.evaluator_layer (fst (generate_dna_bundle R clock c w1))) =
     EvaluatorLayer.merkle_root
       (DNABundle.evaluator_layer (fst (generate_dna_bundle R clock c' w2))) ->
     c = c') /\
  (forall (parents : list string) (good : bool) (w1 w2 : World R),
     let a := fst (generate_candidate R clock 1 1000 parents good false false w1) in
     let b := fst (generate_candidate R clock 11 0 parents good false false w2) in
     Candidate.commit_id a = Candidate.commit_id b /\
     Candidate.id a <> Candidate.id b).
Proof.
  intros HR run.
  assert (Hnd : NoDup (map Candidate.commit_id (all_candidates run))).
  { unfold all_candidates, run.
    destruct (generations_from_numbers R clock _ _ _ (sample_run_chain R clock w))
      as [Hnums Hgens].
    apply (generations_nodup_by Candidate.commit_id commit_of);
      [exact commit_of_inj_small | rewrite Hnums; repeat constructor; cbn; lia |].
    rewrite Forall_forall in Hgens. apply Forall_forall. intros g Hg.
    assert (Hin : In (Generation.number g) [0; 1; 2; 3; 4]%Z)
      by (rewrite <- Hnums; apply in_map; exact Hg).
    split; [cbn in Hin; lia |].
    destruct (Hgens g Hg) as (gen_num & pool & w' & ->).
    destruct (generate_generation_shape R clock gen_num pool w') as (Hn & _).
    destruct (generation_size R clock gen_num pool w' HR) as [_ Hsize].
    split; [lia |]. rewrite Hn. apply generation_commits. }
  split; [exact Hnd |]. split.
  - intros c c' w1 w2 Hc Hc' Hroot.
    apply (NoDup_map_inj Candidate.commit_id _ c c' Hnd Hc Hc').
    unfold generate_dna_bundle, bind, ret, now_isoformat in Hroot.
    destruct (generate_prompt_dna R _ _ _ w1) as [p1 w1'].
    destruct (generate_prompt_dna R _ _ _ w2) as [p2 w2'].
    cbn [fst DNABundle.evaluator_layer EvaluatorLayer.merkle_root] in Hroot.
    (* "merkle-" ++ x = "merkle-" ++ y *)
    cbn [String.append] in Hroot.
    repeat (injection Hroot as Hroot). exact Hroot.
  - intros parents good w1 w2 a b. subst a b.
    rewrite !generate_candidate_commit.
    destruct (generate_candidate_fields R clock 1 1000 parents good false false w1)
      as (_ & _ & _ & _ & _ & Hid1 & _).
    destruct (generate_candidate_fields R clock 11 0 parents good false false w2)
      as (_ & _ & _ & _ & _ & Hid2 & _).
    rewrite Hid1, Hid2.
    split; [vm_compute; reflexivity | vm_compute; discriminate].
Qed.

Lemma sample_run_commits_unique_witness :
  RandomLaws demo_gen /\
  NoDup (map Candidate.commit_id
           (all_candidates (fst (create_sample_run demo_gen tick_clock demo_world)))).
Proof.
  split; [exact (tape_gen_laws demo_tape) |].
  exact (proj1 (sample_run_commits_unique demo_gen tick_clock demo_world
                  (tape_gen_laws demo_tape))).
Defined.

(** ** Quality by generation number *)

Lemma generate_candidate_drawn (R : RandomGen) (clock : nat -> string)
    (gen_num candidate_num : Z) (parent_ids : list string)
    (is_good is_pareto selected : bool) (w : World R) :
  RandomLaws R ->
  let c := fst (generate_candidate R clock gen_num candidate_num parent_ids
                  is_good is_pareto selected w) in
  if is_good then drawn_good c else drawn_bad c.
Proof.
  intros HR c.
  destruct (generate_candidate_fields R clock gen_num candidate_num parent_ids
              is_good is_pareto selected w)
    as (Hm & Hgp & _ & Hscore & _).
  fold c in Hm, Hgp, Hscore.
  pose proof (generate_metrics_ranges R gen_num is_good w HR) as Hr.
  cbv zeta in Hr. rewrite <- Hm in Hr.
  clearbody c. clear Hm. unfold drawn_good, drawn_bad.
  remember (Candidate.metrics c) as m eqn:Em. clear Em.
  assert (Hpass : Candidate.gates_passed c =
                  Qgeb (Metrics.test_pass_rate m) 0.8 &&
                  Qgeb (Metrics.security_score m) 70 &&
                  (Metrics.vulnerability_count m =? 0)%Z &&
                  Metrics.license_compliance m).
  { rewrite Hgp. unfold generate_gate_results, gates_of.
    cbn [fst forallb GateResult.passed].
    rewrite andb_true_r, !andb_assoc. reflexivity. }
  pose proof (effective_score_of_failed m) as Hf.
  unfold weighted_sum in Hf.
  destruct is_good.
  - destruct Hr as ((T1 & T2) & (C1 & C2) & (P1 & P2) & (S1 & S2) & (U1 & U2) &
                    (Y1 & Y2) & Hlic & Hv).
    assert (Ht : Qgeb (Metrics.test_pass_rate m) 0.8 = true)
      by (apply Qgeb_true_iff; lra).
    assert (Hs : Qgeb (Metrics.security_score m) 70 = true)
      by (apply Qgeb_true_iff; lra).
    rewrite Ht, Hs, Hlic, andb_true_r in Hpass. cbn [andb] in Hpass.
    unfold rounding_slack.
    repeat split; try assumption; try lia; try lra.
    + intros Hg. rewrite Hg in Hpass. symmetry in Hpass.
      apply Z.eqb_eq in Hpass. exact Hpass.
    + intros Hz. rewrite Hpass. apply Z.eqb_eq. exact Hz.
  - destruct Hr as ((T1 & T2) & (C1 & C2) & (P1 & P2) & (S1 & S2) & (U1 & U2) &
                    (Y1 & Y2) & Hv).
    assert (Hg : Candidate.gates_passed c = false).
    { rewrite Hpass.
      assert (Ht : Qgeb (Metrics.test_pass_rate m) 0.8 = false)
        by (apply Qgeb_false_iff; lra).
      rewrite Ht. reflexivity. }
    unfold rounding_slack.
    repeat split; try assumption; try lia; try lra.
    rewrite Hscore, Hg, Hf. lra.
Qed.

Lemma frame_eq_drawn_good (c c' : Candidate.t) :
  frame_eq c c' -> drawn_good c -> drawn_good c'.
Proof.
  intros (_ & _ & _ & _ & _ & Hm & _ & _ & Hg & _) H.
  unfold drawn_good. rewrite Hm, Hg. exact H.
Qed.

Lemma frame_eq_drawn_bad (c c' : Candidate.t) :
  frame_eq c c' -> drawn_bad c -> drawn_bad c'.
Proof.
  intros (_ & _ & _ & _ & _ & Hm & Hs & _ & Hg & _) H.
  unfold drawn_bad. rewrite Hm, Hs, Hg. exact H.
Qed.

Lemma generate_nth_candidate_drawn (R : RandomGen) (clock : nat -> string)
    (gen_num : Z) (parent_candidates : list string) (i : nat) (w : World R) :
  RandomLaws R ->
  let c := fst (generate_nth_candidate R clock gen_num parent_candidates i w) in
  ((5 <= gen_num)%Z -> drawn_good c) /\
  ((gen_num <= -2)%Z -> drawn_bad c) /\
  (drawn_good c \/ drawn_bad c).
Proof.
  intros HR. unfold generate_nth_candidate, bind.
  pose proof (random_range R w HR) as Hr.
  destruct (random R w) as [r w1]. cbn [fst] in Hr.
  destruct ((if (gen_num =? 0)%Z then ret []
             else sample R parent_candidates
                    (Nat.min 2 (List.length parent_candidates))) w1)
    as [parents w2].
  pose proof (generate_candidate_drawn R clock gen_num (Z.of_nat i) parents
                (Qltb r (0.3 + inject_Z gen_num * 0.15)) false false w2 HR) as Hd.
  cbv zeta in *.
  destruct (Qltb r (0.3 + inject_Z gen_num * 0.15)) eqn:E.
  - split; [intros _; exact Hd |]. split; [| left; exact Hd].
    intros Hg. exfalso. apply Qltb_true_iff in E.
    assert (Hq : (inject_Z gen_num <= inject_Z (-2))%Q)
      by (rewrite <- Zle_Qle; exact Hg).
    change (inject_Z (-2)) with (-2 # 1)%Q in Hq. lra.
  - split; [| split; [intros _; exact Hd | right; exact Hd]].
    intros Hg. exfalso. apply Qltb_false_iff in E.
    assert (Hq : (inject_Z 5 <= inject_Z gen_num)%Q)
      by (rewrite <- Zle_Qle; exact Hg).
    change (inject_Z 5) with (5 # 1)%Q in Hq. lra.
Qed.

(** X20.  Quality by generation number, for the generation numbers that a
    double holds exactly.  Every candidate of a generation has the metrics
    of a good draw or of a bad draw; a good draw passes the gates exactly
    when it has no vulnerability, a bad draw never passes and scores 40 or
    less (up to the rounding slack).  For generation numbers from 5 on the
    threshold [0.3 + gen_num * 0.15] exceeds every draw, so all candidates
    are good draws; for generation numbers up to -2 it is below every
    draw, so all candidates are bad draws and the generation has no
    survivors and no breeding pairs. *)
Theorem quality_by_generation (R : RandomGen) (clock : nat -> string)
    (gen_num : Z) (parent_candidates : list string) (w : World R) :
  RandomLaws R -> exact_in_double gen_num ->
  let g := fst (generate_generation R clock gen_num parent_candidates w) in
  Forall (fun c => drawn_good c \/ drawn_bad c) (Generation.candidates g) /\
  ((5 <= gen_num)%Z -> Forall drawn_good (Generation.candidates g)) /\
  ((gen_num <= -2)%Z ->
   Forall drawn_bad (Generation.candidates g) /\
   Generation.survivors g = [] /\ Generation.breeding_pairs g = []).
Proof.
  intros HR _ g.
  assert (Hany : Forall (fun c => drawn_good c \/ drawn_bad c)
                   (Generation.candidates g)).
  { apply generation_candidates_Forall_nth.
    - intros c c' Hfr [H | H];
        [left; exact (frame_eq_drawn_good c c' Hfr H)
        | right; exact (frame_eq_drawn_bad c c' Hfr H)].
    - intros i w'.
      apply (generate_nth_candidate_drawn R clock gen_num parent_candidates i w' HR). }
  split; [exact Hany |]. split.
  - intros Hg. apply generation_candidates_Forall_nth.
    + exact frame_eq_drawn_good.
    + intros i w'.
      apply (generate_nth_candidate_drawn R clock gen_num parent_candidates i w' HR).
      exact Hg.
  - intros Hg.
    assert (Hbad : Forall drawn_bad (Generation.candidates g)).
    { apply generation_candidates_Forall_nth.
      - exact frame_eq_drawn_bad.
      - intros i w'.
        apply (generate_nth_candidate_drawn R clock gen_num parent_candidates
                 i w' HR).
        exact Hg. }
    split; [exact Hbad |].
    apply insufficient_survivors_empty.
    assert (Hnone : forall l : list Candidate.t,
              Forall drawn_bad l -> filter Candidate.gates_passed l = []).
    { intros l Hl. induction Hl as [| c l' (_ & _ & Hc & _) _ IH];
        [reflexivity |].
      cbn [filter]. rewrite Hc. exact IH. }
    fold g. rewrite (Hnone _ Hbad). cbn. lia.
Qed.

Lemma quality_by_generation_witness :
  RandomLaws demo_gen /\ exact_in_double 5 /\
  Forall drawn_good
    (Generation.candidates
       (fst (generate_generation demo_gen tick_clock 5 [] demo_world))).
Proof.
  assert (H5 : exact_in_double 5) by (unfold exact_in_double; lia).
  split; [exact (tape_gen_laws demo_tape) |]. split; [exact H5 |].
  apply (quality_by_generation demo_gen tick_clock 5 [] demo_world
           (tape_gen_laws demo_tape) H5).
  lia.
Defined.

(** ** Gate records *)

Lemma gates_of_supported (m : Metrics.t) : Forall gate_supported (gates_of m).
Proof.
  unfold gates_of, gate_supported.
  repeat (apply Forall_cons || apply Forall_nil);
    cbn [GateResult.threshold GateResult.actual GateResult.passed]; try exact I.
  - intros H. apply Qgeb_true_iff in H. lra.
  - intros H. apply Qgeb_true_iff in H. lra.
  - intros H. apply Z.eqb_eq in H. rewrite H. unfold Qle. cbn. lia.
Qed.

Lemma generate_candidate_gates_recorded (R : RandomGen) (clock : nat -> string)
    (gen_num candidate_num : Z) (parent_ids : list string)
    (is_good is_pareto selected : bool) (w : World R) :
  RandomLaws R ->
  gates_recorded
    (fst (generate_candidate R clock gen_num candidate_num parent_ids
            is_good is_pareto selected w)).
Proof.
  intros HR.
  destruct (generate_candidate_fields R clock gen_num candidate_num parent_ids
              is_good is_pareto selected w)
    as (_ & Hgp & Hgr & _).
  destruct (generate_candidate_separated R clock gen_num candidate_num parent_ids
              is_good is_pareto selected w HR) as [[Hpass Hfail] _].
  set (c := fst (generate_candidate R clock gen_num candidate_num parent_ids
                   is_good is_pareto selected w)) in *.
  clearbody c. unfold gates_recorded.
  rewrite Hgr. unfold generate_gate_results in *. cbn [fst snd] in *.
  split; [reflexivity |]. split; [exact Hgp |].
  split; [apply gates_of_supported |].
  eexists. split; [reflexivity |].
  cbn [GateResult.passed GateResult.actual]. split; [| reflexivity].
  destruct (Candidate.gates_passed c) eqn:Hg.
  - destruct (Hpass eq_refl) as (_ & Hv & _). rewrite Hv. reflexivity.
  - destruct (Hfail eq_refl) as (_ & Hv). apply Z.eqb_neq. lia.
Qed.

Lemma frame_eq_gates_recorded (c c' : Candidate.t) :
  frame_eq c c' -> gates_recorded c -> gates_recorded c'.
Proof.
  intros (_ & _ & _ & _ & _ & Hm & _ & _ & Hg & Hr & _) H.
  unfold gates_recorded. rewrite Hm, Hg, Hr. exact H.
Qed.

(** X21.  The gate records of every candidate of a generation are
    consistent: the four gates in their fixed order, the overall verdict
    the conjunction of their verdicts, and the evidence of every gate
    supporting its verdict.  The verdict of the vulnerability gate is the
    overall verdict: a candidate of a generation fails the gates exactly
    when it has a critical vulnerability, whatever else fails with it. *)
Theorem vulnerability_gate_decides (R : RandomGen) (clock : nat -> string)
    (gen_num : Z) (parent_candidates : list string) (w : World R) :
  RandomLaws R ->
  Forall gates_recorded
    (Generation.candidates
       (fst (generate_generation R clock gen_num parent_candidates w))).
Proof.
  intros HR. apply generation_candidates_Forall.
  - exact frame_eq_gates_recorded.
  - intros i parents is_good w'.
    apply generate_candidate_gates_recorded. exact HR.
Qed.

Lemma vulnerability_gate_decides_witness :
  RandomLaws demo_gen /\
  Forall gates_recorded
    (Generation.candidates
       (fst (generate_generation demo_gen tick_clock 3 [] demo_world))).
Proof.
  split; [exact (tape_gen_laws demo_tape) |].
  exact (vulnerability_gate_decides demo_gen tick_clock 3 [] demo_world
           (tape_gen_laws demo_tape)).
Defined.

(** * The score that the generator stores *)

(** ** In double precision *)





(** ** The gate penalty *)



